(** * Keyword-intelligence pipeline of the amazon-ppc-tool backend

    A shallow embedding of [app/services/ai_bidding.py] (the scoring
    engine [EnhancedAIBiddingPredictor]) and [app/services/scraper.py]
    (suggestion expansion, bulk analysis and competitor reports of
    [AmazonIndiaScraper]), together with the properties the design
    document states about them.

    Conventions of the embedding.
    - A Python [str] is the list of its code points; [str.lower],
      [str.strip] and [str.split] act on it as CPython 3.11 does
      (Unicode 14.0): whitespace is the set of [str.isspace], lower-casing
      follows the lower-case mapping of the Unicode database, U+0130
      becoming two code points and a capital sigma the final or the
      medial small sigma.  The literals of the program are written
      [PyStr.u "..."].  Text the program only composes from its own
      literals (category names, the reasoning line) is a [string].
    - A Python [int] is a [Z].  A Python [float] is the rational it
      denotes; every float operation is the exact operation followed by
      the rounding [fl] of the floating-point format.  The definitions
      take [fl] as a parameter; [binary64] is the rounding of CPython's
      floats and [exact] is arithmetic without rounding.  Properties are
      proved for every [Rounding].
    - A dict with a fixed set of keys is a record.
    - Code that can raise returns [exc A]; code that draws from the
      [random] module threads the state of the generator.
    - What the process reads from its surroundings is a parameter: the
      string hash [py_hash] (randomised per process), the month of the
      clock, the outcome of the HTTP request, the order in which the
      event loop completes tasks. *)

From Stdlib Require Import ZArith QArith Qround Qpower Lqa Lia Ascii String.
From stdpp Require Import base list strings gmap.

(* ================================================================== *)
(** * Python strings *)
(* ================================================================== *)

Module PyStr.

(** A Python [str]: its code points. *)
Definition str : Type := list N.

(** A literal of the program text. *)
Definition u (s : string) : str := map N_of_ascii (list_ascii_of_string s).

(** [str.isspace] on one code point; [strip] and [split] use the same
    set. *)
Definition is_space (c : N) : bool :=
  ((9 <=? c) && (c <=? 13) || (28 <=? c) && (c <=? 32)
   || (c =? 133) || (c =? 160) || (c =? 5760)
   || (8192 <=? c) && (c <=? 8202) || (c =? 8232) || (c =? 8233)
   || (c =? 8239) || (c =? 8287) || (c =? 12288))%N.

(** The lower-case mapping of the Unicode database (version 14.0, the
    one of CPython 3.11): the code points [first, first + stride, ...,
    last] are lower-cased to [image, image + stride, ...].  U+0130 and
    U+03A3 are treated apart. *)
Definition lower_table : list (N * N * N * N) :=
  [(65, 90, 1, 97); (192, 214, 1, 224); (216, 222, 1, 248);
   (256, 302, 2, 257); (306, 310, 2, 307); (313, 327, 2, 314);
   (330, 374, 2, 331); (376, 376, 1, 255); (377, 381, 2, 378);
   (385, 385, 1, 595); (386, 388, 2, 387); (390, 390, 1, 596);
   (391, 391, 1, 392); (393, 394, 1, 598); (395, 395, 1, 396);
   (398, 398, 1, 477); (399, 399, 1, 601); (400, 400, 1, 603);
   (401, 401, 1, 402); (403, 403, 1, 608); (404, 404, 1, 611);
   (406, 406, 1, 617); (407, 407, 1, 616); (408, 408, 1, 409);
   (412, 412, 1, 623); (413, 413, 1, 626); (415, 415, 1, 629);
   (416, 420, 2, 417); (422, 422, 1, 640); (423, 423, 1, 424);
   (425, 425, 1, 643); (428, 428, 1, 429); (430, 430, 1, 648);
   (431, 431, 1, 432); (433, 434, 1, 650); (435, 437, 2, 436);
   (439, 439, 1, 658); (440, 440, 1, 441); (444, 444, 1, 445);
   (452, 452, 1, 454); (453, 453, 1, 454); (455, 455, 1, 457);
   (456, 456, 1, 457); (458, 458, 1, 460); (459, 475, 2, 460);
   (478, 494, 2, 479); (497, 497, 1, 499); (498, 500, 2, 499);
   (502, 502, 1, 405); (503, 503, 1, 447); (504, 542, 2, 505);
   (544, 544, 1, 414); (546, 562, 2, 547); (570, 570, 1, 11365);
   (571, 571, 1, 572); (573, 573, 1, 410); (574, 574, 1, 11366);
   (577, 577, 1, 578); (579, 579, 1, 384); (580, 580, 1, 649);
   (581, 581, 1, 652); (582, 590, 2, 583); (880, 882, 2, 881);
   (886, 886, 1, 887); (895, 895, 1, 1011); (902, 902, 1, 940);
   (904, 906, 1, 941); (908, 908, 1, 972); (910, 911, 1, 973);
   (913, 929, 1, 945); (932, 939, 1, 964); (975, 975, 1, 983);
   (984, 1006, 2, 985); (1012, 1012, 1, 952); (1015, 1015, 1, 1016);
   (1017, 1017, 1, 1010); (1018, 1018, 1, 1019); (1021, 1023, 1, 891);
   (1024, 1039, 1, 1104); (1040, 1071, 1, 1072); (1120, 1152, 2, 1121);
   (1162, 1214, 2, 1163); (1216, 1216, 1, 1231); (1217, 1229, 2, 1218);
   (1232, 1326, 2, 1233); (1329, 1366, 1, 1377); (4256, 4293, 1, 11520);
   (4295, 4295, 1, 11559); (4301, 4301, 1, 11565); (5024, 5103, 1, 43888);
   (5104, 5109, 1, 5112); (7312, 7354, 1, 4304); (7357, 7359, 1, 4349);
   (7680, 7828, 2, 7681); (7838, 7838, 1, 223); (7840, 7934, 2, 7841);
   (7944, 7951, 1, 7936); (7960, 7965, 1, 7952); (7976, 7983, 1, 7968);
   (7992, 7999, 1, 7984); (8008, 8013, 1, 8000); (8025, 8031, 2, 8017);
   (8040, 8047, 1, 8032); (8072, 8079, 1, 8064); (8088, 8095, 1, 8080);
   (8104, 8111, 1, 8096); (8120, 8121, 1, 8112); (8122, 8123, 1, 8048);
   (8124, 8124, 1, 8115); (8136, 8139, 1, 8050); (8140, 8140, 1, 8131);
   (8152, 8153, 1, 8144); (8154, 8155, 1, 8054); (8168, 8169, 1, 8160);
   (8170, 8171, 1, 8058); (8172, 8172, 1, 8165); (8184, 8185, 1, 8056);
   (8186, 8187, 1, 8060); (8188, 8188, 1, 8179); (8486, 8486, 1, 969);
   (8490, 8490, 1, 107); (8491, 8491, 1, 229); (8498, 8498, 1, 8526);
   (8544, 8559, 1, 8560); (8579, 8579, 1, 8580); (9398, 9423, 1, 9424);
   (11264, 11311, 1, 11312); (11360, 11360, 1, 11361); (11362, 11362, 1, 619);
   (11363, 11363, 1, 7549); (11364, 11364, 1, 637); (11367, 11371, 2, 11368);
   (11373, 11373, 1, 593); (11374, 11374, 1, 625); (11375, 11375, 1, 592);
   (11376, 11376, 1, 594); (11378, 11378, 1, 11379); (11381, 11381, 1, 11382);
   (11390, 11391, 1, 575); (11392, 11490, 2, 11393); (11499, 11501, 2, 11500);
   (11506, 11506, 1, 11507); (42560, 42604, 2, 42561); (42624, 42650, 2, 42625);
   (42786, 42798, 2, 42787); (42802, 42862, 2, 42803); (42873, 42875, 2, 42874);
   (42877, 42877, 1, 7545); (42878, 42886, 2, 42879); (42891, 42891, 1, 42892);
   (42893, 42893, 1, 613); (42896, 42898, 2, 42897); (42902, 42920, 2, 42903);
   (42922, 42922, 1, 614); (42923, 42923, 1, 604); (42924, 42924, 1, 609);
   (42925, 42925, 1, 620); (42926, 42926, 1, 618); (42928, 42928, 1, 670);
   (42929, 42929, 1, 647); (42930, 42930, 1, 669); (42931, 42931, 1, 43859);
   (42932, 42946, 2, 42933); (42948, 42948, 1, 42900); (42949, 42949, 1, 642);
   (42950, 42950, 1, 7566); (42951, 42953, 2, 42952); (42960, 42960, 1, 42961);
   (42966, 42968, 2, 42967); (42997, 42997, 1, 42998); (65313, 65338, 1, 65345);
   (66560, 66599, 1, 66600); (66736, 66771, 1, 66776); (66928, 66938, 1, 66967);
   (66940, 66954, 1, 66979); (66956, 66962, 1, 66995); (66964, 66965, 1, 67003);
   (68736, 68786, 1, 68800); (71840, 71871, 1, 71872); (93760, 93791, 1, 93792);
   (125184, 125217, 1, 125218)]%N.

(** Cased code points that are not case-ignorable, as ranges. *)
Definition cased_table : list (N * N) :=
  [(65, 90); (97, 122); (170, 170); (181, 181); (186, 186);
   (192, 214); (216, 246); (248, 442); (444, 447); (452, 659);
   (661, 687); (880, 883); (886, 887); (891, 893); (895, 895);
   (902, 902); (904, 906); (908, 908); (910, 929); (931, 1013);
   (1015, 1153); (1162, 1327); (1329, 1366); (1376, 1416); (4256, 4293);
   (4295, 4295); (4301, 4301); (4304, 4346); (4349, 4351); (5024, 5109);
   (5112, 5117); (7296, 7304); (7312, 7354); (7357, 7359); (7424, 7467);
   (7531, 7543); (7545, 7578); (7680, 7957); (7960, 7965); (7968, 8005);
   (8008, 8013); (8016, 8023); (8025, 8025); (8027, 8027); (8029, 8029);
   (8031, 8061); (8064, 8116); (8118, 8124); (8126, 8126); (8130, 8132);
   (8134, 8140); (8144, 8147); (8150, 8155); (8160, 8172); (8178, 8180);
   (8182, 8188); (8450, 8450); (8455, 8455); (8458, 8467); (8469, 8469);
   (8473, 8477); (8484, 8484); (8486, 8486); (8488, 8488); (8490, 8493);
   (8495, 8500); (8505, 8505); (8508, 8511); (8517, 8521); (8526, 8526);
   (8544, 8575); (8579, 8580); (9398, 9449); (11264, 11387); (11390, 11492);
   (11499, 11502); (11506, 11507); (11520, 11557); (11559, 11559); (11565, 11565);
   (42560, 42605); (42624, 42651); (42786, 42863); (42865, 42887); (42891, 42894);
   (42896, 42954); (42960, 42961); (42963, 42963); (42965, 42969); (42997, 42998);
   (43002, 43002); (43824, 43866); (43872, 43880); (43888, 43967); (64256, 64262);
   (64275, 64279); (65313, 65338); (65345, 65370); (66560, 66639); (66736, 66771);
   (66776, 66811); (66928, 66938); (66940, 66954); (66956, 66962); (66964, 66965);
   (66967, 66977); (66979, 66993); (66995, 67001); (67003, 67004); (68736, 68786);
   (68800, 68850); (71840, 71903); (93760, 93823); (119808, 119892); (119894, 119964);
   (119966, 119967); (119970, 119970); (119973, 119974); (119977, 119980); (119982, 119993);
   (119995, 119995); (119997, 120003); (120005, 120069); (120071, 120074); (120077, 120084);
   (120086, 120092); (120094, 120121); (120123, 120126); (120128, 120132); (120134, 120134);
   (120138, 120144); (120146, 120485); (120488, 120512); (120514, 120538); (120540, 120570);
   (120572, 120596); (120598, 120628); (120630, 120654); (120656, 120686); (120688, 120712);
   (120714, 120744); (120746, 120770); (120772, 120779); (122624, 122633); (122635, 122654);
   (125184, 125251); (127280, 127305); (127312, 127337); (127344, 127369)]%N.

(** Case-ignorable code points, as ranges. *)
Definition case_ignorable_table : list (N * N) :=
  [(39, 39); (46, 46); (58, 58); (94, 94); (96, 96);
   (168, 168); (173, 173); (175, 175); (180, 180); (183, 184);
   (688, 879); (884, 885); (890, 890); (900, 901); (903, 903);
   (1155, 1161); (1369, 1369); (1375, 1375); (1425, 1469); (1471, 1471);
   (1473, 1474); (1476, 1477); (1479, 1479); (1524, 1524); (1536, 1541);
   (1552, 1562); (1564, 1564); (1600, 1600); (1611, 1631); (1648, 1648);
   (1750, 1757); (1759, 1768); (1770, 1773); (1807, 1807); (1809, 1809);
   (1840, 1866); (1958, 1968); (2027, 2037); (2042, 2042); (2045, 2045);
   (2070, 2093); (2137, 2139); (2184, 2184); (2192, 2193); (2200, 2207);
   (2249, 2306); (2362, 2362); (2364, 2364); (2369, 2376); (2381, 2381);
   (2385, 2391); (2402, 2403); (2417, 2417); (2433, 2433); (2492, 2492);
   (2497, 2500); (2509, 2509); (2530, 2531); (2558, 2558); (2561, 2562);
   (2620, 2620); (2625, 2626); (2631, 2632); (2635, 2637); (2641, 2641);
   (2672, 2673); (2677, 2677); (2689, 2690); (2748, 2748); (2753, 2757);
   (2759, 2760); (2765, 2765); (2786, 2787); (2810, 2815); (2817, 2817);
   (2876, 2876); (2879, 2879); (2881, 2884); (2893, 2893); (2901, 2902);
   (2914, 2915); (2946, 2946); (3008, 3008); (3021, 3021); (3072, 3072);
   (3076, 3076); (3132, 3132); (3134, 3136); (3142, 3144); (3146, 3149);
   (3157, 3158); (3170, 3171); (3201, 3201); (3260, 3260); (3263, 3263);
   (3270, 3270); (3276, 3277); (3298, 3299); (3328, 3329); (3387, 3388);
   (3393, 3396); (3405, 3405); (3426, 3427); (3457, 3457); (3530, 3530);
   (3538, 3540); (3542, 3542); (3633, 3633); (3636, 3642); (3654, 3662);
   (3761, 3761); (3764, 3772); (3782, 3782); (3784, 3789); (3864, 3865);
   (3893, 3893); (3895, 3895); (3897, 3897); (3953, 3966); (3968, 3972);
   (3974, 3975); (3981, 3991); (3993, 4028); (4038, 4038); (4141, 4144);
   (4146, 4151); (4153, 4154); (4157, 4158); (4184, 4185); (4190, 4192);
   (4209, 4212); (4226, 4226); (4229, 4230); (4237, 4237); (4253, 4253);
   (4348, 4348); (4957, 4959); (5906, 5908); (5938, 5939); (5970, 5971);
   (6002, 6003); (6068, 6069); (6071, 6077); (6086, 6086); (6089, 6099);
   (6103, 6103); (6109, 6109); (6155, 6159); (6211, 6211); (6277, 6278);
   (6313, 6313); (6432, 6434); (6439, 6440); (6450, 6450); (6457, 6459);
   (6679, 6680); (6683, 6683); (6742, 6742); (6744, 6750); (6752, 6752);
   (6754, 6754); (6757, 6764); (6771, 6780); (6783, 6783); (6823, 6823);
   (6832, 6862); (6912, 6915); (6964, 6964); (6966, 6970); (6972, 6972);
   (6978, 6978); (7019, 7027); (7040, 7041); (7074, 7077); (7080, 7081);
   (7083, 7085); (7142, 7142); (7144, 7145); (7149, 7149); (7151, 7153);
   (7212, 7219); (7222, 7223); (7288, 7293); (7376, 7378); (7380, 7392);
   (7394, 7400); (7405, 7405); (7412, 7412); (7416, 7417); (7468, 7530);
   (7544, 7544); (7579, 7679); (8125, 8125); (8127, 8129); (8141, 8143);
   (8157, 8159); (8173, 8175); (8189, 8190); (8203, 8207); (8216, 8217);
   (8228, 8228); (8231, 8231); (8234, 8238); (8288, 8292); (8294, 8303);
   (8305, 8305); (8319, 8319); (8336, 8348); (8400, 8432); (11388, 11389);
   (11503, 11505); (11631, 11631); (11647, 11647); (11744, 11775); (11823, 11823);
   (12293, 12293); (12330, 12333); (12337, 12341); (12347, 12347); (12441, 12446);
   (12540, 12542); (40981, 40981); (42232, 42237); (42508, 42508); (42607, 42610);
   (42612, 42621); (42623, 42623); (42652, 42655); (42736, 42737); (42752, 42785);
   (42864, 42864); (42888, 42890); (42994, 42996); (43000, 43001); (43010, 43010);
   (43014, 43014); (43019, 43019); (43045, 43046); (43052, 43052); (43204, 43205);
   (43232, 43249); (43263, 43263); (43302, 43309); (43335, 43345); (43392, 43394);
   (43443, 43443); (43446, 43449); (43452, 43453); (43471, 43471); (43493, 43494);
   (43561, 43566); (43569, 43570); (43573, 43574); (43587, 43587); (43596, 43596);
   (43632, 43632); (43644, 43644); (43696, 43696); (43698, 43700); (43703, 43704);
   (43710, 43711); (43713, 43713); (43741, 43741); (43756, 43757); (43763, 43764);
   (43766, 43766); (43867, 43871); (43881, 43883); (44005, 44005); (44008, 44008);
   (44013, 44013); (64286, 64286); (64434, 64450); (65024, 65039); (65043, 65043);
   (65056, 65071); (65106, 65106); (65109, 65109); (65279, 65279); (65287, 65287);
   (65294, 65294); (65306, 65306); (65342, 65342); (65344, 65344); (65392, 65392);
   (65438, 65439); (65507, 65507); (65529, 65531); (66045, 66045); (66272, 66272);
   (66422, 66426); (67456, 67461); (67463, 67504); (67506, 67514); (68097, 68099);
   (68101, 68102); (68108, 68111); (68152, 68154); (68159, 68159); (68325, 68326);
   (68900, 68903); (69291, 69292); (69446, 69456); (69506, 69509); (69633, 69633);
   (69688, 69702); (69744, 69744); (69747, 69748); (69759, 69761); (69811, 69814);
   (69817, 69818); (69821, 69821); (69826, 69826); (69837, 69837); (69888, 69890);
   (69927, 69931); (69933, 69940); (70003, 70003); (70016, 70017); (70070, 70078);
   (70089, 70092); (70095, 70095); (70191, 70193); (70196, 70196); (70198, 70199);
   (70206, 70206); (70367, 70367); (70371, 70378); (70400, 70401); (70459, 70460);
   (70464, 70464); (70502, 70508); (70512, 70516); (70712, 70719); (70722, 70724);
   (70726, 70726); (70750, 70750); (70835, 70840); (70842, 70842); (70847, 70848);
   (70850, 70851); (71090, 71093); (71100, 71101); (71103, 71104); (71132, 71133);
   (71219, 71226); (71229, 71229); (71231, 71232); (71339, 71339); (71341, 71341);
   (71344, 71349); (71351, 71351); (71453, 71455); (71458, 71461); (71463, 71467);
   (71727, 71735); (71737, 71738); (71995, 71996); (71998, 71998); (72003, 72003);
   (72148, 72151); (72154, 72155); (72160, 72160); (72193, 72202); (72243, 72248);
   (72251, 72254); (72263, 72263); (72273, 72278); (72281, 72283); (72330, 72342);
   (72344, 72345); (72752, 72758); (72760, 72765); (72767, 72767); (72850, 72871);
   (72874, 72880); (72882, 72883); (72885, 72886); (73009, 73014); (73018, 73018);
   (73020, 73021); (73023, 73029); (73031, 73031); (73104, 73105); (73109, 73109);
   (73111, 73111); (73459, 73460); (78896, 78904); (92912, 92916); (92976, 92982);
   (92992, 92995); (94031, 94031); (94095, 94111); (94176, 94177); (94179, 94180);
   (110576, 110579); (110581, 110587); (110589, 110590); (113821, 113822); (113824, 113827);
   (118528, 118573); (118576, 118598); (119143, 119145); (119155, 119170); (119173, 119179);
   (119210, 119213); (119362, 119364); (121344, 121398); (121403, 121452); (121461, 121461);
   (121476, 121476); (121499, 121503); (121505, 121519); (122880, 122886); (122888, 122904);
   (122907, 122913); (122915, 122916); (122918, 122922); (123184, 123197); (123566, 123566);
   (123628, 123631); (125136, 125142); (125252, 125259); (127995, 127999); (917505, 917505);
   (917536, 917631); (917760, 917999)]%N.

Definition in_ranges (t : list (N * N)) (c : N) : bool :=
  existsb (fun r => (fst r <=? c) && (c <=? snd r))%N t.

Definition is_cased (c : N) : bool := in_ranges cased_table c.
Definition is_case_ignorable (c : N) : bool :=
  in_ranges case_ignorable_table c.

Definition lower_simple (c : N) : N :=
  match
    find (fun r => let '(first, last, stride, _) := r in
                   (first <=? c) && (c <=? last)
                   && ((c - first) mod stride =? 0))%N lower_table
  with
  | Some (first, _, _, image) => (image + (c - first))%N
  | None => c
  end.

(** The first code point that is not case-ignorable, if any, is cased. *)
Fixpoint next_is_cased (s : str) : bool :=
  match s with
  | [] => false
  | c :: r => if is_case_ignorable c then next_is_cased r else is_cased c
  end.

(** A capital sigma is final when a cased letter comes before it and
    none after it, case-ignorable code points being skipped;
    [before] holds the preceding code points, the nearest first. *)
Definition final_sigma (before after : str) : bool :=
  next_is_cased before && negb (next_is_cased after).

Definition lower_at (before : str) (c : N) (after : str) : str :=
  if (c =? 304)%N then [105; 775]%N
  else if (c =? 931)%N
       then [if final_sigma before after then 962 else 963]%N
       else [lower_simple c].

Fixpoint lower_from (before s : str) : str :=
  match s with
  | [] => []
  | c :: r => lower_at before c r ++ lower_from (c :: before) r
  end.

(** [s.lower()] *)
Definition lower (s : str) : str := lower_from [] s.

(** [s.lstrip()] *)
Fixpoint lstrip (s : str) : str :=
  match s with
  | [] => []
  | c :: r => if is_space c then lstrip r else s
  end.

(** [s.rstrip()] *)
Fixpoint rstrip (s : str) : str :=
  match s with
  | [] => []
  | c :: r =>
      match rstrip r with
      | [] => if is_space c then [] else [c]
      | r' => c :: r'
      end
  end.

(** [s.strip()] *)
Definition strip (s : str) : str := rstrip (lstrip s).

(** [len(s)] *)
Definition len (s : str) : Z := Z.of_nat (length s).

(** Truthiness of a string: [bool(s)]. *)
Definition truthy (s : str) : bool :=
  match s with [] => false | _ => true end.

Fixpoint starts_with (p s : str) : bool :=
  match p, s with
  | [], _ => true
  | a :: p', b :: s' => (a =? b)%N && starts_with p' s'
  | _ :: _, [] => false
  end.

(** [sub in s] *)
Fixpoint contains (sub s : str) : bool :=
  starts_with sub s
  || match s with
     | [] => false
     | _ :: r => contains sub r
     end.

(** [any(w in s for w in words)], the words being literals *)
Definition any_in (words : list string) (s : str) : bool :=
  existsb (fun w => contains (u w) s) words.

(** [s.split()]: the maximal runs of non-whitespace characters.
    [cur] is the run being read, most recent character first. *)
Definition flush (cur : str) : list str :=
  match cur with [] => [] | _ => [rev cur] end.

Fixpoint split_from (cur : str) (s : str) : list str :=
  match s with
  | [] => flush cur
  | c :: r =>
      if is_space c then flush cur ++ split_from [] r
      else split_from (c :: cur) r
  end.

Definition split (s : str) : list str := split_from [] s.

(** [len(s.split())] *)
Definition word_count (s : str) : Z := Z.of_nat (length (split s)).

(** [x in l] for a list of strings *)
Definition mem (x : str) (l : list str) : bool :=
  existsb (fun y => bool_decide (x = y)) l.

End PyStr.

Module PyText.

(** Text the program composes from its own literals (category names,
    the clauses of the reasoning line): a [string] of code points below
    256. *)

Definition code (c : ascii) : N := N_of_ascii c.

Definition is_upper (c : ascii) : bool :=
  let n := code c in
  ((65 <=? n) && (n <=? 90)
   || (192 <=? n) && (n <=? 222) && negb (n =? 215))%N.

Definition is_lower (c : ascii) : bool :=
  let n := code c in
  ((97 <=? n) && (n <=? 122)
   || (223 <=? n) && (n <=? 255) && negb (n =? 247)
   || (n =? 170) || (n =? 181) || (n =? 186))%N.

Definition lower_char (c : ascii) : ascii :=
  if is_upper c then ascii_of_N (code c + 32) else c.

Definition upper_char (c : ascii) : ascii :=
  let n := code c in
  if ((97 <=? n) && (n <=? 122)
      || (224 <=? n) && (n <=? 254) && negb (n =? 247))%N
  then ascii_of_N (n - 32) else c.

(** [s.replace(a, b)] for one-character [a] and [b]. *)
Fixpoint replace_char (a b : ascii) (s : string) : string :=
  match s with
  | EmptyString => EmptyString
  | String c r =>
      String (if Ascii.eqb c a then b else c) (replace_char a b r)
  end.

(** [s.title()]: a cased character is upper-cased when the previous
    character is not cased, lower-cased otherwise.  The code applies it
    to category names only. *)
Fixpoint title_from (prev_cased : bool) (s : string) : string :=
  match s with
  | EmptyString => EmptyString
  | String c r =>
      let cased := is_upper c || is_lower c in
      String (if prev_cased then lower_char c else upper_char c)
             (title_from cased r)
  end.

Definition title (s : string) : string := title_from false s.

(** [sep.join(parts)] *)
Fixpoint join (sep : string) (parts : list string) : string :=
  match parts with
  | [] => EmptyString
  | [p] => p
  | p :: rest => p +:+ sep +:+ join sep rest
  end.

End PyText.

(* ================================================================== *)
(** * Python numbers *)
(* ================================================================== *)

Module PyNum.

Open Scope Q_scope.

Definition Qltb (x y : Q) : bool := negb (Qle_bool y x).
Definition Qleb (x y : Q) : bool := Qle_bool x y.

(** [min(a, b)] and [max(a, b)]: the first argument wins a tie. *)
Definition py_min (a b : Q) : Q := if Qltb b a then b else a.
Definition py_max (a b : Q) : Q := if Qltb a b then b else a.

(** [int(x)] on a float: truncation towards zero. *)
Definition py_int (x : Q) : Z :=
  if Qleb 0 x then Qfloor x else Qceiling x.

(** The integer nearest to [y], ties going to the even one. *)
Definition round_half_even (y : Q) : Z :=
  let f := Qfloor y in
  match Qcompare (y - inject_Z f) (1 # 2) with
  | Lt => f
  | Gt => (f + 1)%Z
  | Eq => if Z.even f then f else (f + 1)%Z
  end.

(** The decimal with [n] fractional digits nearest to [x]. *)
Definition decimal_round (n : nat) (x : Q) : Q :=
  let scale := inject_Z (10 ^ Z.of_nat n) in
  inject_Z (round_half_even (x * scale)) / scale.

(** The rounding of a floating-point format: the result of each float
    operation is [fl] of the exact result.  It is monotone and leaves
    the integers up to 2^53 alone, as IEEE 754 binary64 rounding does;
    exact arithmetic is the instance [fl x = x]. *)
Class Rounding (fl : Q -> Q) : Prop := {
  fl_mono : forall x y, x <= y -> fl x <= fl y;
  fl_int : forall n : Z, (Z.abs n <= 2 ^ 53)%Z -> fl (inject_Z n) == inject_Z n
}.

Definition exact (x : Q) : Q := x.

(** IEEE 754 binary64 rounding: to the nearest number with a 53-bit
    significand, ties to the even significand.  The exponent range is
    left unbounded (no overflow, no subnormal numbers).  [binade x] is
    the exponent [e] with [2^e <= x < 2^(e+1)]. *)
Definition binade (x : Q) : Z :=
  let k := (Z.log2 (Qnum x) - Z.log2 (Zpos (Qden x)))%Z in
  if Qle_bool (2 ^ k) x then k else (k - 1)%Z.

Definition round_to (p : Z) (x : Q) : Q :=
  let u := 2 ^ (binade x - (p - 1)) in
  inject_Z (round_half_even (x / u)) * u.

Definition binary64 (x : Q) : Q :=
  match Qcompare x 0 with
  | Eq => 0
  | Gt => round_to 53 x
  | Lt => - round_to 53 (- x)
  end.

Section Float.
Variable fl : Q -> Q.

Definition fadd (x y : Q) : Q := fl (x + y).
Definition fsub (x y : Q) : Q := fl (x - y).
Definition fmul (x y : Q) : Q := fl (x * y).
Definition fdiv (x y : Q) : Q := fl (x / y).

(** A float literal such as [0.8]. *)
Definition lit (x : Q) : Q := fl x.

(** [round(x, n)] on a float: the float nearest to the correctly
    rounded decimal. *)
Definition py_round (x : Q) (n : nat) : Q := fl (decimal_round n x).
End Float.

End PyNum.

(* ================================================================== *)
(** * Exceptions and the random module *)
(* ================================================================== *)

(** The subclasses of [Exception] the code can meet. *)
Inductive exn : Type :=
| AttributeError
| TypeError
| KeyError
| ValueError
| TimeoutError
| ClientError          (* aiohttp.ClientError and its subclasses *)
| JSONDecodeError
| IndexError
| ZeroDivisionError
| RuntimeError.

Definition exc (A : Type) : Type := exn + A.

Definition Raise {A} (e : exn) : exc A := inl e.
Definition Return {A} (a : A) : exc A := inr a.

Definition ebind {A B} (m : exc A) (k : A -> exc B) : exc B :=
  match m with
  | inl e => inl e
  | inr a => k a
  end.

(** [try: m  except Exception: h] *)
Definition try_except {A} (m : exc A) (h : exn -> exc A) : exc A :=
  match m with
  | inl e => h e
  | inr a => inr a
  end.

Definition raised {A} (m : exc A) : bool :=
  match m with inl _ => true | inr _ => false end.

(** The generator behind [random]: an unbounded sequence of raw draws
    and the position of the next one.  [random()] scales a draw into
    [0, 1), [_randbelow(n)] reduces one into [0, n). *)
Record Rng : Type := mkRng { rng_draw : nat -> N; rng_pos : nat }.

Definition rng_next (g : Rng) : N * Rng :=
  (rng_draw g (rng_pos g), mkRng (rng_draw g) (S (rng_pos g))).

Definition rng_random (g : Rng) : Q * Rng :=
  let '(x, g') := rng_next g in
  (Z.of_N (x mod 2 ^ 53) # Pos.pow 2 53, g').

Definition rng_randbelow (n : Z) (g : Rng) : Z * Rng :=
  let '(x, g') := rng_next g in
  ((Z.of_N x) mod n, g')%Z.

(** A computation that may raise and may draw random numbers. *)
Definition M (A : Type) : Type := Rng -> exc A * Rng.

Definition mret {A} (a : A) : M A := fun g => (inr a, g).
Definition mraise {A} (e : exn) : M A := fun g => (inl e, g).
Definition mlift {A} (m : exc A) : M A := fun g => (m, g).

Definition mbind {A B} (m : M A) (k : A -> M B) : M B :=
  fun g =>
    match m g with
    | (inl e, g') => (inl e, g')
    | (inr a, g') => k a g'
    end.

Definition mtry {A} (m : M A) (h : exn -> M A) : M A :=
  fun g =>
    match m g with
    | (inl e, g') => h e g'
    | (inr a, g') => (inr a, g')
    end.

Declare Scope py_scope.
Delimit Scope py_scope with py.
Notation "'let*' x ':=' m 'in' k" := (mbind m (fun x => k))
  (at level 10, x name, m at level 100, k at level 200) : py_scope.
Notation "'let+' x ':=' m 'in' k" := (ebind m (fun x => k))
  (at level 10, x name, m at level 100, k at level 200) : py_scope.

(** [l[i]] on a list, negative indices counting from the end. *)
Definition py_index {A} (l : list A) (i : Z) : exc A :=
  let n := Z.of_nat (length l) in
  let j := (if i <? 0 then i + n else i)%Z in
  if (j <? 0)%Z then Raise IndexError
  else match l !! Z.to_nat j with
       | Some x => Return x
       | None => Raise IndexError
       end.

(** [l[:k]] *)
Definition py_prefix {A} (l : list A) (k : Z) : list A :=
  if (k <? 0)%Z then take (Z.to_nat (Z.of_nat (length l) + k)) l
  else take (Z.to_nat k) l.

(** The value of [datetime.now().month]. *)
Inductive Month : Type :=
| January | February | March | April | May | June
| July | August | September | October | November | December.

Definition month_number (m : Month) : Z :=
  match m with
  | January => 1 | February => 2 | March => 3 | April => 4
  | May => 5 | June => 6 | July => 7 | August => 8
  | September => 9 | October => 10 | November => 11 | December => 12
  end.

(* ================================================================== *)
(** * services/ai_bidding.py: data *)
(* ================================================================== *)

Inductive category : Type :=
| electronics | fashion | books | home_kitchen
| health | beauty | sports | default_category.

Definition category_name (c : category) : string :=
  match c with
  | electronics => "electronics"
  | fashion => "fashion"
  | books => "books"
  | home_kitchen => "home_kitchen"
  | health => "health"
  | beauty => "beauty"
  | sports => "sports"
  | default_category => "default"
  end.

Inductive competition_level : Type := low | medium | high.
Inductive trend_direction : Type := up | stable | down.

Record cpc_range : Type := { cpc_min : Z; cpc_max : Z }.
Record volume_config : Type := { vc_base : Z; vc_multiplier : Q }.

Record trend_data : Type := {
  td_trend_percentage : Q;
  td_trend_direction : trend_direction;
  td_seasonal_factor : Q
}.

Record volume_factors : Type := {
  vf_base : Z;
  vf_category_multiplier : Q;
  vf_length_factor : Q;
  vf_brand_factor : Q;
  vf_intent_factor : Q
}.

Record volume_data : Type := {
  vd_search_volume : Z;
  vd_trend_data : trend_data;
  vd_volume_factors : volume_factors
}.

Record competition_factors : Type := {
  cf_length : Q;
  cf_generic : Q;
  cf_brand : Q;
  cf_intent : Q
}.

Record competition_data : Type := {
  cd_competition_score : Q;
  cd_competition_level : competition_level;
  cd_organic_competitors : Z;
  cd_sponsored_competitors : Z;
  cd_competition_factors : competition_factors
}.

Record suggested_bids : Type := {
  conservative : Q;
  optimal : Q;
  aggressive : Q
}.

Record aba_data : Type := {
  click_share : Q;
  conversion_share : Q;
  aba_sponsored_rank : Z
}.

(** The dict returned by [predict_optimal_bid_enhanced]. *)
Record ai_data : Type := {
  ai_keyword : PyStr.str;
  ai_category : category;
  ai_search_volume : Z;
  ai_estimated_cpc : Q;
  ai_suggested_bids : suggested_bids;
  ai_magnet_iq_score : Z;
  ai_competition_data : competition_data;
  ai_trend_data : trend_data;
  ai_aba_data : aba_data;
  ai_confidence : Q;
  ai_reasoning : string;
  ai_market : string;
  ai_currency : string
}.

(* ================================================================== *)
(** * services/ai_bidding.py: EnhancedAIBiddingPredictor *)
(* ================================================================== *)

Import PyNum.
Open Scope py_scope.
Open Scope string_scope.
Open Scope Z_scope.

Definition category_base_cpc (c : category) : cpc_range :=
  match c with
  | electronics => {| cpc_min := 8; cpc_max := 25 |}
  | fashion => {| cpc_min := 5; cpc_max := 15 |}
  | books => {| cpc_min := 3; cpc_max := 12 |}
  | home_kitchen => {| cpc_min := 6; cpc_max := 18 |}
  | health => {| cpc_min := 10; cpc_max := 30 |}
  | beauty => {| cpc_min := 8; cpc_max := 22 |}
  | sports => {| cpc_min := 7; cpc_max := 20 |}
  | default_category => {| cpc_min := 5; cpc_max := 18 |}
  end.

Definition high_intent_words : list string :=
  ["buy"; "price"; "cost"; "cheap"; "best"; "top"; "deal"; "discount"; "offer"].

Definition brand_indicators : list string :=
  ["brand"; "original"; "genuine"; "authentic"].

(** [self.seasonal_trends.get(category, self.seasonal_trends['default'])] *)
Definition seasonal_trends (c : category) : list Z :=
  match c with
  | electronics => [5; 10; 15; 20; 25; 30; 35; 40; 45; 35; 25; 15]
  | fashion => [20; 25; 30; 35; 40; 30; 20; 15; 25; 35; 40; 45]
  | health => [40; 35; 30; 25; 20; 15; 20; 25; 30; 35; 40; 45]
  | _ => [25; 25; 25; 25; 25; 25; 25; 25; 25; 25; 25; 25]
  end.

Definition categorize_keyword (keyword : PyStr.str) : category :=
  let keyword_lower := PyStr.lower keyword in
  if PyStr.any_in ["phone"; "mobile"; "laptop"; "tablet"; "headphone";
                   "speaker"; "camera"] keyword_lower then electronics
  else if PyStr.any_in ["shirt"; "dress"; "saree"; "jeans"; "shoes"; "bag"]
                       keyword_lower then fashion
  else if PyStr.any_in ["book"; "novel"; "guide"; "manual"] keyword_lower
  then books
  else if PyStr.any_in ["kitchen"; "home"; "furniture"; "decor"]
                       keyword_lower then home_kitchen
  else if PyStr.any_in ["vitamin"; "supplement"; "medicine"; "health"]
                       keyword_lower then health
  else if PyStr.any_in ["cream"; "lotion"; "makeup"; "beauty"; "skin"]
                       keyword_lower then beauty
  else if PyStr.any_in ["sports"; "fitness"; "gym"; "exercise"]
                       keyword_lower then sports
  else default_category.

(** [max(lo, min(hi, n))] on integers *)
Definition clamp (lo hi n : Z) : Z := Z.max lo (Z.min hi n).

Section Predictor.

(** The float rounding, the interpreter's [hash] on strings and the
    month the clock shows. *)
Variable fl : Q -> Q.
Variable py_hash : PyStr.str -> Z.
Variable now : Month.

Definition category_volume_multipliers (c : category) : volume_config :=
  match c with
  | electronics => {| vc_base := 8000; vc_multiplier := lit fl (25 # 10) |}
  | fashion => {| vc_base := 6000; vc_multiplier := lit fl (20 # 10) |}
  | books => {| vc_base := 3000; vc_multiplier := lit fl (12 # 10) |}
  | home_kitchen => {| vc_base := 5000; vc_multiplier := lit fl (18 # 10) |}
  | health => {| vc_base := 7000; vc_multiplier := lit fl (22 # 10) |}
  | beauty => {| vc_base := 6500; vc_multiplier := lit fl (21 # 10) |}
  | sports => {| vc_base := 4500; vc_multiplier := lit fl (16 # 10) |}
  | default_category => {| vc_base := 4000; vc_multiplier := lit fl (15 # 10) |}
  end.

Definition has_high_intent (keyword : PyStr.str) : bool :=
  PyStr.any_in high_intent_words (PyStr.lower keyword).

Definition is_branded (keyword : PyStr.str) : bool :=
  PyStr.any_in brand_indicators (PyStr.lower keyword).

Definition calculate_magnet_iq_score
    (keyword : PyStr.str) (search_volume : Z) (competition_score : Q) : Z :=
  let volume_score := py_min 40 (fdiv fl (inject_Z search_volume) 500) in
  let competition_penalty := fmul fl competition_score 30 in
  let intent_bonus := if has_high_intent keyword then 20 else 0 in
  let length_bonus := Z.max 0 (15 - PyStr.word_count keyword * 2) in
  let magnet_score :=
    fadd fl (fadd fl (fsub fl volume_score competition_penalty)
                     (inject_Z intent_bonus))
            (inject_Z length_bonus) in
  clamp 1 100 (py_int magnet_score).

Definition calculate_search_volume_trend
    (keyword : PyStr.str) (cat : category) : exc trend_data :=
  let current_month := month_number now - 1 in
  let seasonal_pattern := seasonal_trends cat in
  let+ current_trend := py_index seasonal_pattern current_month in
  let+ previous_trend :=
    py_index seasonal_pattern ((current_month - 1) mod 12) in
  if previous_trend =? 0 then Raise ZeroDivisionError
  else
    let trend_change :=
      fmul fl (fdiv fl (inject_Z (current_trend - previous_trend))
                       (inject_Z previous_trend)) 100 in
    let keyword_hash := Z.abs (py_hash keyword) mod 20 - 10 in
    let trend_change := fadd fl trend_change (inject_Z keyword_hash) in
    Return {|
      td_trend_percentage := py_round fl trend_change 0;
      td_trend_direction :=
        if Qltb 0 trend_change then up
        else if Qltb trend_change 0 then down else stable;
      td_seasonal_factor := fdiv fl (inject_Z current_trend) 25
    |}.

Definition estimate_enhanced_search_volume
    (keyword : PyStr.str) (cat : category) : exc volume_data :=
  let volume_config := category_volume_multipliers cat in
  let base_volume := vc_base volume_config in
  let multiplier := vc_multiplier volume_config in
  let length_factor :=
    py_max (lit fl (3 # 10))
           (fsub fl 1 (fmul fl (inject_Z (PyStr.word_count keyword - 2))
                               (lit fl (15 # 100)))) in
  let brand_factor := if is_branded keyword then lit fl (7 # 10) else 1%Q in
  let intent_factor :=
    if has_high_intent keyword then lit fl (13 # 10) else 1%Q in
  let estimated_volume :=
    py_int (fmul fl (fmul fl (fmul fl (fmul fl (inject_Z base_volume)
                                               multiplier)
                                      length_factor)
                             brand_factor)
                    intent_factor) in
  let keyword_variation := Z.abs (py_hash keyword) mod 5000 in
  let final_volume := estimated_volume + keyword_variation in
  let+ trend := calculate_search_volume_trend keyword cat in
  Return {|
    vd_search_volume := final_volume;
    vd_trend_data := trend;
    vd_volume_factors := {|
      vf_base := base_volume;
      vf_category_multiplier := multiplier;
      vf_length_factor := length_factor;
      vf_brand_factor := brand_factor;
      vf_intent_factor := intent_factor
    |}
  |}.

Definition competition_factors_of (keyword : PyStr.str) : competition_factors :=
  {|
    cf_length :=
      py_max 0 (fsub fl 1 (fmul fl (inject_Z (PyStr.word_count keyword - 2))
                                   (lit fl (1 # 10))));
    cf_generic :=
      if PyStr.word_count keyword <=? 2 then lit fl (8 # 10)
      else lit fl (4 # 10);
    cf_brand :=
      if is_branded keyword then lit fl (6 # 10) else lit fl (3 # 10);
    cf_intent :=
      if has_high_intent keyword then lit fl (7 # 10) else lit fl (4 # 10)
  |}.

(** [sum(factors.values())]: the four values added left to right, the
    initial integer 0 leaving the first value as it is.  (CPython 3.12
    and later compensate the rounding errors of the additions; the
    result stays between the same bounds.) *)
Definition factors_sum (f : competition_factors) : Q :=
  fadd fl (fadd fl (fadd fl (cf_length f) (cf_generic f)) (cf_brand f))
          (cf_intent f).

Definition level_of (competition_score : Q) : competition_level :=
  if Qltb competition_score (lit fl (4 # 10)) then low
  else if Qltb competition_score (lit fl (7 # 10)) then medium
  else high.

Definition calculate_competition_analysis (keyword : PyStr.str)
  : competition_data :=
  let factors := competition_factors_of keyword in
  let competition_score := py_min 1 (fdiv fl (factors_sum factors) 4) in
  let organic_competition :=
    py_int (fadd fl (fmul fl competition_score 50)
                    (inject_Z (Z.abs (py_hash keyword) mod 30))) in
  let sponsored_competition :=
    py_int (fadd fl (fmul fl competition_score 20)
                    (inject_Z (Z.abs (py_hash (keyword ++ PyStr.u "ads")%list) mod 15))) in
  {|
    cd_competition_score := competition_score;
    cd_competition_level := level_of competition_score;
    cd_organic_competitors := organic_competition;
    cd_sponsored_competitors := sponsored_competition;
    cd_competition_factors := factors
  |}.

Definition _generate_enhanced_reasoning
    (keyword : PyStr.str) (cat : category) (competition cpc : Q)
    (magnet_iq : Z) : string :=
  let reasons :=
   ((if 70 <? magnet_iq then ["High-opportunity keyword"]
     else if magnet_iq <? 30 then ["Low-opportunity keyword"] else [])
    ++ (if Qltb (lit fl (7 # 10)) competition
        then ["High competition market"]
        else if Qltb competition (lit fl (4 # 10))
             then ["Low competition opportunity"] else [])
    ++ (if 3 <? PyStr.word_count keyword then ["Long-tail advantage"]
        else [])
    ++ (if has_high_intent keyword then ["High purchase intent"] else [])
    ++ [PyText.title (PyText.replace_char "_" " " (category_name cat))
        +:+ " category analysis"])%list in
  PyText.join " | " reasons.

(** [random.uniform(a, b)] is [a + (b - a) * random()];
    [random.randint(a, b)] is [a + _randbelow(b - a + 1)]. *)
Definition random_uniform (a b : Q) : M Q :=
  fun g =>
    let '(r, g') := rng_random g in
    (Return (fadd fl a (fmul fl (fsub fl b a) r)), g').

Definition random_randint (a b : Z) : M Z :=
  fun g =>
    let '(r, g') := rng_randbelow (b - a + 1) g in
    (Return (a + r), g').

Definition bids_of (estimated_cpc : Q) : suggested_bids :=
  {|
    conservative := py_round fl (fmul fl estimated_cpc (lit fl (8 # 10))) 2;
    optimal := py_round fl (fmul fl estimated_cpc (lit fl (11 # 10))) 2;
    aggressive := py_round fl (fmul fl estimated_cpc (lit fl (14 # 10))) 2
  |}.

Definition estimated_cpc_of
    (cat : category) (competition_score : Q) (search_volume : Z)
    (seasonal_factor : Q) : Q :=
  let range := category_base_cpc cat in
  let base_cpc :=
    fadd fl (inject_Z (cpc_min range))
            (fmul fl (inject_Z (cpc_max range - cpc_min range))
                     competition_score) in
  let volume_multiplier :=
    fadd fl 1 (py_min (lit fl (3 # 10))
                      (fmul fl (fdiv fl (inject_Z search_volume) 10000)
                               (lit fl (1 # 10)))) in
  let base_cpc := fmul fl base_cpc volume_multiplier in
  let trend_multiplier :=
    fadd fl 1 (fmul fl (fsub fl seasonal_factor 1) (lit fl (1 # 10))) in
  let base_cpc := fmul fl base_cpc trend_multiplier in
  py_round fl base_cpc 2.

(** The dict [predict_optimal_bid_enhanced] returns, given the volume
    data and the three draws of the simulated ABA block. *)
Definition compose_prediction (keyword : PyStr.str) (cat : category)
    (volume : volume_data) (aba : aba_data) : ai_data :=
  let search_volume := vd_search_volume volume in
  let competition := calculate_competition_analysis keyword in
  let competition_score := cd_competition_score competition in
  let magnet_iq :=
    calculate_magnet_iq_score keyword search_volume competition_score in
  let estimated_cpc :=
    estimated_cpc_of cat competition_score search_volume
                     (td_seasonal_factor (vd_trend_data volume)) in
  {|
    ai_keyword := keyword;
    ai_category := cat;
    ai_search_volume := search_volume;
    ai_estimated_cpc := estimated_cpc;
    ai_suggested_bids := bids_of estimated_cpc;
    ai_magnet_iq_score := magnet_iq;
    ai_competition_data := competition;
    ai_trend_data := vd_trend_data volume;
    ai_aba_data := aba;
    ai_confidence :=
      py_round fl (fsub fl (lit fl (85 # 100))
                           (fmul fl competition_score (lit fl (2 # 10)))) 2;
    ai_reasoning :=
      _generate_enhanced_reasoning keyword cat competition_score
                                   estimated_cpc magnet_iq;
    ai_market := "India";
    ai_currency := "INR"
  |}.

Definition predict_optimal_bid_enhanced (keyword : PyStr.str) : M ai_data :=
  let cat := categorize_keyword keyword in
  let* volume := mlift (estimate_enhanced_search_volume keyword cat) in
  let* click := random_uniform (lit fl (1 # 10)) 5 in
  let* conversion := random_uniform (lit fl (5 # 100)) 3 in
  let* rank := random_randint 1 50 in
  mret (compose_prediction keyword cat volume {|
          click_share := py_round fl click 2;
          conversion_share := py_round fl conversion 2;
          aba_sponsored_rank := rank
        |}).

End Predictor.

(* ================================================================== *)
(** * services/scraper.py: data *)
(* ================================================================== *)

(** What a list handed to the scraper can hold.  The annotations say
    [str]; nothing checks it. *)
#[warnings="-register-all"]
Inductive pyobj : Type :=
| PyStr (s : PyStr.str)
| PyNone
| PyBool (b : bool)
| PyInt (z : Z)
| PyFloat (x : Q)
| PyBytes (b : list N)
| PyTuple (items : list pyobj)
| PyList (items : list pyobj)
| PySet (items : list pyobj)
| PyDict (items : list (pyobj * pyobj)).

(** [hash(k)] returns: lists, sets and dicts are unhashable, a tuple is
    hashable when its items are. *)
Fixpoint hashable (k : pyobj) : bool :=
  match k with
  | PyList _ | PySet _ | PyDict _ => false
  | PyTuple items => forallb hashable items
  | _ => true
  end.

(** Calling a function whose first use of its argument is
    [keyword.lower()], followed by [word in keyword_lower] for a literal
    [word]: a [bytes] object lower-cases and then refuses the [str]
    operand of [in] with TypeError; any other object that is not a
    [str] has no attribute [lower]. *)
Definition str_method {A} (f : PyStr.str -> A) (k : pyobj) : exc A :=
  match k with
  | PyStr s => Return (f s)
  | PyBytes _ => Raise TypeError
  | _ => Raise AttributeError
  end.

(** The dict built by [get_enhanced_keyword_data] and by
    [_get_basic_keyword_data]. *)
Record keyword_record : Type := {
  kr_keyword : PyStr.str;
  kr_search_volume : Z;
  kr_competition : competition_level;
  kr_competition_score : Q;
  kr_organic_competitors : Z;
  kr_sponsored_competitors : Z;
  kr_estimated_cpc_inr : Q;
  kr_suggested_bids : suggested_bids;
  kr_magnet_iq_score : Z;
  kr_intent_score : Z;
  kr_trend_percentage : Q;
  kr_trend_direction : trend_direction;
  kr_seasonal_factor : Q;
  kr_aba_click_share : Q;
  kr_aba_conversion_share : Q;
  kr_sponsored_rank : Z;
  kr_category : category;
  kr_confidence : Q;
  kr_reasoning : string;
  kr_currency : string;
  kr_market : string;
  kr_data_source : string
}.

Record summary_stats : Type := {
  total_search_volume : Z;
  average_cpc : Q;
  average_magnet_iq : Q;
  average_competition : Q;
  top_opportunity : option keyword_record;
  high_opportunity_count : Z;
  low_competition_keywords : Z;
  high_volume_keywords : Z
}.

(** [analysis_summary] is a sentence in the empty report and a dict of
    statistics otherwise. *)
Inductive analysis_summary : Type :=
| SummaryText (s : string)
| SummaryStats (st : summary_stats).

Record competitor_report : Type := {
  cr_primary_keyword : PyStr.str;
  cr_competitor_keywords : list keyword_record;
  cr_total_found : Z;
  cr_analysis_summary : analysis_summary;
  cr_market : string;
  cr_currency : option string;
  cr_timestamp : option Q
}.

(** A decoded JSON document. *)
#[warnings="-register-all"]
Inductive json : Type :=
| JNull
| JBool (b : bool)
| JNum (q : Q)
| JStr (s : PyStr.str)
| JList (l : list json)
| JDict (kvs : list (PyStr.str * json)).

(** What the request to the autocomplete endpoint comes to: [session.get]
    raises, or a response arrives with a status and a body that
    [response.json()] decodes or fails to decode. *)
Inductive http_outcome : Type :=
| GetRaises (e : exn)
| Responds (status : Z) (body : exc json).

(* ================================================================== *)
(** * services/scraper.py: AmazonIndiaScraper *)
(* ================================================================== *)

Definition prefixes : list string :=
  ["best"; "cheap"; "top"; "branded"; "original"; "quality"; "premium";
   "new"; "latest"; "good"; "popular"; "trending"; "recommended";
   "affordable"; "budget"; "luxury"; "professional"; "commercial"].

Definition suffixes : list string :=
  ["online"; "india"; "price"; "deal"; "offer"; "sale"; "review";
   "buy"; "shop"; "brand"; "cost"; "rate"; "flipkart"; "amazon";
   "discount"; "wholesale"; "retail"; "market"; "store"; "purchase"].

Definition intent_words : list string :=
  ["buy"; "purchase"; "order"; "shop"; "get"; "find"; "search";
   "compare"; "vs"; "versus"; "review"; "rating"; "feedback"].

Definition location_words : list string :=
  ["india"; "delhi"; "mumbai"; "bangalore"; "chennai"; "kolkata";
   "hyderabad"; "pune"; "online"; "nationwide"; "local"].

Definition _calculate_intent_score (keyword : PyStr.str) : Z :=
  let keyword_lower := PyStr.lower keyword in
  let score := 5 in
  let score :=
    if PyStr.any_in ["buy"; "purchase"; "order"; "booking"; "shop"; "get"]
                    keyword_lower then score + 3
    else if PyStr.any_in ["price"; "cost"; "cheap"; "deal"; "offer";
                          "discount"; "sale"; "rate"] keyword_lower
    then score + 2
    else if PyStr.any_in ["best"; "top"; "review"; "compare"; "vs"; "good";
                          "quality"; "rating"] keyword_lower
    then score + 1
    else score in
  let score :=
    if PyStr.any_in ["original"; "genuine"; "authentic"; "brand"; "official";
                     "authorized"] keyword_lower then score + 1 else score in
  let word_count := PyStr.word_count keyword in
  let score :=
    if 4 <=? word_count then score + 1
    else if 6 <=? word_count then score + 2
    else score in
  let score :=
    if PyStr.any_in ["india"; "delhi"; "mumbai"; "bangalore"; "online";
                     "delivery"] keyword_lower then score + 1 else score in
  let score :=
    if PyStr.any_in ["amazon"; "flipkart"; "myntra"; "snapdeal"] keyword_lower
    then score + 2 else score in
  Z.min 10 (Z.max 1 score).

Section Scraper.

Variable fl : Q -> Q.
Variable py_hash : PyStr.str -> Z.

(** [enhanced_ai_predictor.predict_optimal_bid_enhanced], called with
    whatever object the list holds. *)
Variable predictor : pyobj -> M ai_data.

(** The order in which the event loop completes [n] gathered tasks. *)
Variable scheduler : nat -> list nat.

(** [asyncio.get_event_loop().time()] *)
Variable loop_time : Q.

Definition _get_basic_keyword_data (keyword : PyStr.str) : keyword_record :=
  let keyword_hash := Z.abs (py_hash keyword) in
  {|
    kr_keyword := keyword;
    kr_search_volume := keyword_hash mod 8000 + 2000;
    kr_competition :=
      nth (Z.to_nat (keyword_hash mod 3)) [low; medium; high] low;
    kr_competition_score :=
      py_round fl (fdiv fl (inject_Z (keyword_hash mod 100)) 100) 2;
    kr_organic_competitors := keyword_hash mod 40 + 10;
    kr_sponsored_competitors := keyword_hash mod 20 + 5;
    kr_estimated_cpc_inr := inject_Z (8 + keyword_hash mod 15);
    kr_suggested_bids := {|
      conservative :=
        py_round fl (fadd fl 8 (fmul fl (inject_Z (keyword_hash mod 15))
                                        (lit fl (8 # 10)))) 2;
      optimal :=
        py_round fl (fadd fl 8 (fmul fl (inject_Z (keyword_hash mod 15))
                                        (lit fl (11 # 10)))) 2;
      aggressive :=
        py_round fl (fadd fl 8 (fmul fl (inject_Z (keyword_hash mod 15))
                                        (lit fl (14 # 10)))) 2
    |};
    kr_magnet_iq_score := keyword_hash mod 80 + 20;
    kr_intent_score := _calculate_intent_score keyword;
    kr_trend_percentage := inject_Z (keyword_hash mod 40 - 20);
    kr_trend_direction :=
      nth (Z.to_nat (keyword_hash mod 3)) [up; stable; down] up;
    kr_seasonal_factor :=
      py_round fl (fadd fl (lit fl (8 # 10))
                           (fdiv fl (inject_Z (keyword_hash mod 40)) 100)) 2;
    kr_aba_click_share :=
      py_round fl (fdiv fl (inject_Z (keyword_hash mod 500)) 100) 2;
    kr_aba_conversion_share :=
      py_round fl (fdiv fl (inject_Z (keyword_hash mod 400)) 100) 2;
    kr_sponsored_rank := keyword_hash mod 40 + 1;
    kr_category := default_category;
    kr_confidence :=
      py_round fl (fadd fl (lit fl (5 # 10))
                           (fdiv fl (inject_Z (keyword_hash mod 30)) 100)) 2;
    kr_reasoning := "Fallback estimation - API unavailable";
    kr_currency := "INR";
    kr_market := "India";
    kr_data_source := "Fallback Algorithm"
  |}.

(** The dict [get_enhanced_keyword_data] builds from the predictor's
    answer. *)
Definition enhanced_record (ai : ai_data) (keyword : PyStr.str)
  : keyword_record :=
  {|
    kr_keyword := keyword;
    kr_search_volume := ai_search_volume ai;
    kr_competition := cd_competition_level (ai_competition_data ai);
    kr_competition_score := cd_competition_score (ai_competition_data ai);
    kr_organic_competitors :=
      cd_organic_competitors (ai_competition_data ai);
    kr_sponsored_competitors :=
      cd_sponsored_competitors (ai_competition_data ai);
    kr_estimated_cpc_inr := ai_estimated_cpc ai;
    kr_suggested_bids := ai_suggested_bids ai;
    kr_magnet_iq_score := ai_magnet_iq_score ai;
    kr_intent_score := _calculate_intent_score keyword;
    kr_trend_percentage := td_trend_percentage (ai_trend_data ai);
    kr_trend_direction := td_trend_direction (ai_trend_data ai);
    kr_seasonal_factor := td_seasonal_factor (ai_trend_data ai);
    kr_aba_click_share := click_share (ai_aba_data ai);
    kr_aba_conversion_share := conversion_share (ai_aba_data ai);
    kr_sponsored_rank := aba_sponsored_rank (ai_aba_data ai);
    kr_category := ai_category ai;
    kr_confidence := ai_confidence ai;
    kr_reasoning := ai_reasoning ai;
    kr_currency := "INR";
    kr_market := "India";
    kr_data_source := "Enhanced AI + Amazon Data"
  |}.

(** [_get_basic_keyword_data] called with whatever object the list
    holds: [hash(keyword)] comes first; the dict is then built up to
    [_calculate_intent_score(keyword)], the first use of a [str]
    method. *)
Definition basic_keyword_data_of (keyword : pyobj) : exc keyword_record :=
  if hashable keyword then str_method _get_basic_keyword_data keyword
  else Raise TypeError.

Definition get_enhanced_keyword_data (keyword : pyobj) : M keyword_record :=
  mtry (let* ai := predictor keyword in
        mlift (str_method (enhanced_record ai) keyword))
       (fun _ => mlift (basic_keyword_data_of keyword)).

(** ** Autocomplete *)

Definition json_is_str (s : string) (j : json) : bool :=
  match j with
  | JStr t => bool_decide (PyStr.u s = t)
  | _ => false
  end.

(** [key in obj] for a string [key] *)
Definition py_in (key : string) (obj : json) : exc bool :=
  match obj with
  | JDict kvs =>
      Return (existsb (fun kv => bool_decide (PyStr.u key = fst kv)) kvs)
  | JList l => Return (existsb (json_is_str key) l)
  | JStr s => Return (PyStr.contains (PyStr.u key) s)
  | _ => Raise TypeError
  end.

(** [obj[key]] for a string [key] *)
Definition py_getitem (obj : json) (key : string) : exc json :=
  match obj with
  | JDict kvs =>
      match find (fun kv => bool_decide (PyStr.u key = fst kv)) kvs with
      | Some kv => Return (snd kv)
      | None => Raise KeyError
      end
  | _ => Raise TypeError
  end.

(** [for x in obj] *)
Definition py_iter (obj : json) : exc (list json) :=
  match obj with
  | JList l => Return l
  | JStr s =>
      Return (map (fun c => JStr [c]) s)
  | JDict kvs => Return (map (fun kv => JStr (fst kv)) kvs)
  | _ => Raise TypeError
  end.

(** [obj.strip()] *)
Definition py_strip (obj : json) : exc PyStr.str :=
  match obj with
  | JStr s => Return (PyStr.strip s)
  | _ => Raise AttributeError
  end.

Fixpoint extract_loop (items : list json) (suggestions : list PyStr.str)
  : exc (list PyStr.str) :=
  match items with
  | [] => Return suggestions
  | suggestion :: rest =>
      let+ has_value := py_in "value" suggestion in
      if has_value : bool then
        let+ value := py_getitem suggestion "value" in
        let+ keyword := py_strip value in
        if PyStr.truthy keyword && negb (PyStr.mem keyword suggestions)
        then extract_loop rest (suggestions ++ [keyword])%list
        else extract_loop rest suggestions
      else extract_loop rest suggestions
  end.

Definition extract_suggestions (data : json) : exc (list PyStr.str) :=
  let+ has_suggestions := py_in "suggestions" data in
  if has_suggestions : bool then
    let+ value := py_getitem data "suggestions" in
    let+ items := py_iter value in
    extract_loop items []
  else Return [].

(** [except aiohttp.ClientError] and [except json.JSONDecodeError] *)
Definition inner_handlers (e : exn) : bool :=
  match e with
  | ClientError | JSONDecodeError => true
  | _ => false
  end.

(** The body of the inner [try]: [Some l] is [return suggestions],
    [None] is falling through to the final [return []]. *)
Definition autocomplete_request (o : http_outcome)
  : exc (option (list PyStr.str)) :=
  match o with
  | GetRaises e => Raise e
  | Responds status body =>
      if status =? 200 then
        let+ data := body in
        let+ suggestions := extract_suggestions data in
        Return (Some suggestions)
      else Return None
  end.

Definition _get_amazon_autocomplete (seed_keyword : PyStr.str)
    (o : http_outcome) : exc (list PyStr.str) :=
  let inner :=
    try_except (autocomplete_request o)
               (fun e => if inner_handlers e then Return None else Raise e) in
  let outer := try_except inner (fun _ => Return None) in
  let+ returned := outer in
  Return (match returned with Some l => l | None => [] end).

(** ** Expansion *)

Definition commercial_patterns (seed_keyword : PyStr.str) : list PyStr.str :=
  [seed_keyword ++ PyStr.u " for sale";
   seed_keyword ++ PyStr.u " best price";
   PyStr.u "buy " ++ seed_keyword ++ PyStr.u " online";
   seed_keyword ++ PyStr.u " lowest price";
   seed_keyword ++ PyStr.u " amazon india";
   seed_keyword ++ PyStr.u " flipkart";
   PyStr.u "cheap " ++ seed_keyword ++ PyStr.u " online";
   seed_keyword ++ PyStr.u " with discount";
   seed_keyword ++ PyStr.u " bulk order";
   PyStr.u "wholesale " ++ seed_keyword;
   seed_keyword ++ PyStr.u " home delivery";
   seed_keyword ++ PyStr.u " cash on delivery"]%list.

Definition question_patterns (seed_keyword : PyStr.str) : list PyStr.str :=
  [PyStr.u "what is " ++ seed_keyword;
   PyStr.u "how to use " ++ seed_keyword;
   PyStr.u "where to buy " ++ seed_keyword;
   PyStr.u "which " ++ seed_keyword ++ PyStr.u " is best";
   PyStr.u "why buy " ++ seed_keyword;
   PyStr.u "when to use " ++ seed_keyword]%list.

Definition comparison_patterns (seed_keyword : PyStr.str) : list PyStr.str :=
  [seed_keyword ++ PyStr.u " vs";
   seed_keyword ++ PyStr.u " comparison";
   seed_keyword ++ PyStr.u " alternative";
   seed_keyword ++ PyStr.u " substitute";
   PyStr.u "better than " ++ seed_keyword;
   seed_keyword ++ PyStr.u " or"]%list.

Definition variations_of (seed_keyword : PyStr.str)
    (existing_lower : list PyStr.str) : list PyStr.str :=
  let fresh v := negb (PyStr.mem (PyStr.lower v) existing_lower) in
  (List.filter fresh
               (map (fun prefix => PyStr.u prefix ++ PyStr.u " " ++ seed_keyword) prefixes)
   ++ List.filter fresh
        (map (fun suffix => seed_keyword ++ PyStr.u " " ++ PyStr.u suffix) suffixes)
   ++ flat_map (fun intent_word =>
                  [PyStr.u intent_word ++ PyStr.u " " ++ seed_keyword;
                   seed_keyword ++ PyStr.u " to " ++ PyStr.u intent_word;
                   PyStr.u "how to " ++ PyStr.u intent_word ++ PyStr.u " " ++ seed_keyword])
               intent_words
   ++ flat_map (fun location =>
                  [seed_keyword ++ PyStr.u " in " ++ PyStr.u location;
                   seed_keyword ++ PyStr.u " " ++ PyStr.u location;
                   PyStr.u location ++ PyStr.u " " ++ seed_keyword])
               location_words
   ++ commercial_patterns seed_keyword
   ++ question_patterns seed_keyword
   ++ comparison_patterns seed_keyword)%list.

Fixpoint unique_variations_loop (variations existing_lower : list PyStr.str)
    (unique_variations : list PyStr.str) : list PyStr.str :=
  match variations with
  | [] => unique_variations
  | variation :: rest =>
      let variation_clean := PyStr.strip variation in
      if negb (PyStr.mem (PyStr.lower variation_clean) existing_lower)
         && negb (PyStr.mem variation_clean unique_variations)
         && (2 <? PyStr.len variation_clean)
      then unique_variations_loop rest existing_lower
             (unique_variations ++ [variation_clean])%list
      else unique_variations_loop rest existing_lower unique_variations
  end.

(** [x[i], x[j] = x[j], x[i]] *)
Definition swap {A} (i j : nat) (x : list A) : list A :=
  match x !! i, x !! j with
  | Some a, Some b => <[j := a]> (<[i := b]> x)
  | _, _ => x
  end.

(** [random.shuffle(x)]:
    [for i in reversed(range(1, len(x))): j = randbelow(i + 1); swap]. *)
Fixpoint shuffle_loop {A} (i : nat) (x : list A) (g : Rng) : list A * Rng :=
  match i with
  | O => (x, g)
  | S i' =>
      let '(j, g') := rng_randbelow (Z.of_nat i + 1) g in
      shuffle_loop i' (swap i (Z.to_nat j) x) g'
  end.

Definition random_shuffle {A} (x : list A) : M (list A) :=
  fun g =>
    let '(x', g') := shuffle_loop (length x - 1) x g in
    (Return x', g').

Definition _generate_expanded_suggestions (seed_keyword : PyStr.str)
    (count : Z) (existing_suggestions : list PyStr.str) : M (list PyStr.str) :=
  let existing_lower := map PyStr.lower existing_suggestions in
  let variations := variations_of seed_keyword existing_lower in
  let unique_variations :=
    unique_variations_loop variations existing_lower [] in
  let* shuffled := random_shuffle unique_variations in
  mret (py_prefix shuffled count).

Fixpoint dedupe_loop (suggestions : list PyStr.str)
    (unique_suggestions : list PyStr.str) (seen : gset PyStr.str) : list PyStr.str :=
  match suggestions with
  | [] => unique_suggestions
  | suggestion :: rest =>
      let suggestion_clean := PyStr.lower (PyStr.strip suggestion) in
      if PyStr.truthy suggestion_clean
         && negb (bool_decide (suggestion_clean ∈ seen))
         && (2 <? PyStr.len suggestion_clean)
      then dedupe_loop rest
             (unique_suggestions ++ [PyStr.strip suggestion])%list
             ({[suggestion_clean]} ∪ seen)
      else dedupe_loop rest unique_suggestions seen
  end.

Definition get_keyword_suggestions (seed_keyword : PyStr.str) (limit : Z)
    (o : http_outcome) : M (list PyStr.str) :=
  let* amazon_suggestions :=
    mlift (_get_amazon_autocomplete seed_keyword o) in
  let suggestions := amazon_suggestions in
  let* suggestions :=
    if Z.of_nat (length suggestions) <? limit then
      let additional_needed := limit - Z.of_nat (length suggestions) in
      let* expanded_suggestions :=
        _generate_expanded_suggestions seed_keyword additional_needed
                                       suggestions in
      mret (suggestions ++ expanded_suggestions)%list
    else mret suggestions in
  let unique_suggestions := dedupe_loop suggestions [] ∅ in
  mret (py_prefix unique_suggestions limit).

(** ** Bulk analysis *)

(** A task created by [asyncio.gather]: pending, or done with the
    record it returned or the exception it raised. *)
Inductive future : Type :=
| Pending
| Done (o : exc keyword_record).

(** [task.result()] with [return_exceptions=True]; asking a pending
    task for its result is an error, and [gather] never does. *)
Definition future_result (f : future) : exc keyword_record :=
  match f with
  | Done o => o
  | Pending => Raise RuntimeError
  end.

(** The order in which [n] tasks complete under the scheduler's
    preferences [prefs]: the tasks [prefs] names, in the order of their
    first mention, then the others in the order of their creation. *)
Definition completion_order (prefs : list nat) (n : nat) : list nat :=
  let named := remove_dups (List.filter (fun i => (i <? n)%nat) prefs) in
  (named
   ++ List.filter (fun i => negb (bool_decide (i ∈ named))) (seq 0 n))%list.

(** Each task is [analyze_with_semaphore(keyword)]; it has no point of
    suspension once the semaphore is taken, so it runs as one step and
    stores its outcome in the slot of its own index. *)
Fixpoint run_tasks (order : list nat) (keywords : list pyobj)
    (futures : list future) (g : Rng) : list future * Rng :=
  match order with
  | [] => (futures, g)
  | i :: rest =>
      match keywords !! i with
      | Some keyword =>
          let '(o, g') := get_enhanced_keyword_data keyword g in
          run_tasks rest keywords (<[i := Done o]> futures) g'
      | None => run_tasks rest keywords futures g
      end
  end.

(** [await asyncio.gather( *tasks, return_exceptions=True)] *)
Definition gather (keywords : list pyobj) (g : Rng)
  : list (exc keyword_record) * Rng :=
  let n := length keywords in
  let '(futures, g') :=
    run_tasks (completion_order (scheduler n) n) keywords
              (replicate n Pending) g in
  (map future_result futures, g').

Fixpoint collect_results (i : Z) (results : list (exc keyword_record))
    (keywords : list pyobj) (successful_results : list keyword_record)
  : exc (list keyword_record) :=
  match results with
  | [] => Return successful_results
  | inl _ :: rest =>
      let+ keyword := py_index keywords i in
      let+ fallback := basic_keyword_data_of keyword in
      collect_results (i + 1) rest keywords
                      (successful_results ++ [fallback])%list
  | inr result :: rest =>
      collect_results (i + 1) rest keywords
                      (successful_results ++ [result])%list
  end.

Definition get_bulk_keyword_analysis (keywords : list pyobj)
  : M (list keyword_record) :=
  fun g =>
    match keywords with
    | [] => (Return [], g)
    | _ =>
        let '(results, g') := gather keywords g in
        (collect_results 0 results keywords [], g')
    end.

(** ** Competitor analysis *)

(** [list.sort(key=magnet_iq_score, reverse=True)]: descending and
    stable. *)
Fixpoint insert_desc (x : keyword_record) (l : list keyword_record)
  : list keyword_record :=
  match l with
  | [] => [x]
  | y :: r =>
      if kr_magnet_iq_score y <=? kr_magnet_iq_score x then x :: l
      else y :: insert_desc x r
  end.

Definition sort_by_magnet (l : list keyword_record) : list keyword_record :=
  foldr insert_desc [] l.

(** [sum(xs)] over floats: left to right. *)
Definition fsum (xs : list Q) : Q :=
  match xs with
  | [] => 0%Q
  | x :: r => fold_left (fadd fl) r x
  end.

Definition zsum (xs : list Z) : Z := fold_left Z.add xs 0.

Definition count (p : keyword_record -> bool) (l : list keyword_record) : Z :=
  Z.of_nat (length (List.filter p l)).

Definition summarize (competitor_data : list keyword_record)
  : summary_stats :=
  match competitor_data with
  | [] => {|
      total_search_volume := 0;
      average_cpc := 0;
      average_magnet_iq := 0;
      average_competition := 0;
      top_opportunity := None;
      high_opportunity_count := 0;
      low_competition_keywords := 0;
      high_volume_keywords := 0
    |}
  | top :: _ =>
      let n := inject_Z (Z.of_nat (length competitor_data)) in
      let total_volume := zsum (map kr_search_volume competitor_data) in
      let avg_cpc :=
        fdiv fl (fsum (map kr_estimated_cpc_inr competitor_data)) n in
      let avg_magnet_iq :=
        fdiv fl (inject_Z (zsum (map kr_magnet_iq_score competitor_data)))
                n in
      let avg_competition :=
        fdiv fl (fsum (map kr_competition_score competitor_data)) n in
      {|
        total_search_volume := total_volume;
        average_cpc := py_round fl avg_cpc 2;
        average_magnet_iq := py_round fl avg_magnet_iq 1;
        average_competition := py_round fl avg_competition 2;
        top_opportunity := Some top;
        high_opportunity_count :=
          count (fun kw => (70 <? kr_magnet_iq_score kw)
                           && Qltb (kr_competition_score kw)
                                   (lit fl (6 # 10)))
                competitor_data;
        low_competition_keywords :=
          count (fun kw => match kr_competition kw with
                           | low => true
                           | _ => false
                           end) competitor_data;
        high_volume_keywords :=
          count (fun kw => 5000 <? kr_search_volume kw) competitor_data
      |}
  end.

Definition get_competitor_analysis (primary_keyword : PyStr.str) (limit : Z)
    (o : http_outcome) : M competitor_report :=
  let* related_keywords :=
    get_keyword_suggestions primary_keyword limit o in
  match related_keywords with
  | [] =>
      mret {|
        cr_primary_keyword := primary_keyword;
        cr_competitor_keywords := [];
        cr_total_found := 0;
        cr_analysis_summary := SummaryText "No competitor keywords found";
        cr_market := "India";
        cr_currency := None;
        cr_timestamp := None
      |}
  | _ =>
      let* competitor_data :=
        get_bulk_keyword_analysis (map PyStr related_keywords) in
      let competitor_data := sort_by_magnet competitor_data in
      mret {|
        cr_primary_keyword := primary_keyword;
        cr_competitor_keywords := competitor_data;
        cr_total_found := Z.of_nat (length competitor_data);
        cr_analysis_summary := SummaryStats (summarize competitor_data);
        cr_market := "India";
        cr_currency := Some "INR";
        cr_timestamp := Some loop_time
      |}
  end.

End Scraper.

(** The module-level instance [enhanced_ai_predictor] as the scraper
    calls it: [categorize_keyword] starts with [keyword.lower()] and
    goes on with [word in keyword_lower], which a [bytes] object
    refuses. *)
Definition enhanced_ai_predictor (fl : Q -> Q) (py_hash : PyStr.str -> Z)
    (now : Month) (keyword : pyobj) : M ai_data :=
  match keyword with
  | PyStr s => predict_optimal_bid_enhanced fl py_hash now s
  | PyBytes _ => mraise TypeError
  | _ => mraise AttributeError
  end.

(* ================================================================== *)
(** * Vocabulary of the stated properties *)
(* ================================================================== *)

(** A prediction with its simulated ABA block blanked out. *)
Definition forget_aba (r : ai_data) : ai_data :=
  {|
    ai_keyword := ai_keyword r;
    ai_category := ai_category r;
    ai_search_volume := ai_search_volume r;
    ai_estimated_cpc := ai_estimated_cpc r;
    ai_suggested_bids := ai_suggested_bids r;
    ai_magnet_iq_score := ai_magnet_iq_score r;
    ai_competition_data := ai_competition_data r;
    ai_trend_data := ai_trend_data r;
    ai_aba_data :=
      {| click_share := 0; conversion_share := 0; aba_sponsored_rank := 0 |};
    ai_confidence := ai_confidence r;
    ai_reasoning := ai_reasoning r;
    ai_market := ai_market r;
    ai_currency := ai_currency r
  |}.

Definition bids_monotone (b : suggested_bids) : Prop :=
  (conservative b <= optimal b)%Q /\ (optimal b <= aggressive b)%Q.

(** The magnet score as the design document words it: the volume term
    capped at 40, less thirty times the competition score, plus twenty
    for a high-intent word, plus the long-tail bonus; made an integer
    and clamped to 1..100. *)
Definition magnet_score_stated (fl : Q -> Q) (keyword : PyStr.str) (v : Z)
    (c : Q) : Z :=
  let ratio := fdiv fl (inject_Z v) 500 in
  let volume_score := if Qleb 40 ratio then 40%Q else ratio in
  let intent_bonus :=
    if existsb (fun w => PyStr.contains (PyStr.u w) (PyStr.lower keyword))
               high_intent_words
    then 20 else 0 in
  let long_tail := 15 - 2 * Z.of_nat (length (PyStr.split keyword)) in
  let long_tail_bonus := if long_tail <? 0 then 0 else long_tail in
  let total :=
    fadd fl (fadd fl (fsub fl volume_score (fmul fl c 30))
                     (inject_Z intent_bonus))
            (inject_Z long_tail_bonus) in
  let n := py_int total in
  if n <? 1 then 1 else if 100 <? n then 100 else n.

Definition is_str (k : pyobj) : bool :=
  match k with PyStr _ => true | _ => false end.

(** The exception the fallback raises for an element that is not a
    string: TypeError when the element is unhashable or is a [bytes]
    object, AttributeError otherwise. *)
Definition non_string_error (k : pyobj) : exn :=
  match k with
  | PyBytes _ | PyList _ | PySet _ | PyDict _ => TypeError
  | PyTuple items => if forallb hashable items then AttributeError
                     else TypeError
  | _ => AttributeError
  end.

Definition is_blank (k : pyobj) : bool :=
  match k with
  | PyStr s => negb (PyStr.truthy (PyStr.strip s))
  | _ => false
  end.

(** The batch precondition of the design document: between 1 and 100
    elements, each a non-blank string. *)
Definition violates_precondition (keywords : list pyobj) : bool :=
  match keywords with
  | [] => true
  | _ =>
      (100 <? Z.of_nat (length keywords))
      || existsb (fun k => negb (is_str k) || is_blank k) keywords
  end.

(** The ways a fetch fails: the request raises (time-out, network
    error), the status is not 200, the body does not decode, or the
    decoded document has not the shape the extraction walks. *)
Definition fetch_failed (o : http_outcome) : Prop :=
  match o with
  | GetRaises _ => True
  | Responds status body =>
      status <> 200
      \/ match body with
         | inl _ => True
         | inr data => raised (extract_suggestions data) = true
         end
  end.

(** The identity of a candidate: trimmed and lower-cased. *)
Definition suggestion_key (s : PyStr.str) : PyStr.str :=
  PyStr.lower (PyStr.strip s).

(** [c] occurs in [candidates] at [j] and no earlier candidate has its
    key. *)
Definition first_seen_at (candidates : list PyStr.str) (j : nat) (c : PyStr.str)
  : Prop :=
  candidates !! j = Some c /\
  forall j' c', (j' < j)%nat -> candidates !! j' = Some c' ->
                suggestion_key c' <> suggestion_key c.

(** The candidates [get_keyword_suggestions] deduplicates: the
    autocomplete suggestions followed, when they are fewer than [limit],
    by the generated ones. *)
Definition candidate_suggestions (seed_keyword : PyStr.str) (limit : Z)
    (o : http_outcome) (g : Rng) : list PyStr.str :=
  match _get_amazon_autocomplete seed_keyword o with
  | inl _ => []
  | inr amazon =>
      if Z.of_nat (length amazon) <? limit then
        match _generate_expanded_suggestions seed_keyword
                (limit - Z.of_nat (length amazon)) amazon g with
        | (inr expanded, _) => (amazon ++ expanded)%list
        | (inl _, _) => amazon
        end
      else amazon
  end.

(** The record the scraper holds for the string [s] when the predictor
    is called in generator state [g]: the enhanced record if the
    predictor returns, the fallback if it raises. *)
Definition record_for (fl : Q -> Q) (py_hash : PyStr.str -> Z)
    (predictor : pyobj -> M ai_data) (s : PyStr.str) (g : Rng) : keyword_record :=
  match fst (predictor (PyStr s) g) with
  | inr ai => enhanced_record ai s
  | inl _ => _get_basic_keyword_data fl py_hash s
  end.

(** [o] is the outcome of one scoring task for the object [k]. *)
Definition scored_by (fl : Q -> Q) (py_hash : PyStr.str -> Z)
    (predictor : pyobj -> M ai_data) (k : pyobj) (o : exc keyword_record)
  : Prop :=
  exists g, o = fst (get_enhanced_keyword_data fl py_hash predictor k g).

(** A slot of the gathered tasks is still pending or holds the outcome
    of the task of its own keyword. *)
Definition slot_ok (fl : Q -> Q) (py_hash : PyStr.str -> Z)
    (predictor : pyobj -> M ai_data) (k : pyobj) (f : future) : Prop :=
  f = Pending \/ exists o, f = Done o /\ scored_by fl py_hash predictor k o.

(** Sample environment: a hash, a generator and a scheduler. *)
Definition sample_hash (s : PyStr.str) : Z := 7919 * PyStr.len s + 13.

Definition sample_rng : Rng := mkRng (fun n => N.of_nat (3 * n + 1)) 0.

Definition reversed_scheduler (n : nat) : list nat := rev (seq 0 n).

(** ** Vocabulary of the further properties *)

(** [s] lower-cased where it stands, between [before] (nearest code
    point first) and [after]. *)
Fixpoint lower_between (before s after : PyStr.str) : PyStr.str :=
  match s with
  | [] => []
  | c :: r =>
      (PyStr.lower_at before c (r ++ after)
       ++ lower_between (c :: before) r after)%list
  end.

(** Two lower-cased strings that differ at most in the form of their
    small sigmas. *)
Definition same_but_sigma (l l' : PyStr.str) : Prop :=
  Forall2 (fun x y => x = y
                      \/ ((x = 962 \/ x = 963) /\ (y = 962 \/ y = 963))%N)
          l l'.

(** A variation the filter loop accepts: trimmed, longer than two
    characters, and not an existing suggestion in another case. *)
Definition fresh_variation (existing_lower : list PyStr.str)
    (e : PyStr.str) : Prop :=
  PyStr.strip e = e /\ (2 < PyStr.len e)%Z /\ PyStr.lower e ∉ existing_lower.

(** What the extraction keeps: a non-empty, trimmed string. *)
Definition clean_suggestion (e : PyStr.str) : Prop :=
  PyStr.truthy e = true /\ PyStr.strip e = e.

(** The string under the key "value" of an item of the payload. *)
Definition suggestion_value (j : json) : option PyStr.str :=
  match j with
  | JDict kvs =>
      match find (fun kv => bool_decide (PyStr.u "value" = fst kv)) kvs with
      | Some (_, JStr v) => Some v
      | _ => None
      end
  | _ => None
  end.

(** A payload of the documented shape: a dict whose "suggestions" entry
    is the list [items], each item a dict with a string under
    "value". *)
Definition well_formed_payload (data : json) (items : list json) : Prop :=
  (exists kvs key,
      data = JDict kvs
      /\ find (fun kv => bool_decide (PyStr.u "suggestions" = fst kv)) kvs
         = Some (key, JList items))
  /\ Forall (fun item => is_Some (suggestion_value item)) items.

(** A record with its three simulated ABA fields blanked out. *)
Definition forget_aba_record (r : keyword_record) : keyword_record :=
  {|
    kr_keyword := kr_keyword r;
    kr_search_volume := kr_search_volume r;
    kr_competition := kr_competition r;
    kr_competition_score := kr_competition_score r;
    kr_organic_competitors := kr_organic_competitors r;
    kr_sponsored_competitors := kr_sponsored_competitors r;
    kr_estimated_cpc_inr := kr_estimated_cpc_inr r;
    kr_suggested_bids := kr_suggested_bids r;
    kr_magnet_iq_score := kr_magnet_iq_score r;
    kr_intent_score := kr_intent_score r;
    kr_trend_percentage := kr_trend_percentage r;
    kr_trend_direction := kr_trend_direction r;
    kr_seasonal_factor := kr_seasonal_factor r;
    kr_aba_click_share := 0;
    kr_aba_conversion_share := 0;
    kr_sponsored_rank := 0;
    kr_category := kr_category r;
    kr_confidence := kr_confidence r;
    kr_reasoning := kr_reasoning r;
    kr_currency := kr_currency r;
    kr_market := kr_market r;
    kr_data_source := kr_data_source r
  |}.

(** No record comes before one of a higher magnet score. *)
Definition descending_by_magnet (l : list keyword_record) : Prop :=
  forall i j a b,
    (i < j)%nat -> l !! i = Some a -> l !! j = Some b ->
    (kr_magnet_iq_score b <= kr_magnet_iq_score a)%Z.

(** The records of magnet score [m], in the order of [l]. *)
Definition with_magnet (m : Z) (l : list keyword_record)
  : list keyword_record :=
  List.filter (fun r => (kr_magnet_iq_score r =? m)%Z) l.

(** The place of a category in the order [categorize_keyword] tries
    them. *)
Definition category_rank (c : category) : Z :=
  match c with
  | electronics => 0
  | fashion => 1
  | books => 2
  | home_kitchen => 3
  | health => 4
  | beauty => 5
  | sports => 6
  | default_category => 7
  end.

(** The confidence of a prediction of competition score [score]; the
    value [random.uniform] rounds for the draw [r]; a field of the
    fallback record for the residue [n]. *)
Definition confidence_at (fl : Q -> Q) (score : Q) : Q :=
  py_round fl (fsub fl (lit fl (85 # 100)) (fmul fl score (lit fl (2 # 10)))) 2.

Definition uniform_at (fl : Q -> Q) (a : Q) (b : Z) (r : Q) : Q :=
  py_round fl (fadd fl (lit fl a)
                 (fmul fl (fsub fl (inject_Z b) (lit fl a)) r)) 2.

Definition fallback_at (fl : Q -> Q) (a : Q) (n : Z) : Q :=
  py_round fl (fadd fl (lit fl a) (fdiv fl (inject_Z n) 100)) 2.

(* ================================================================== *)
(** * Facts about the number model *)
(* ================================================================== *)

Open Scope Q_scope.

Lemma Qltb_spec x y : Qltb x y = true <-> x < y.
Proof.
  unfold Qltb. rewrite negb_true_iff. split.
  - intros H. apply Qnot_le_lt. intros Hle. apply Qle_bool_iff in Hle. congruence.
  - intros H. destruct (Qle_bool y x) eqn:E; [|reflexivity].
    apply Qle_bool_iff in E. lra.
Qed.

Lemma Qltb_false x y : Qltb x y = false <-> y <= x.
Proof.
  unfold Qltb. rewrite negb_false_iff. apply Qle_bool_iff.
Qed.

Lemma py_min_le_l a b : py_min a b <= a.
Proof. unfold py_min. destruct (Qltb b a) eqn:E; [apply Qltb_spec in E|]; lra. Qed.


Lemma py_min_glb a b c : c <= a -> c <= b -> c <= py_min a b.
Proof. unfold py_min. destruct (Qltb b a); auto. Qed.

Lemma py_max_ge_l a b : a <= py_max a b.
Proof. unfold py_max. destruct (Qltb a b) eqn:E; [apply Qltb_spec in E|]; lra. Qed.

Lemma py_max_ge_r a b : b <= py_max a b.
Proof. unfold py_max. destruct (Qltb a b) eqn:E; [|apply Qltb_false in E]; lra. Qed.

Lemma py_max_lub a b c : a <= c -> b <= c -> py_max a b <= c.
Proof. unfold py_max. destruct (Qltb a b); auto. Qed.

Lemma round_half_even_cases y :
  round_half_even y = Qfloor y \/ round_half_even y = (Qfloor y + 1)%Z.
Proof.
  unfold round_half_even.
  destruct (Qcompare _ _); [destruct (Z.even _)|..]; auto.
Qed.

Lemma Qcompare_cases x y :
  match Qcompare x y with Eq => x == y | Lt => x < y | Gt => y < x end.
Proof.
  destruct (Qcompare x y) eqn:E.
  - now apply Qeq_alt.
  - now apply Qlt_alt.
  - now apply Qgt_alt.
Qed.

Lemma round_half_even_mono x y : x <= y -> (round_half_even x <= round_half_even y)%Z.
Proof.
  intros Hxy.
  pose proof (Qfloor_resp_le _ _ Hxy) as Hf.
  destruct (Z.eq_dec (Qfloor x) (Qfloor y)) as [Heq|Hne].
  - unfold round_half_even. rewrite <- Heq.
    pose proof (Qcompare_cases (x - inject_Z (Qfloor x)) (1 # 2)) as Ex.
    pose proof (Qcompare_cases (y - inject_Z (Qfloor x)) (1 # 2)) as Ey.
    destruct (Qcompare (x - inject_Z (Qfloor x)) (1 # 2));
    destruct (Qcompare (y - inject_Z (Qfloor x)) (1 # 2));
    try (destruct (Z.even (Qfloor x))); try lia; exfalso; lra.
  - destruct (round_half_even_cases x) as [-> | ->],
             (round_half_even_cases y) as [-> | ->]; lia.
Qed.

Lemma scale_pos n : 0 < inject_Z (10 ^ Z.of_nat n).
Proof.
  replace 0 with (inject_Z 0) by reflexivity. rewrite <- Zlt_Qlt.
  apply Z.pow_pos_nonneg; lia.
Qed.

Lemma decimal_round_mono n x y : x <= y -> decimal_round n x <= decimal_round n y.
Proof.
  intros Hxy. unfold decimal_round.
  pose proof (scale_pos n) as Hs.
  set (s := inject_Z (10 ^ Z.of_nat n)) in *.
  assert (Hm : x * s <= y * s) by nra.
  apply round_half_even_mono in Hm. rewrite Zle_Qle in Hm.
  unfold Qdiv. apply Qmult_le_compat_r; [exact Hm|].
  apply Qinv_le_0_compat. lra.
Qed.

Lemma round_half_even_Z n : round_half_even (inject_Z n) = n.
Proof.
  unfold round_half_even. rewrite Qfloor_Z.
  pose proof (Qcompare_cases (inject_Z n - inject_Z n) (1 # 2)) as E.
  destruct (Qcompare _ _); auto; lra.
Qed.

Lemma round_half_even_eq x y : x == y -> round_half_even x = round_half_even y.
Proof.
  intros H. apply Z.le_antisymm; apply round_half_even_mono; lra.
Qed.

Lemma decimal_round_0 n : decimal_round n 0 == 0.
Proof.
  unfold decimal_round.
  rewrite (round_half_even_eq _ (inject_Z 0)) by (change (inject_Z 0) with 0; ring).
  rewrite round_half_even_Z. pose proof (scale_pos n) as Hs.
  change (inject_Z 0) with 0. unfold Qdiv. ring.
Qed.

Lemma decimal_round_nonneg n x : 0 <= x -> 0 <= decimal_round n x.
Proof.
  intros H. rewrite <- (decimal_round_0 n). now apply decimal_round_mono.
Qed.

Lemma py_int_nonneg x : 0 <= x -> (0 <= py_int x)%Z.
Proof.
  intros H. unfold py_int, Qleb.
  destruct (Qle_bool 0 x) eqn:E.
  - replace 0%Z with (Qfloor 0) by reflexivity. now apply Qfloor_resp_le.
  - assert (Qle_bool 0 x = true) by now apply Qle_bool_iff. congruence.
Qed.

Lemma exact_rounding : Rounding exact.
Proof.
  split.
  - intros x y H. exact H.
  - intros n _. reflexivity.
Qed.

Lemma pow2_pos e : 0 < 2 ^ e.
Proof. apply Qpower_0_lt. reflexivity. Qed.

Lemma pow2_succ e : 2 ^ (e + 1) == 2 * 2 ^ e.
Proof. rewrite Qpower_plus by discriminate. change (2 ^ 1) with 2. ring. Qed.

Lemma pow2_inject (a : Z) : (0 <= a)%Z -> inject_Z (2 ^ a) == 2 ^ a.
Proof. intros H. now rewrite Zpower_Qpower. Qed.

Lemma pow2_le (a b : Z) : (a <= b)%Z -> 2 ^ a <= 2 ^ b.
Proof. intros H. apply Qpower_le_compat_l; [exact H|]. discriminate. Qed.

Lemma pow2_lt_inv (a b : Z) : 2 ^ a < 2 ^ b -> (a < b)%Z.
Proof. intros H. apply (Qpower_lt_compat_l_inv 2); [exact H|reflexivity]. Qed.

Lemma binade_spec x : 0 < x -> 2 ^ binade x <= x /\ x < 2 ^ (binade x + 1).
Proof.
  intros Hx. unfold binade.
  destruct x as [n d]. simpl Qnum. simpl Qden.
  assert (Hn : (0 < n)%Z).
  { unfold Qlt in Hx. simpl in Hx. lia. }
  set (a := Z.log2 n). set (b := Z.log2 (Z.pos d)).
  set (k := (a - b)%Z).
  destruct (Z.log2_spec n Hn) as [Ha1 Ha2]. fold a in Ha1, Ha2.
  destruct (Z.log2_spec (Z.pos d) (Pos2Z.is_pos d)) as [Hb1 Hb2].
  fold b in Hb1, Hb2.
  assert (Ha0 : (0 <= a)%Z) by apply Z.log2_nonneg.
  assert (Hb0 : (0 <= b)%Z) by apply Z.log2_nonneg.
  rewrite Z.pow_succ_r in Ha2, Hb2 by assumption.
  rewrite Zle_Qle in Ha1, Hb1. rewrite Zlt_Qlt in Ha2, Hb2.
  rewrite inject_Z_mult in Ha2, Hb2.
  rewrite pow2_inject in Ha1, Ha2, Hb1, Hb2 by assumption.
  change (inject_Z 2) with 2 in Ha2, Hb2.
  assert (HPB : 2 ^ k * 2 ^ b == 2 ^ a).
  { rewrite <- Qpower_plus by discriminate. now replace (k + b)%Z with a by lia. }
  assert (Hxd : (n # d) * inject_Z (Z.pos d) == inject_Z n).
  { rewrite (Qmake_Qdiv n d). field. discriminate. }
  pose proof (pow2_pos k) as HP. pose proof (pow2_pos b) as HB.
  assert (HD : 0 < inject_Z (Z.pos d)) by reflexivity.
  set (x := n # d) in *. set (D := inject_Z (Z.pos d)) in *.
  set (N := inject_Z n) in *. set (P := 2 ^ k) in *.
  set (A := 2 ^ a) in *. set (B := 2 ^ b) in *.
  assert (Hup : x < 2 * P).
  { apply (Qmult_lt_r _ _ D HD). nra. }
  assert (Hlo : P < 2 * x).
  { apply (Qmult_lt_r _ _ D HD). nra. }
  destruct (Qle_bool P x) eqn:E.
  - apply Qle_bool_iff in E. split; [exact E|].
    fold k. rewrite pow2_succ. exact Hup.
  - assert (Hlt : x < P).
    { apply Qnot_le_lt. intros Hle. apply Qle_bool_iff in Hle. congruence. }
    assert (HP1 : 2 ^ (k - 1 + 1) == 2 * 2 ^ (k - 1)) by apply pow2_succ.
    replace (k - 1 + 1)%Z with k in * by lia. fold P in HP1.
    fold P. set (P' := 2 ^ (k - 1)) in *. clearbody P P' x N D A B.
    split; lra.
Qed.

Lemma binade_mono x y : 0 < x -> x <= y -> (binade x <= binade y)%Z.
Proof.
  intros Hx Hxy.
  destruct (binade_spec x Hx) as [Hx1 _].
  destruct (binade_spec y) as [_ Hy2]; [lra|].
  assert (H : 2 ^ binade x < 2 ^ (binade y + 1)) by lra.
  apply pow2_lt_inv in H. lia.
Qed.

Lemma binade_unique x e :
  2 ^ e <= x -> x < 2 ^ (e + 1) -> binade x = e.
Proof.
  intros H1 H2.
  assert (Hx : 0 < x) by (pose proof (pow2_pos e); lra).
  destruct (binade_spec x Hx) as [Hb1 Hb2].
  assert (Ha : 2 ^ e < 2 ^ (binade x + 1)) by lra.
  assert (Hb : 2 ^ binade x < 2 ^ (e + 1)) by lra.
  apply pow2_lt_inv in Ha, Hb. lia.
Qed.

Lemma round_half_even_between (lo hi : Z) y :
  inject_Z lo <= y -> y <= inject_Z hi ->
  (lo <= round_half_even y <= hi)%Z.
Proof.
  intros H1 H2. split.
  - rewrite <- (round_half_even_Z lo). now apply round_half_even_mono.
  - rewrite <- (round_half_even_Z hi). now apply round_half_even_mono.
Qed.

(** The significand of a positive number, scaled to 53 bits. *)
Lemma significand_range x :
  0 < x ->
  inject_Z (2 ^ 52) <= x / 2 ^ (binade x - 52)
  /\ x / 2 ^ (binade x - 52) <= inject_Z (2 ^ 53).
Proof.
  intros Hx. destruct (binade_spec x Hx) as [H1 H2].
  pose proof (pow2_pos (binade x - 52)) as Hu.
  assert (He : 2 ^ binade x == 2 ^ (binade x - 52) * inject_Z (2 ^ 52)).
  { rewrite (pow2_inject 52) by lia. rewrite <- Qpower_plus by discriminate.
    now replace (binade x - 52 + 52)%Z with (binade x) by lia. }
  rewrite pow2_succ in H2.
  set (u := 2 ^ (binade x - 52)) in *. set (P := 2 ^ binade x) in *.
  change (inject_Z (2 ^ 53)) with (2 * inject_Z (2 ^ 52)).
  set (c := inject_Z (2 ^ 52)) in *. clearbody u P c.
  split.
  - apply Qle_shift_div_l; [exact Hu|]. nra.
  - apply Qle_shift_div_r; [exact Hu|]. nra.
Qed.

Lemma round_to_bounds x :
  0 < x ->
  2 ^ binade x <= round_to 53 x /\ round_to 53 x <= 2 ^ (binade x + 1).
Proof.
  intros Hx. unfold round_to. change (53 - 1)%Z with 52%Z.
  destruct (significand_range x Hx) as [H1 H2].
  destruct (round_half_even_between _ _ _ H1 H2) as [R1 R2].
  rewrite Zle_Qle in R1, R2.
  pose proof (pow2_pos (binade x - 52)) as Hu.
  assert (He : 2 ^ binade x == 2 ^ (binade x - 52) * inject_Z (2 ^ 52)).
  { rewrite (pow2_inject 52) by lia. rewrite <- Qpower_plus by discriminate.
    now replace (binade x - 52 + 52)%Z with (binade x) by lia. }
  rewrite pow2_succ, He.
  change (inject_Z (2 ^ 53)) with (2 * inject_Z (2 ^ 52)) in R2.
  set (u := 2 ^ (binade x - 52)) in *.
  set (m := inject_Z (round_half_even (x / u))) in *.
  set (c := inject_Z (2 ^ 52)) in *. clearbody u m c.
  split; nra.
Qed.

Lemma round_to_mono x y : 0 < x -> x <= y -> round_to 53 x <= round_to 53 y.
Proof.
  intros Hx Hxy.
  assert (Hy : 0 < y) by lra.
  pose proof (binade_mono x y Hx Hxy) as Hb.
  destruct (Z.eq_dec (binade x) (binade y)) as [Heq|Hne].
  - unfold round_to. rewrite Heq.
    pose proof (pow2_pos (binade y - (53 - 1))) as Hu.
    set (u := 2 ^ (binade y - (53 - 1))) in *.
    assert (Hq : x / u <= y / u).
    { unfold Qdiv. apply Qmult_le_compat_r; [exact Hxy|].
      apply Qinv_le_0_compat. lra. }
    apply round_half_even_mono in Hq. rewrite Zle_Qle in Hq.
    clearbody u. nra.
  - destruct (round_to_bounds x Hx) as [_ Hx2].
    destruct (round_to_bounds y Hy) as [Hy1 _].
    assert (Hp : 2 ^ (binade x + 1) <= 2 ^ binade y) by (apply pow2_le; lia).
    lra.
Qed.

Lemma round_to_pos x : 0 < x -> 0 < round_to 53 x.
Proof.
  intros Hx. destruct (round_to_bounds x Hx) as [H _].
  pose proof (pow2_pos (binade x)). lra.
Qed.

Lemma binary64_mono x y : x <= y -> binary64 x <= binary64 y.
Proof.
  intros Hxy. unfold binary64.
  pose proof (Qcompare_cases x 0) as Cx. pose proof (Qcompare_cases y 0) as Cy.
  destruct (Qcompare x 0); destruct (Qcompare y 0); try lra.
  - assert (H := round_to_pos y Cy). lra.
  - assert (H := round_to_pos (- x)). lra.
  - assert (H := round_to_mono (- y) (- x)). lra.
  - assert (H := round_to_pos (- x)). assert (H' := round_to_pos y Cy). lra.
  - now apply round_to_mono.
Qed.

Lemma binary64_int (n : Z) :
  (Z.abs n <= 2 ^ 53)%Z -> binary64 (inject_Z n) == inject_Z n.
Proof.
  assert (Hpos : forall m : Z, (0 < m <= 2 ^ 53)%Z ->
                 round_to 53 (inject_Z m) == inject_Z m).
  { intros m [Hm0 Hm].
    unfold round_to. change (53 - 1)%Z with 52%Z.
    set (e := binade (inject_Z m)).
    assert (Hmq : 0 < inject_Z m) by (change 0 with (inject_Z 0); now rewrite <- Zlt_Qlt).
    destruct (binade_spec (inject_Z m) Hmq) as [He1 He2]. fold e in He1, He2.
    assert (He53 : (e <= 53)%Z).
    { assert (H : 2 ^ e < 2 ^ (53 + 1)).
      { eapply Qle_lt_trans; [exact He1|].
        rewrite <- (pow2_inject (53 + 1)) by lia. rewrite <- Zlt_Qlt. lia. }
      apply pow2_lt_inv in H. lia. }
    assert (He0 : (0 <= e)%Z).
    { assert (H : 2 ^ 0 < 2 ^ (e + 1)).
      { eapply Qle_lt_trans; [|exact He2]. change (2 ^ 0) with (inject_Z 1).
        rewrite <- Zle_Qle. lia. }
      apply pow2_lt_inv in H. lia. }
    pose proof (pow2_pos (e - 52)) as Hu.
    destruct (Z.le_gt_cases e 52) as [Hle|Hgt].
    - (* the scaled significand is the integer m * 2^(52 - e) *)
      assert (Hs : inject_Z m / 2 ^ (e - 52) == inject_Z (m * 2 ^ (52 - e))).
      { rewrite inject_Z_mult, (pow2_inject (52 - e)) by lia.
        replace (e - 52)%Z with (- (52 - e))%Z by lia.
        rewrite Qpower_opp. field.
        pose proof (pow2_pos (52 - e)). lra. }
      rewrite (round_half_even_eq _ _ Hs), round_half_even_Z.
      rewrite inject_Z_mult, (pow2_inject (52 - e)) by lia.
      rewrite <- Qmult_assoc, <- Qpower_plus by discriminate.
      replace (52 - e + (e - 52))%Z with 0%Z by lia. change (2 ^ 0) with 1. ring.
    - assert (e = 53%Z) by lia. subst e.
      assert (Hm53 : m = (2 ^ 53)%Z).
      { rewrite H in He1. rewrite <- (pow2_inject 53) in He1 by lia.
        rewrite <- Zle_Qle in He1. lia. }
      rewrite H. subst m. vm_compute. reflexivity. }
  intros Hn. unfold binary64.
  pose proof (Qcompare_cases (inject_Z n) 0) as C.
  destruct (Qcompare (inject_Z n) 0).
  - lra.
  - change 0 with (inject_Z 0) in C. rewrite <- Zlt_Qlt in C.
    rewrite <- inject_Z_opp. rewrite (Hpos (- n)%Z) by lia.
    rewrite inject_Z_opp. ring.
  - change 0 with (inject_Z 0) in C. rewrite <- Zlt_Qlt in C.
    apply Hpos. lia.
Qed.

(** Binary64 rounding is a rounding in the sense of the development. *)
Lemma binary64_rounding : Rounding binary64.
Proof.
  split.
  - exact binary64_mono.
  - exact binary64_int.
Qed.

Lemma inject_Z_nonneg n : (0 <= n)%Z -> 0 <= inject_Z n.
Proof. intros H. change 0 with (inject_Z 0). now rewrite <- Zle_Qle. Qed.

Section RoundingFacts.
Context {fl : Q -> Q} {R : Rounding fl}.

Lemma fl_0 : fl 0 == 0.
Proof. apply (fl_int 0%Z). simpl. lia. Qed.

Lemma fl_1 : fl 1 == 1.
Proof. apply (fl_int 1%Z). simpl. lia. Qed.

Lemma fl_nonneg x : 0 <= x -> 0 <= fl x.
Proof. intros H. rewrite <- fl_0. now apply fl_mono. Qed.

Lemma fl_le_int (n : Z) x :
  (Z.abs n <= 2 ^ 53)%Z -> x <= inject_Z n -> fl x <= inject_Z n.
Proof. intros Hn H. rewrite <- (fl_int n Hn). now apply fl_mono. Qed.

Lemma fl_ge_int (n : Z) x :
  (Z.abs n <= 2 ^ 53)%Z -> inject_Z n <= x -> inject_Z n <= fl x.
Proof. intros Hn H. rewrite <- (fl_int n Hn). now apply fl_mono. Qed.

Lemma fl_le_1 x : x <= 1 -> fl x <= 1.
Proof. intros H. apply (fl_le_int 1); [simpl; lia | exact H]. Qed.

Lemma lit_unit x : 0 <= x -> x <= 1 -> 0 <= lit fl x <= 1.
Proof. intros H0 H1. unfold lit. split; [now apply fl_nonneg | now apply fl_le_1]. Qed.

Lemma py_round_mono x y n : x <= y -> py_round fl x n <= py_round fl y n.
Proof. intros H. unfold py_round. now apply fl_mono, decimal_round_mono. Qed.

Lemma py_round_nonneg x n : 0 <= x -> 0 <= py_round fl x n.
Proof. intros H. unfold py_round. now apply fl_nonneg, decimal_round_nonneg. Qed.

Lemma fmul_nonneg x y : 0 <= x -> 0 <= y -> 0 <= fmul fl x y.
Proof. intros. unfold fmul. apply fl_nonneg. nra. Qed.

Lemma fadd_nonneg x y : 0 <= x -> 0 <= y -> 0 <= fadd fl x y.
Proof. intros. unfold fadd. apply fl_nonneg. lra. Qed.

Lemma fdiv_nonneg x y : 0 <= x -> 0 < y -> 0 <= fdiv fl x y.
Proof.
  intros. unfold fdiv. apply fl_nonneg. apply Qle_shift_div_l; lra.
Qed.

Lemma bids_ordered est :
  0 <= est ->
  conservative (bids_of fl est) <= optimal (bids_of fl est) /\
  optimal (bids_of fl est) <= aggressive (bids_of fl est).
Proof.
  intros H. unfold bids_of; simpl.
  assert (H1 : lit fl (8 # 10) <= lit fl (11 # 10)) by (apply fl_mono; lra).
  assert (H2 : lit fl (11 # 10) <= lit fl (14 # 10)) by (apply fl_mono; lra).
  split; apply py_round_mono; unfold fmul; apply fl_mono; nra.
Qed.

Lemma estimated_cpc_nonneg cat score sv sf :
  0 <= score -> (0 <= sv)%Z -> 0 <= sf ->
  0 <= estimated_cpc_of fl cat score sv sf.
Proof.
  intros Hs Hv Hf. unfold estimated_cpc_of.
  apply py_round_nonneg.
  assert (Hmin : 0 <= inject_Z (cpc_min (category_base_cpc cat))).
  { change 0 with (inject_Z 0). rewrite <- Zle_Qle. destruct cat; simpl; lia. }
  assert (Hwid : 0 <= inject_Z (cpc_max (category_base_cpc cat)
                                - cpc_min (category_base_cpc cat))).
  { change 0 with (inject_Z 0). rewrite <- Zle_Qle. destruct cat; simpl; lia. }
  assert (Hc : 0 <= lit fl (1 # 10) <= 1) by (apply lit_unit; lra).
  apply fmul_nonneg; [apply fmul_nonneg|].
  - apply fadd_nonneg; [assumption|]. now apply fmul_nonneg.
  - apply fadd_nonneg; [lra|]. apply py_min_glb.
    + apply fl_nonneg. lra.
    + apply fmul_nonneg; [|lra]. apply fdiv_nonneg; [|lra].
      change 0 with (inject_Z 0). now rewrite <- Zle_Qle.
  - unfold fadd, fmul, fsub. apply fl_nonneg.
    assert (Ha : -1 <= fl (sf - 1)).
    { apply (fl_ge_int (-1)); [simpl; lia|]. change (inject_Z (-1)) with (-1). lra. }
    assert (Hb : -1 <= fl (fl (sf - 1) * lit fl (1 # 10))).
    { apply (fl_ge_int (-1)); [simpl; lia|]. change (inject_Z (-1)) with (-1). nra. }
    lra.
Qed.

End RoundingFacts.

(* ================================================================== *)
(** * Facts about the scoring engine *)
(* ================================================================== *)

Lemma word_count_nonneg s : (0 <= PyStr.word_count s)%Z.
Proof. unfold PyStr.word_count. lia. Qed.

(** Every seasonal table has a positive entry for every month and for
    the month before it. *)
Lemma seasonal_lookup cat now :
  exists c p,
    py_index (seasonal_trends cat) (month_number now - 1) = Return c /\
    py_index (seasonal_trends cat) ((month_number now - 1 - 1) mod 12)
      = Return p /\
    (0 < c)%Z /\ (0 < p)%Z.
Proof.
  destruct cat, now; do 2 eexists;
    (split; [reflexivity | split; [reflexivity | split; reflexivity]]).
Qed.

Section ScoringReturns.
Variable fl : Q -> Q.
Variable py_hash : PyStr.str -> Z.
Variable now : Month.

Lemma trend_returns keyword cat :
  exists td c,
    calculate_search_volume_trend fl py_hash now keyword cat = Return td /\
    td_seasonal_factor td = fdiv fl (inject_Z c) 25 /\ (0 < c)%Z.
Proof.
  destruct (seasonal_lookup cat now) as (c & p & Hc & Hp & Hc0 & Hp0).
  unfold calculate_search_volume_trend. rewrite Hc. simpl ebind.
  rewrite Hp. simpl ebind.
  destruct (Z.eqb_spec p 0) as [->|_]; [lia|].
  eexists. exists c. split; [reflexivity|]. split; [reflexivity|assumption].
Qed.

Lemma volume_returns keyword cat :
  exists vd c,
    estimate_enhanced_search_volume fl py_hash now keyword cat = Return vd /\
    td_seasonal_factor (vd_trend_data vd) = fdiv fl (inject_Z c) 25 /\
    (0 < c)%Z.
Proof.
  destruct (trend_returns keyword cat) as (td & c & Htd & Hsf & Hc).
  unfold estimate_enhanced_search_volume. rewrite Htd. simpl.
  eexists. exists c. split; [reflexivity|]. split; assumption.
Qed.

(** Scoring a string returns: the record is assembled from the volume
    data and three draws. *)
Lemma predict_returns keyword g :
  exists vd aba g',
    estimate_enhanced_search_volume fl py_hash now keyword
      (categorize_keyword keyword) = Return vd /\
    predict_optimal_bid_enhanced fl py_hash now keyword g =
      (Return (compose_prediction fl py_hash keyword
                 (categorize_keyword keyword) vd aba), g').
Proof.
  destruct (volume_returns keyword (categorize_keyword keyword))
    as (vd & c & Hvd & _).
  exists vd. unfold predict_optimal_bid_enhanced, mbind, mlift. rewrite Hvd.
  unfold random_uniform, random_randint, mret.
  destruct (rng_random g) as [r1 g1].
  destruct (rng_random g1) as [r2 g2].
  destruct (rng_randbelow (50 - 1 + 1) g2) as [r3 g3].
  do 2 eexists. split; reflexivity.
Qed.

Lemma magnet_in_range keyword v c :
  (1 <= calculate_magnet_iq_score fl keyword v c <= 100)%Z.
Proof. unfold calculate_magnet_iq_score, clamp. lia. Qed.

End ScoringReturns.

Section ScoringBounds.
Context {fl : Q -> Q} {R : Rounding fl}.
Variable py_hash : PyStr.str -> Z.
Variable now : Month.

Lemma factors_nonneg keyword :
  let f := competition_factors_of fl keyword in
  0 <= cf_length f /\ 0 <= cf_generic f /\ 0 <= cf_brand f /\ 0 <= cf_intent f.
Proof.
  unfold competition_factors_of; simpl. repeat split.
  - apply py_max_ge_l.
  - destruct (_ <=? _)%Z; apply fl_nonneg; lra.
  - destruct (is_branded _); apply fl_nonneg; lra.
  - destruct (has_high_intent _); apply fl_nonneg; lra.
Qed.

Lemma competition_score_unit keyword :
  0 <= cd_competition_score (calculate_competition_analysis fl py_hash keyword)
    <= 1.
Proof.
  unfold calculate_competition_analysis; simpl.
  destruct (factors_nonneg keyword) as (H1 & H2 & H3 & H4).
  split.
  - apply py_min_glb; [lra|].
    apply fdiv_nonneg; [|lra]. unfold factors_sum.
    repeat apply fadd_nonneg; assumption.
  - apply py_min_le_l.
Qed.

Lemma search_volume_nonneg keyword cat vd :
  estimate_enhanced_search_volume fl py_hash now keyword cat = Return vd ->
  (0 <= vd_search_volume vd)%Z.
Proof.
  unfold estimate_enhanced_search_volume.
  destruct (calculate_search_volume_trend _ _ _ _ _) as [e|td]; simpl;
    [discriminate|].
  intros [= <-]. simpl.
  assert (0 <= Z.abs (py_hash keyword) mod 5000)%Z
    by (apply Z.mod_pos_bound; lia).
  apply Z.add_nonneg_nonneg; [|assumption].
  apply py_int_nonneg.
  repeat apply fmul_nonneg.
  - apply inject_Z_nonneg. destruct cat; simpl; lia.
  - destruct cat; simpl; apply fl_nonneg; lra.
  - eapply Qle_trans; [|apply py_max_ge_l]. apply fl_nonneg. lra.
  - destruct (is_branded _); [apply fl_nonneg|]; lra.
  - destruct (has_high_intent _); [apply fl_nonneg|]; lra.
Qed.

Lemma predicted_cpc_nonneg keyword vd aba :
  estimate_enhanced_search_volume fl py_hash now keyword
    (categorize_keyword keyword) = Return vd ->
  0 <= ai_estimated_cpc
         (compose_prediction fl py_hash keyword (categorize_keyword keyword)
                             vd aba).
Proof.
  intros Hvd. simpl.
  apply estimated_cpc_nonneg.
  - apply competition_score_unit.
  - eapply search_volume_nonneg, Hvd.
  - destruct (volume_returns fl py_hash now keyword (categorize_keyword keyword))
      as (vd' & c & Hvd' & Hsf & Hc).
    rewrite Hvd in Hvd'. injection Hvd' as <-. rewrite Hsf.
    apply fdiv_nonneg; [apply inject_Z_nonneg; lia | lra].
Qed.

Lemma fallback_bids_ordered keyword :
  bids_monotone (kr_suggested_bids (_get_basic_keyword_data fl py_hash keyword)).
Proof.
  unfold bids_monotone, _get_basic_keyword_data; simpl.
  assert (H1 : lit fl (8 # 10) <= lit fl (11 # 10)) by (apply fl_mono; lra).
  assert (H2 : lit fl (11 # 10) <= lit fl (14 # 10)) by (apply fl_mono; lra).
  assert (Hk : 0 <= inject_Z (Z.abs (py_hash keyword) mod 15)).
  { apply inject_Z_nonneg. apply Z.mod_pos_bound. lia. }
  split; apply py_round_mono; unfold fadd, fmul; apply fl_mono;
    apply Qplus_le_r; apply fl_mono; nra.
Qed.

End ScoringBounds.

Lemma level_of_spec (fl : Q -> Q) (s : Q) :
  lit fl (4 # 10) <= lit fl (7 # 10) ->
  (level_of fl s = low <-> s < lit fl (4 # 10))
  /\ (level_of fl s = medium <-> lit fl (4 # 10) <= s /\ s < lit fl (7 # 10))
  /\ (level_of fl s = high <-> lit fl (7 # 10) <= s).
Proof.
  intros H47. unfold level_of.
  destruct (Qltb s (lit fl (4 # 10))) eqn:E4;
    destruct (Qltb s (lit fl (7 # 10))) eqn:E7;
    try apply Qltb_spec in E4; try apply Qltb_false in E4;
    try apply Qltb_spec in E7; try apply Qltb_false in E7;
    (split; [|split]); split; try discriminate; try reflexivity;
    try (intros; lra); try (intros _; split; lra).
Qed.

(* ================================================================== *)
(** * Properties of the scoring engine *)
(* ================================================================== *)

(** C1.  For every keyword the scoring call returns a record whose bids
    are the estimated CPC times 0.8, 1.1 and 1.4, each rounded to two
    decimals, and satisfy conservative <= optimal <= aggressive; the
    bids of the fallback record are ordered the same way. *)
Theorem suggested_bids_ordered (fl : Q -> Q) (py_hash : PyStr.str -> Z)
    (now : Month) (keyword : PyStr.str) :
  Rounding fl ->
  (forall g, exists r g',
      predict_optimal_bid_enhanced fl py_hash now keyword g = (Return r, g') /\
      ai_suggested_bids r = bids_of fl (ai_estimated_cpc r) /\
      bids_monotone (ai_suggested_bids r)) /\
  bids_monotone (kr_suggested_bids (_get_basic_keyword_data fl py_hash keyword)).
Proof.
  intros R. split.
  - intros g.
    destruct (predict_returns fl py_hash now keyword g) as (vd & aba & g' & Hvd & Hp).
    eexists. exists g'. split; [exact Hp|]. split; [reflexivity|].
    apply bids_ordered.
    exact (predicted_cpc_nonneg py_hash now keyword vd aba Hvd).
  - apply fallback_bids_ordered.
Qed.

Lemma suggested_bids_ordered_witness :
  Rounding binary64 /\
  bids_monotone
    (kr_suggested_bids (_get_basic_keyword_data binary64 sample_hash (PyStr.u "yoga mat"))).
Proof.
  split; [exact binary64_rounding|].
  exact (proj2 (suggested_bids_ordered binary64 sample_hash November (PyStr.u "yoga mat")
                  binary64_rounding)).
Defined.

(** C2, as stated, fails: two successive calls for the same keyword, in
    the same process and month, differ in the ABA block. *)
Lemma prediction_not_repeatable :
  let predict := predict_optimal_bid_enhanced binary64 sample_hash November in
  fst (predict (PyStr.u "phone") sample_rng)
  <> fst (predict (PyStr.u "phone") (snd (predict (PyStr.u "phone") sample_rng))).
Proof.
  intros predict H.
  apply (f_equal (fun o : exc ai_data =>
                    match o with
                    | inr r => aba_sponsored_rank (ai_aba_data r)
                    | inl _ => 0%Z
                    end)) in H.
  vm_compute in H. discriminate H.
Qed.

(** C2, amended.  With the same hash function and in the same month,
    two calls for the same keyword return records that agree in every
    field other than the ABA block, whatever the state of the random
    generator at either call. *)
Theorem prediction_repeatable_up_to_aba (fl : Q -> Q) (py_hash : PyStr.str -> Z)
    (now : Month) (keyword : PyStr.str) (g1 g2 : Rng) :
  exists r1 r2 g1' g2',
    predict_optimal_bid_enhanced fl py_hash now keyword g1 = (Return r1, g1') /\
    predict_optimal_bid_enhanced fl py_hash now keyword g2 = (Return r2, g2') /\
    forget_aba r1 = forget_aba r2.
Proof.
  destruct (predict_returns fl py_hash now keyword g1)
    as (vd1 & aba1 & g1' & Hvd1 & Hp1).
  destruct (predict_returns fl py_hash now keyword g2)
    as (vd2 & aba2 & g2' & Hvd2 & Hp2).
  rewrite Hvd1 in Hvd2. injection Hvd2 as <-.
  do 2 eexists. exists g1', g2'.
  split; [exact Hp1|]. split; [exact Hp2|]. reflexivity.
Qed.

(** C5.  The magnet score is the stated formula, lies in 1..100, and so
    does the magnet score of every scored keyword. *)
Theorem magnet_score_formula (fl : Q -> Q) (keyword : PyStr.str) (v : Z) (c : Q) :
  calculate_magnet_iq_score fl keyword v c = magnet_score_stated fl keyword v c
  /\ (1 <= calculate_magnet_iq_score fl keyword v c <= 100)%Z
  /\ forall py_hash now g, exists r g',
       predict_optimal_bid_enhanced fl py_hash now keyword g = (Return r, g')
       /\ (1 <= ai_magnet_iq_score r <= 100)%Z.
Proof.
  split; [|split].
  - unfold calculate_magnet_iq_score, magnet_score_stated, clamp.
    unfold py_min, Qltb, Qleb, has_high_intent, PyStr.any_in, PyStr.word_count.
    set (ratio := fdiv fl (inject_Z v) 500).
    set (wc := Z.of_nat (length (PyStr.split keyword))).
    replace (Z.max 0 (15 - wc * 2))
      with (if (15 - 2 * wc <? 0)%Z then 0%Z else (15 - 2 * wc)%Z)
      by (destruct (Z.ltb_spec (15 - 2 * wc) 0); lia).
    destruct (Qle_bool 40 ratio); simpl negb; cbv iota;
      match goal with
      | |- Z.max 1 (Z.min 100 ?n) = _ =>
          destruct (Z.ltb_spec n 1); destruct (Z.ltb_spec 100 n); lia
      end.
  - apply magnet_in_range.
  - intros py_hash now g.
    destruct (predict_returns fl py_hash now keyword g)
      as (vd & aba & g' & _ & Hp).
    eexists. exists g'. split; [exact Hp|]. apply magnet_in_range.
Qed.

(** C6, as stated, fails: for a one-word keyword the length factor is
    1.1. *)
Lemma length_factor_exceeds_one :
  PyStr.truthy (PyStr.u "phone") = true /\
  ~ (cf_length (competition_factors_of binary64 (PyStr.u "phone")) <= 1).
Proof.
  split; [reflexivity|]. vm_compute. intros H. apply H. reflexivity.
Qed.

(** C6, amended.  The length factor is never negative and is at most 1
    for keywords of two words or more; in binary64 arithmetic it is the
    float 1.1 for a one-word keyword and the float 1.2 for a keyword
    without words; the genericity, brand and intent factors lie in
    [0, 1]; the competition score, their mean capped at 1.0, lies in
    [0, 1]; the level is low exactly below 0.4, medium exactly from 0.4
    up to but excluding 0.7, and high otherwise. *)
Theorem competition_analysis_bounds (fl : Q -> Q) (py_hash : PyStr.str -> Z)
    (keyword : PyStr.str) :
  Rounding fl ->
  let f := competition_factors_of fl keyword in
  let cd := calculate_competition_analysis fl py_hash keyword in
  let score := cd_competition_score cd in
  0 <= cf_length f
  /\ ((2 <= PyStr.word_count keyword)%Z -> cf_length f <= 1)
  /\ match PyStr.word_count keyword with
     | 0%Z => cf_length (competition_factors_of binary64 keyword)
              == lit binary64 (12 # 10)
     | 1%Z => cf_length (competition_factors_of binary64 keyword)
              == lit binary64 (11 # 10)
     | _ => cf_length (competition_factors_of binary64 keyword) <= 1
     end
  /\ 0 <= cf_generic f <= 1
  /\ 0 <= cf_brand f <= 1
  /\ 0 <= cf_intent f <= 1
  /\ cd_competition_factors cd = f
  /\ score = py_min 1 (fdiv fl (factors_sum fl f) 4)
  /\ 0 <= score <= 1
  /\ (cd_competition_level cd = low <-> score < lit fl (4 # 10))
  /\ (cd_competition_level cd = medium <->
      lit fl (4 # 10) <= score /\ score < lit fl (7 # 10))
  /\ (cd_competition_level cd = high <-> lit fl (7 # 10) <= score).
Proof.
  intros R f cd score.
  assert (H47 : lit fl (4 # 10) <= lit fl (7 # 10)) by (apply fl_mono; lra).
  destruct (level_of_spec fl score H47) as (Hlow & Hmedium & Hhigh).
  repeat match goal with |- _ /\ _ => split end;
    try reflexivity; try assumption.
  - apply py_max_ge_l.
  - intros Hwc. subst f. unfold competition_factors_of; simpl.
    apply py_max_lub; [lra|]. unfold fsub, fmul. apply fl_le_1.
    assert (0 <= fl (inject_Z (PyStr.word_count keyword - 2) * lit fl (1 # 10))).
    { apply fl_nonneg.
      assert (0 <= inject_Z (PyStr.word_count keyword - 2))
        by (apply inject_Z_nonneg; lia).
      assert (0 <= lit fl (1 # 10)) by (apply fl_nonneg; lra).
      nra. }
    lra.
  - unfold competition_factors_of. cbn [cf_length].
    destruct (PyStr.word_count keyword) as [|[p|p|]|p] eqn:Hwc.
    + vm_compute. reflexivity.
    + apply (py_max_lub 0 _ 1); [lra|]. unfold fsub, fmul.
      apply (fl_le_1 (R := binary64_rounding)).
      assert (0 <= binary64 (inject_Z (Z.pos p~1 - 2) * lit binary64 (1 # 10))).
      { apply (fl_nonneg (R := binary64_rounding)).
        assert (0 <= inject_Z (Z.pos p~1 - 2))
          by (apply inject_Z_nonneg; lia).
        assert (0 <= lit binary64 (1 # 10))
          by (apply (fl_nonneg (R := binary64_rounding)); lra).
        nra. }
      lra.
    + apply (py_max_lub 0 _ 1); [lra|]. unfold fsub, fmul.
      apply (fl_le_1 (R := binary64_rounding)).
      assert (0 <= binary64 (inject_Z (Z.pos p~0 - 2) * lit binary64 (1 # 10))).
      { apply (fl_nonneg (R := binary64_rounding)).
        assert (0 <= inject_Z (Z.pos p~0 - 2))
          by (apply inject_Z_nonneg; lia).
        assert (0 <= lit binary64 (1 # 10))
          by (apply (fl_nonneg (R := binary64_rounding)); lra).
        nra. }
      lra.
    + vm_compute. reflexivity.
    + exfalso. unfold PyStr.word_count in Hwc. lia.
  - subst f; simpl. destruct (_ <=? _)%Z; apply fl_nonneg; lra.
  - subst f; simpl. destruct (_ <=? _)%Z; apply fl_le_1; lra.
  - subst f; simpl. destruct (is_branded _); apply fl_nonneg; lra.
  - subst f; simpl. destruct (is_branded _); apply fl_le_1; lra.
  - subst f; simpl. destruct (has_high_intent _); apply fl_nonneg; lra.
  - subst f; simpl. destruct (has_high_intent _); apply fl_le_1; lra.
  - apply competition_score_unit.
  - apply competition_score_unit.
Qed.

Lemma competition_analysis_bounds_witness :
  Rounding binary64 /\
  cd_competition_level
    (calculate_competition_analysis binary64 sample_hash (PyStr.u "buy laptop online india"))
  = medium.
Proof.
  split; [exact binary64_rounding|].
  apply (competition_analysis_bounds binary64 sample_hash
           (PyStr.u "buy laptop online india") binary64_rounding).
  vm_compute. split; [discriminate | reflexivity].
Defined.

(* ================================================================== *)
(** * Facts about bulk analysis *)
(* ================================================================== *)

Close Scope Q_scope.
Open Scope nat_scope.

Lemma completion_order_covers prefs n i :
  i < n -> i ∈ completion_order prefs n.
Proof.
  intros Hi. unfold completion_order.
  set (named := remove_dups _).
  apply elem_of_app.
  destruct (decide (i ∈ named)) as [Hin|Hout]; [now left|right].
  apply list_elem_of_In, filter_In. split.
  - apply in_seq. lia.
  - now rewrite bool_decide_eq_false_2.
Qed.

Lemma completion_order_permutation prefs n :
  completion_order prefs n ≡ₚ seq 0 n.
Proof.
  unfold completion_order. set (named := remove_dups _).
  apply NoDup_Permutation.
  - apply NoDup_app. split; [apply NoDup_remove_dups|]. split.
    + intros x Hx Hx'. apply list_elem_of_In, filter_In in Hx' as [_ Hx'].
      now rewrite bool_decide_eq_true_2 in Hx'.
    + apply NoDup_ListNoDup, List.NoDup_filter, NoDup_ListNoDup, NoDup_seq.
  - apply NoDup_seq.
  - intros x. rewrite elem_of_app. split.
    + intros [Hx|Hx].
      * subst named. apply elem_of_remove_dups, list_elem_of_In, filter_In in Hx as [_ Hx].
        apply list_elem_of_In, in_seq. apply Nat.ltb_lt in Hx. lia.
      * apply list_elem_of_In, filter_In in Hx as [Hx _]. now apply list_elem_of_In.
    + intros Hx. apply list_elem_of_In, in_seq in Hx.
      apply elem_of_app. apply (completion_order_covers prefs n x). lia.
Qed.

Section BulkFacts.
Variable fl : Q -> Q.
Variable py_hash : PyStr.str -> Z.
Variable predictor : pyobj -> M ai_data.
Variable scheduler : nat -> list nat.

Lemma get_enhanced_str s g :
  exists g',
    get_enhanced_keyword_data fl py_hash predictor (PyStr s) g = (Return (record_for fl py_hash predictor s g), g').
Proof.
  unfold get_enhanced_keyword_data, record_for, mtry, mbind, mlift.
  destruct (predictor (PyStr s) g) as [[e|ai] g']; simpl; eauto.
Qed.

Lemma basic_non_str k :
  is_str k = false ->
  basic_keyword_data_of fl py_hash k = Raise (non_string_error k).
Proof.
  intros Hk. unfold basic_keyword_data_of.
  destruct k; try discriminate; try reflexivity.
  simpl. destruct (forallb hashable items); reflexivity.
Qed.

Lemma get_enhanced_non_str k g :
  is_str k = false ->
  fst (get_enhanced_keyword_data fl py_hash predictor k g)
  = Raise (non_string_error k).
Proof.
  intros Hk. unfold get_enhanced_keyword_data, mtry, mbind, mlift.
  rewrite (basic_non_str k Hk).
  destruct k; try discriminate;
    destruct (predictor _ g) as [[e|ai] g']; reflexivity.
Qed.

Lemma run_tasks_inv keywords order :
  forall futures g,
    length futures = length keywords ->
    (forall i k f, keywords !! i = Some k -> futures !! i = Some f -> slot_ok fl py_hash predictor k f) ->
    let futures' := fst (run_tasks fl py_hash predictor order keywords futures g) in
    length futures' = length keywords
    /\ (forall i k f, keywords !! i = Some k -> futures' !! i = Some f -> slot_ok fl py_hash predictor k f)
    /\ (forall i f, futures' !! i = Some f ->
                    i ∈ order \/ futures !! i <> Some Pending ->
                    f <> Pending).
Proof.
  induction order as [|i rest IH]; intros futures g Hlen Hok; simpl.
  - split; [assumption|]. split; [assumption|].
    intros j f Hf [Hin|Hne]; [inversion Hin|]. congruence.
  - destruct (keywords !! i) as [k|] eqn:Hk.
    + destruct (get_enhanced_keyword_data fl py_hash predictor k g) as [o g'] eqn:Ho.
      assert (Hi : i < length futures).
      { rewrite Hlen. eapply lookup_lt_Some, Hk. }
      specialize (IH (<[i := Done o]> futures) g').
      destruct IH as (IH1 & IH2 & IH3).
      * now rewrite length_insert.
      * intros j k' f Hk' Hf.
        destruct (decide (i = j)) as [->|Hij].
        -- rewrite list_lookup_insert_eq in Hf by assumption.
           injection Hf as <-. right. exists o. split; [reflexivity|].
           assert (k' = k) as -> by congruence.
           exists g. now rewrite Ho.
        -- rewrite list_lookup_insert_ne in Hf by assumption. eauto.
      * split; [assumption|]. split; [assumption|].
        intros j f Hf Hj. apply (IH3 j f Hf).
        destruct (decide (i = j)) as [->|Hij].
        -- right. rewrite list_lookup_insert_eq by assumption. discriminate.
        -- rewrite list_lookup_insert_ne by assumption.
           destruct Hj as [Hin|Hne]; [|now right].
           apply elem_of_cons in Hin as [->|Hin]; [contradiction|now left].
    + specialize (IH futures g Hlen Hok). destruct IH as (IH1 & IH2 & IH3).
      split; [assumption|]. split; [assumption|].
      intros j f Hf Hj. apply (IH3 j f Hf).
      destruct Hj as [Hin|Hne]; [|now right].
      apply elem_of_cons in Hin as [->|Hin]; [|now left].
      exfalso. apply lookup_lt_Some in Hf. rewrite IH1 in Hf.
      apply lookup_ge_None in Hk. lia.
Qed.

Lemma gather_scored keywords g :
  Forall2 (scored_by fl py_hash predictor) keywords
          (fst (gather fl py_hash predictor scheduler keywords g)).
Proof.
  unfold gather.
  set (n := length keywords).
  pose proof (run_tasks_inv keywords (completion_order (scheduler n) n)
                (replicate n Pending) g) as H.
  destruct (run_tasks _ _ _ _ _ _ _) as [futures g'] eqn:Hrun.
  simpl in H. destruct H as (Hlen & Hok & Hdone).
  - apply length_replicate.
  - intros i k f _ Hf. left. apply lookup_replicate in Hf. tauto.
  - simpl. apply Forall2_same_length_lookup_2.
    + now rewrite length_map, Hlen.
    + intros i k o Hk Ho.
      rewrite list_lookup_fmap in Ho.
      destruct (futures !! i) as [f|] eqn:Hf; [|discriminate].
      injection Ho as <-.
      destruct (Hok i k f Hk Hf) as [->|(o & -> & Hs)]; [|exact Hs].
      exfalso. apply (Hdone i Pending Hf); [|reflexivity].
      left. apply completion_order_covers. eapply lookup_lt_Some, Hk.
Qed.


Lemma py_index_nat {A} (l : list A) (i : nat) x :
  l !! i = Some x -> py_index l (Z.of_nat i) = Return x.
Proof.
  intros H. unfold py_index.
  destruct (Z.ltb_spec (Z.of_nat i) 0); [lia|].
  destruct (Z.ltb_spec (Z.of_nat i) 0); [lia|].
  now rewrite Nat2Z.id, H.
Qed.

Lemma scored_by_str s o :
  scored_by fl py_hash predictor (PyStr s) o ->
  exists g, o = Return (record_for fl py_hash predictor s g).
Proof.
  intros [g ->]. exists g.
  destruct (get_enhanced_str s g) as [g' ->]. reflexivity.
Qed.

Lemma scored_by_non_str k o :
  is_str k = false -> scored_by fl py_hash predictor k o ->
  o = Raise (non_string_error k).
Proof. intros Hk [g ->]. now apply get_enhanced_non_str. Qed.

(** What the loop over the gathered results does from index [i] on. *)
Lemma collect_results_strings results :
  forall i keywords acc,
    Forall2 (scored_by fl py_hash predictor) (drop i keywords) results ->
    Forall (fun k => is_str k = true) (drop i keywords) ->
    exists rs,
      collect_results fl py_hash (Z.of_nat i) results keywords acc
        = Return (acc ++ rs)%list /\
      Forall2 (fun k r => exists s g,
                   k = PyStr s /\ r = record_for fl py_hash predictor s g)
              (drop i keywords) rs.
Proof.
  induction results as [|o results IH]; intros i keywords acc Hsc Hstr.
  - apply Forall2_nil_inv_r in Hsc. rewrite Hsc.
    exists []. simpl. rewrite app_nil_r. split; [reflexivity|constructor].
  - apply Forall2_cons_inv_r in Hsc as (k & rest & Hk & Hrest & Hdrop).
    assert (Hki : keywords !! i = Some k).
    { rewrite <- (Nat.add_0_r i), <- lookup_drop, Hdrop. reflexivity. }
    assert (Hrest' : rest = drop (S i) keywords).
    { rewrite (drop_S keywords k i Hki) in Hdrop. congruence. }
    subst rest. rewrite Hdrop in Hstr |- *.
    apply Forall_cons in Hstr as [Hkstr Hstr].
    destruct k as [s| | | | | | | | |]; try discriminate.
    destruct (scored_by_str s o Hk) as [g ->].
    simpl. replace (Z.of_nat i + 1)%Z with (Z.of_nat (S i)) by lia.
    destruct (IH (S i) keywords (acc ++ [record_for fl py_hash predictor s g])%list
                 Hrest Hstr) as (rs & Hrs & Hall).
    exists (record_for fl py_hash predictor s g :: rs). split.
    + rewrite Hrs. now rewrite <- app_assoc.
    + constructor; [eauto|assumption].
Qed.

(** The loop stops at the first element that is not a string, with the
    exception of the fallback for it. *)
Lemma collect_results_non_string results :
  forall i keywords acc k,
    Forall2 (scored_by fl py_hash predictor) (drop i keywords) results ->
    List.find (fun k => negb (is_str k)) (drop i keywords) = Some k ->
    collect_results fl py_hash (Z.of_nat i) results keywords acc
      = Raise (non_string_error k).
Proof.
  induction results as [|o results IH]; intros i keywords acc k0 Hsc Hex.
  - apply Forall2_nil_inv_r in Hsc. rewrite Hsc in Hex. discriminate.
  - apply Forall2_cons_inv_r in Hsc as (k & rest & Hk & Hrest & Hdrop).
    assert (Hki : keywords !! i = Some k).
    { rewrite <- (Nat.add_0_r i), <- lookup_drop, Hdrop. reflexivity. }
    assert (Hrest' : rest = drop (S i) keywords).
    { rewrite (drop_S keywords k i Hki) in Hdrop. congruence. }
    subst rest. rewrite Hdrop in Hex. simpl in Hex.
    destruct (is_str k) eqn:Hkstr; simpl in Hex.
    + destruct k as [s| | | | | | | | |]; try discriminate.
      destruct (scored_by_str s o Hk) as [g ->].
      simpl. replace (Z.of_nat i + 1)%Z with (Z.of_nat (S i)) by lia.
      now apply IH.
    + injection Hex as <-.
      rewrite (scored_by_non_str k o Hkstr Hk). simpl.
      rewrite (py_index_nat keywords i k Hki). simpl.
      now rewrite (basic_non_str k Hkstr).
Qed.

Lemma bulk_of_strings (keywords : list PyStr.str) g :
  exists rs g',
    get_bulk_keyword_analysis fl py_hash predictor scheduler
      (map PyStr keywords) g = (Return rs, g') /\
    Forall2 (fun s r => exists gi, r = record_for fl py_hash predictor s gi)
            keywords rs.
Proof.
  unfold get_bulk_keyword_analysis.
  destruct keywords as [|s0 keywords0] eqn:Hkw.
  - exists [], g. split; [reflexivity|constructor].
  - rewrite <- Hkw. set (objs := map PyStr keywords).
    assert (Hne : exists k0 objs0, objs = k0 :: objs0).
    { subst objs keywords. simpl. eauto. }
    destruct Hne as (k0 & objs0 & Hobjs). rewrite Hobjs. rewrite <- Hobjs.
    pose proof (gather_scored objs g) as Hsc.
    destruct (gather fl py_hash predictor scheduler objs g) as [results g'].
    simpl in Hsc.
    destruct (collect_results_strings results 0 objs [] Hsc) as (rs & Hrs & Hall).
    { subst objs. simpl. apply Forall_forall. intros k Hin.
      apply list_elem_of_fmap in Hin as (s & -> & _). reflexivity. }
    exists rs, g'. split; [change (Z.of_nat 0) with 0%Z in Hrs; now rewrite Hrs|].
    simpl in Hall. subst objs. apply Forall2_fmap_l in Hall.
    eapply Forall2_impl; [exact Hall|].
    intros s r (s' & gi & Heq & ->). injection Heq as <-. eauto.
Qed.

End BulkFacts.

Lemma find_non_str_none (keywords : list pyobj) :
  List.find (fun k => negb (is_str k)) keywords = None ->
  Forall (fun k => is_str k = true) keywords.
Proof.
  induction keywords as [|k keywords IH]; simpl; [constructor|].
  destruct (is_str k) eqn:Hk; simpl; [|discriminate].
  intros H. constructor; [exact Hk|now apply IH].
Qed.

Lemma bulk_outcome (fl : Q -> Q) (py_hash : PyStr.str -> Z)
    (predictor : pyobj -> M ai_data) (scheduler : nat -> list nat)
    (keywords : list pyobj) (g : Rng) :
  let result :=
    fst (get_bulk_keyword_analysis fl py_hash predictor scheduler keywords g) in
  match List.find (fun k => negb (is_str k)) keywords with
  | Some k => result = Raise (non_string_error k)
  | None => exists rs, result = Return rs /\ length rs = length keywords
  end.
Proof.
  unfold get_bulk_keyword_analysis.
  destruct keywords as [|k0 keywords0] eqn:Hkw.
  - simpl. exists []. split; reflexivity.
  - rewrite <- Hkw.
    pose proof (gather_scored fl py_hash predictor scheduler keywords g) as Hsc.
    destruct (gather fl py_hash predictor scheduler keywords g) as [results g'].
    cbn [fst] in Hsc |- *.
    destruct (List.find (fun k => negb (is_str k)) keywords) as [k|] eqn:Hfind.
    + exact (collect_results_non_string fl py_hash predictor results 0
               keywords [] k Hsc Hfind).
    + destruct (collect_results_strings fl py_hash predictor results 0
                  keywords [] Hsc (find_non_str_none keywords Hfind))
        as (rs & Hrs & Hall).
      exists rs. split; [exact Hrs|].
      apply Forall2_length in Hall. rewrite drop_0 in Hall. congruence.
Qed.

(** The repository's predictor returns for every string, so with it no
    record of a bulk analysis is a fallback record. *)
Lemma enhanced_ai_predictor_returns fl py_hash now s g :
  exists ai g',
    enhanced_ai_predictor fl py_hash now (PyStr s) g = (Return ai, g').
Proof.
  destruct (predict_returns fl py_hash now s g) as (vd & aba & g' & _ & Hp).
  simpl. rewrite Hp. eauto.
Qed.

Lemma bulk_with_repository_predictor fl py_hash now scheduler
    (keywords : list PyStr.str) g :
  exists rs g',
    get_bulk_keyword_analysis fl py_hash (enhanced_ai_predictor fl py_hash now)
      scheduler (map PyStr keywords) g = (Return rs, g')
    /\ Forall (fun r => kr_data_source r = "Enhanced AI + Amazon Data"%string)
               rs.
Proof.
  destruct (bulk_of_strings fl py_hash (enhanced_ai_predictor fl py_hash now)
              scheduler keywords g) as (rs & g' & Hbulk & Hall).
  exists rs, g'. split; [exact Hbulk|].
  apply Forall_forall. intros r Hr.
  apply list_elem_of_lookup in Hr as [i Hi].
  destruct (Forall2_lookup_r _ _ _ _ _ Hall Hi) as (kw & _ & gi & ->).
  unfold record_for.
  destruct (enhanced_ai_predictor_returns fl py_hash now kw gi) as (ai & g'' & ->).
  reflexivity.
Qed.

Lemma record_for_keyword fl py_hash predictor s g :
  kr_keyword (record_for fl py_hash predictor s g) = s.
Proof. unfold record_for. destruct (fst (predictor (PyStr s) g)); reflexivity. Qed.

(* ================================================================== *)
(** * Properties of bulk analysis *)
(* ================================================================== *)

(** C3, as stated, fails: the empty list, a list with a blank element
    and a list of 101 keywords all violate the stated precondition, and
    the bulk analysis returns for each of them. *)
Lemma bulk_precondition_not_enforced :
  let bulk :=
    get_bulk_keyword_analysis binary64 sample_hash
      (enhanced_ai_predictor binary64 sample_hash November) reversed_scheduler in
  let blank := [PyStr (PyStr.u "phone"); PyStr (PyStr.u ""); PyStr (PyStr.u "laptop")] in
  let long := replicate 101 (PyStr (PyStr.u "phone")) in
  (violates_precondition [] = true
   /\ raised (fst (bulk [] sample_rng)) = false)
  /\ (violates_precondition blank = true
      /\ raised (fst (bulk blank sample_rng)) = false)
  /\ (violates_precondition long = true
      /\ raised (fst (bulk long sample_rng)) = false).
Proof. vm_compute. repeat split. Qed.

(** C3, amended.  The bulk analysis fails exactly when its list holds an
    element that is not a string, and then with the exception the
    fallback raises for the first such element: TypeError when that
    element is unhashable (a list, set or dict, or a tuple holding one)
    or is a bytes object, AttributeError otherwise; for every list of
    strings, whatever its length and blank elements included, it
    returns one record per element; for the empty list it returns the
    empty list at once, leaving the random generator untouched. *)
Theorem bulk_analysis_failure_condition (fl : Q -> Q)
    (py_hash : PyStr.str -> Z) (predictor : pyobj -> M ai_data)
    (scheduler : nat -> list nat) (keywords : list pyobj) (g : Rng) :
  let bulk := get_bulk_keyword_analysis fl py_hash predictor scheduler in
  match List.find (fun k => negb (is_str k)) keywords with
  | Some k =>
      fst (bulk keywords g)
      = Raise (match k with
               | PyBytes _ | PyList _ | PySet _ | PyDict _ => TypeError
               | PyTuple _ => if hashable k then AttributeError else TypeError
               | _ => AttributeError
               end)
  | None => exists rs, fst (bulk keywords g) = Return rs
                       /\ length rs = length keywords
  end
  /\ bulk [] g = (Return [], g).
Proof.
  intros bulk.
  pose proof (bulk_outcome fl py_hash predictor scheduler keywords g) as H.
  split; [|reflexivity].
  destruct (List.find (fun k => negb (is_str k)) keywords) as [k|];
    [|exact H].
  cbv zeta in H. subst bulk. rewrite H.
  destruct k; reflexivity.
Qed.

(** C4.  For every list of keywords, under every completion order of the
    gathered tasks, the bulk analysis returns a list of the same length
    whose i-th record is the record of the i-th keyword: the enhanced
    record if the predictor returned for it, and the fallback record,
    tagged 'Fallback Algorithm', if the predictor raised. *)
Theorem bulk_analysis_preserves_order (fl : Q -> Q) (py_hash : PyStr.str -> Z)
    (predictor : pyobj -> M ai_data) (scheduler : nat -> list nat)
    (keywords : list PyStr.str) (g : Rng) :
  exists rs g',
    get_bulk_keyword_analysis fl py_hash predictor scheduler
      (map PyStr keywords) g = (Return rs, g')
    /\ length rs = length keywords
    /\ map kr_keyword rs = keywords
    /\ Forall2 (fun kw r => exists gi,
                   match fst (predictor (PyStr kw) gi) with
                   | inr ai => r = enhanced_record ai kw
                   | inl _ =>
                       r = _get_basic_keyword_data fl py_hash kw
                       /\ kr_data_source r = "Fallback Algorithm"%string
                   end)
                keywords rs.
Proof.
  destruct (bulk_of_strings fl py_hash predictor scheduler keywords g)
    as (rs & g' & Hbulk & Hall).
  exists rs, g'. split; [exact Hbulk|]. split; [|split].
  - symmetry. eapply Forall2_length, Hall.
  - clear Hbulk. induction Hall as [|kw r keywords rs [gi ->] _ IH];
      [reflexivity|].
    simpl. now rewrite record_for_keyword, IH.
  - eapply Forall2_impl; [exact Hall|].
    intros kw r [gi ->]. exists gi. unfold record_for.
    destruct (fst (predictor (PyStr kw) gi)); [split|]; reflexivity.
Qed.

(* ================================================================== *)
(** * Facts about strings *)
(* ================================================================== *)

(** Lower-casing never shortens a string and at most doubles it: only
    U+0130 becomes two code points. *)
Lemma lower_from_length s :
  forall before,
    length s <= length (PyStr.lower_from before s) <= 2 * length s.
Proof.
  induction s as [|c s IH]; intros before; simpl; [lia|].
  rewrite length_app. specialize (IH (c :: before)).
  unfold PyStr.lower_at.
  destruct (c =? 304)%N; [simpl; lia|].
  destruct (c =? 931)%N; simpl; lia.
Qed.

Lemma len_lower s :
  (PyStr.len s <= PyStr.len (PyStr.lower s) <= 2 * PyStr.len s)%Z.
Proof.
  unfold PyStr.len, PyStr.lower.
  pose proof (lower_from_length s []). lia.
Qed.

Lemma lstrip_head s :
  PyStr.lstrip s = [] \/
  exists c r, PyStr.lstrip s = c :: r /\ PyStr.is_space c = false.
Proof.
  induction s as [|c s IH]; simpl; [now left|].
  destruct (PyStr.is_space c) eqn:E; [exact IH|]. right. eauto.
Qed.

Lemma rstrip_head c r :
  PyStr.is_space c = false ->
  exists r', PyStr.rstrip (c :: r) = c :: r'.
Proof.
  intros H. simpl. rewrite H. destruct (PyStr.rstrip r); eauto.
Qed.

Lemma lstrip_nonspace c r :
  PyStr.is_space c = false -> PyStr.lstrip (c :: r) = c :: r.
Proof. intros H. simpl. now rewrite H. Qed.

Lemma rstrip_cons c r :
  PyStr.rstrip (c :: r)
  = match PyStr.rstrip r with
    | [] => if PyStr.is_space c then [] else [c]
    | r' => c :: r'
    end.
Proof. reflexivity. Qed.

Lemma rstrip_idem s : PyStr.rstrip (PyStr.rstrip s) = PyStr.rstrip s.
Proof.
  induction s as [|c s IH]; [reflexivity|].
  rewrite rstrip_cons. destruct (PyStr.rstrip s) as [|c' s'] eqn:E.
  - destruct (PyStr.is_space c) eqn:Ec; [reflexivity|].
    rewrite rstrip_cons. simpl. now rewrite Ec.
  - rewrite rstrip_cons, IH. reflexivity.
Qed.

(** Trimming twice is trimming once. *)
Lemma strip_idem s : PyStr.strip (PyStr.strip s) = PyStr.strip s.
Proof.
  unfold PyStr.strip.
  destruct (lstrip_head s) as [-> | (c & r & -> & Hc)]; [reflexivity|].
  destruct (rstrip_head c r Hc) as [r' Hr'].
  rewrite Hr' at 1. rewrite (lstrip_nonspace _ _ Hc). rewrite <- Hr'.
  apply rstrip_idem.
Qed.

Lemma suggestion_key_strip s : suggestion_key (PyStr.strip s) = suggestion_key s.
Proof. unfold suggestion_key. now rewrite strip_idem. Qed.

(* ================================================================== *)
(** * Facts about suggestion expansion *)
(* ================================================================== *)

(** What the deduplication loop keeps from [candidates], given the keys
    already [seen]. *)
Lemma dedupe_loop_spec candidates :
  forall unique_suggestions (seen : gset PyStr.str),
  exists kept,
    dedupe_loop candidates unique_suggestions seen
      = (unique_suggestions ++ kept)%list
    /\ kept `sublist_of` map PyStr.strip candidates
    /\ NoDup (map suggestion_key kept)
    /\ (forall i e, kept !! i = Some e ->
          exists j c,
            candidates !! j = Some c /\ PyStr.strip c = e
            /\ (2 < PyStr.len (suggestion_key c))%Z
            /\ (suggestion_key c ∉ seen)
            /\ forall j' c', j' < j -> candidates !! j' = Some c' ->
                             suggestion_key c' <> suggestion_key c).
Proof.
  induction candidates as [|c rest IH]; intros unique_suggestions seen.
  - exists []. simpl. rewrite app_nil_r.
    split; [reflexivity|]. split; [constructor|]. split; [constructor|].
    intros i e H. discriminate.
  - simpl. fold (suggestion_key c).
    destruct (PyStr.truthy (suggestion_key c)
              && negb (bool_decide (suggestion_key c ∈ seen))
              && (2 <? PyStr.len (suggestion_key c))%Z) eqn:Hacc.
    + apply andb_true_iff in Hacc as [Hacc Hlen].
      apply andb_true_iff in Hacc as [_ Hseen].
      apply Z.ltb_lt in Hlen.
      apply negb_true_iff, bool_decide_eq_false in Hseen.
      destruct (IH (unique_suggestions ++ [PyStr.strip c])%list
                   ({[suggestion_key c]} ∪ seen))
        as (kept & Heq & Hsub & Hnd & Hfirst).
      exists (PyStr.strip c :: kept). split.
      { rewrite Heq. now rewrite <- app_assoc. }
      split; [now constructor|]. split.
      { simpl. apply NoDup_cons. split; [|assumption].
        intros Hin. apply list_elem_of_fmap in Hin as (e & He & Hin).
        apply list_elem_of_lookup in Hin as (i & Hi).
        destruct (Hfirst i e Hi) as (j & c' & _ & Hc' & _ & Hnew & _).
        apply Hnew. apply elem_of_union_l, elem_of_singleton.
        rewrite <- Hc', suggestion_key_strip in He.
        rewrite suggestion_key_strip in He. congruence. }
      intros [|i] e Hi.
      * injection Hi as <-. exists 0, c.
        split; [reflexivity|]. split; [reflexivity|]. split; [assumption|].
        split; [assumption|]. intros j' c' Hj'. lia.
      * destruct (Hfirst i e Hi) as (j & c' & Hj & Hc' & Hl & Hnew & Hearlier).
        exists (S j), c'. split; [exact Hj|]. split; [exact Hc'|].
        split; [exact Hl|]. split; [set_solver|].
        intros [|j'] c'' Hlt Hc''.
        -- injection Hc'' as <-. intros Heq'. apply Hnew.
           apply elem_of_union_l, elem_of_singleton. congruence.
        -- apply (Hearlier j' c''); [lia|exact Hc''].
    + destruct (IH unique_suggestions seen) as (kept & Heq & Hsub & Hnd & Hfirst).
      exists kept. split; [exact Heq|]. split; [now constructor|].
      split; [assumption|].
      intros i e Hi.
      destruct (Hfirst i e Hi) as (j & c' & Hj & Hc' & Hl & Hnew & Hearlier).
      exists (S j), c'. split; [exact Hj|]. split; [exact Hc'|].
      split; [exact Hl|]. split; [exact Hnew|].
      intros [|j'] c'' Hlt Hc''.
      * injection Hc'' as <-. intros Heq'. rewrite Heq' in Hacc.
        assert (PyStr.truthy (suggestion_key c') = true).
        { destruct (suggestion_key c'); [cbv in Hl; discriminate|reflexivity]. }
        rewrite H in Hacc. rewrite bool_decide_eq_false_2 in Hacc by assumption.
        simpl in Hacc. apply Z.ltb_ge in Hacc. lia.
      * apply (Hearlier j' c''); [lia|exact Hc''].
Qed.

Lemma py_prefix_sublist {A} (l : list A) k : py_prefix l k `sublist_of` l.
Proof. unfold py_prefix. destruct (_ <? _)%Z; apply sublist_take. Qed.

Lemma py_prefix_nonneg {A} (l : list A) k :
  (0 <= k)%Z -> py_prefix l k = take (Z.to_nat k) l.
Proof. intros H. unfold py_prefix. destruct (Z.ltb_spec k 0); [lia|reflexivity]. Qed.

Lemma autocomplete_returns seed o :
  exists l, _get_amazon_autocomplete seed o = Return l.
Proof.
  unfold _get_amazon_autocomplete, try_except.
  destruct (autocomplete_request o) as [e|[l|]];
    [destruct (inner_handlers e)|..]; simpl; eauto.
Qed.

Lemma autocomplete_failed seed o :
  fetch_failed o -> _get_amazon_autocomplete seed o = Return [].
Proof.
  unfold _get_amazon_autocomplete, try_except, autocomplete_request.
  destruct o as [e|status [e|data]]; simpl.
  - intros _. destruct (inner_handlers e); reflexivity.
  - intros _. destruct (status =? 200)%Z; simpl; [|reflexivity].
    destruct (inner_handlers e); reflexivity.
  - intros [Hst|Hraised].
    + destruct (Z.eqb_spec status 200); [contradiction|reflexivity].
    + destruct (status =? 200)%Z; simpl; [|reflexivity].
      destruct (extract_suggestions data) as [e|l]; [|discriminate].
      simpl. destruct (inner_handlers e); reflexivity.
Qed.

Lemma expanded_returns seed count existing g :
  exists l g', _generate_expanded_suggestions seed count existing g = (Return l, g').
Proof.
  unfold _generate_expanded_suggestions, mbind, random_shuffle, mret.
  destruct (shuffle_loop _ _ g) as [x' g']. eauto.
Qed.

Lemma get_keyword_suggestions_eq seed limit o g :
  exists g',
    get_keyword_suggestions seed limit o g
    = (Return (py_prefix (dedupe_loop (candidate_suggestions seed limit o g) [] ∅)
                         limit), g').
Proof.
  unfold get_keyword_suggestions, candidate_suggestions, mbind, mlift, mret.
  destruct (autocomplete_returns seed o) as [amazon ->].
  unfold Return. cbv beta iota.
  destruct (Z.of_nat (length amazon) <? limit)%Z; cbv beta iota; [|eauto].
  destruct (expanded_returns seed (limit - Z.of_nat (length amazon)) amazon g)
    as (expanded & g' & ->). eauto.
Qed.

Lemma dedupe_kept candidates limit :
  (0 <= limit)%Z ->
  let l := py_prefix (dedupe_loop candidates [] ∅) limit in
  (Z.of_nat (length l) <= limit)%Z
  /\ NoDup (map suggestion_key l)
  /\ Forall (fun e => (2 < PyStr.len (suggestion_key e))%Z
                      /\ (2 <= PyStr.len (PyStr.strip e))%Z) l
  /\ l `sublist_of` map PyStr.strip candidates
  /\ Forall (fun e => exists j c,
                 first_seen_at candidates j c /\ PyStr.strip c = e) l.
Proof.
  intros Hlimit l.
  destruct (dedupe_loop_spec candidates [] ∅)
    as (kept & Heq & Hsub & Hnd & Hfirst).
  simpl in Heq. subst l. rewrite Heq, py_prefix_nonneg by assumption.
  assert (Hall : Forall (fun e => exists j c,
                   candidates !! j = Some c /\ PyStr.strip c = e
                   /\ (2 < PyStr.len (suggestion_key c))%Z
                   /\ forall j' c', j' < j -> candidates !! j' = Some c' ->
                                    suggestion_key c' <> suggestion_key c)
                 (take (Z.to_nat limit) kept)).
  { apply Forall_forall. intros e He.
    apply elem_of_take in He as (i & Hi & _).
    destruct (Hfirst i e Hi) as (j & c & Hj & Hc & Hl & _ & Hearlier).
    exists j, c. auto. }
  split; [|split; [|split; [|split]]].
  - rewrite length_take. lia.
  - rewrite (fmap_take suggestion_key (Z.to_nat limit) kept : map _ _ = _).
    eapply sublist_NoDup; [exact Hnd|apply sublist_take].
  - eapply Forall_impl; [exact Hall|].
    intros e (j & c & _ & <- & Hl & _).
    rewrite suggestion_key_strip, strip_idem. split; [exact Hl|].
    unfold suggestion_key in Hl. pose proof (len_lower (PyStr.strip c)). lia.
  - etransitivity; [apply sublist_take|exact Hsub].
  - eapply Forall_impl; [exact Hall|].
    intros e (j & c & Hj & Hc & _ & Hearlier).
    exists j, c. split; [split; assumption|assumption].
Qed.

(* ================================================================== *)
(** * Properties of suggestion expansion and competitor analysis *)
(* ================================================================== *)

(** C7, as stated, fails on the code.  The deduplication loop measures
    the trimmed, lower-cased key and appends the trimmed suggestion,
    and lower-casing U+0130 gives two code points: an autocomplete
    value made of U+0130 and the letter a has a key of three code
    points, passes the length test and is returned, with a trimmed
    length of 2. *)
Theorem short_suggestion_returned :
  let value := [304; 97]%N in
  let answer :=
    Responds 200
      (Return (JDict [(PyStr.u "suggestions",
                       JList [JDict [(PyStr.u "value", JStr value)]])])) in
  fst (get_keyword_suggestions (PyStr.u "yoga") 1 answer sample_rng)
  = Return [value]
  /\ PyStr.len (PyStr.strip value) = 2%Z
  /\ PyStr.lower (PyStr.strip value) = [105; 775; 97]%N.
Proof. vm_compute. repeat split. Qed.

(** For every seed, every limit of at least 1, every answer of the
    autocomplete endpoint and every state of the random generator, the
    suggestions returned are at most [limit]; no two of them are equal
    after trimming and lower-casing; each has a key (trimmed and
    lower-cased) of more than 2 code points and itself at least 2;
    they appear in the order of the candidates, each at the first
    candidate carrying its key. *)
Theorem keyword_suggestions_bounded_unique (seed_keyword : PyStr.str) (limit : Z)
    (o : http_outcome) (g : Rng) :
  (1 <= limit)%Z ->
  exists l g',
    get_keyword_suggestions seed_keyword limit o g = (Return l, g')
    /\ (Z.of_nat (length l) <= limit)%Z
    /\ NoDup (map suggestion_key l)
    /\ Forall (fun e => (2 < PyStr.len (suggestion_key e))%Z
                        /\ (2 <= PyStr.len (PyStr.strip e))%Z) l
    /\ l `sublist_of`
         map PyStr.strip (candidate_suggestions seed_keyword limit o g)
    /\ Forall (fun e => exists j c,
                   first_seen_at (candidate_suggestions seed_keyword limit o g)
                                 j c
                   /\ PyStr.strip c = e) l.
Proof.
  intros Hlimit.
  destruct (get_keyword_suggestions_eq seed_keyword limit o g) as [g' Heq].
  eexists. exists g'. split; [exact Heq|].
  apply dedupe_kept. lia.
Qed.

Lemma keyword_suggestions_bounded_unique_witness :
  (1 <= 5)%Z /\
  exists l g',
    get_keyword_suggestions (PyStr.u "yoga mat") 5 (GetRaises TimeoutError) sample_rng
      = (Return l, g')
    /\ (Z.of_nat (length l) <= 5)%Z.
Proof.
  split; [lia|].
  destruct (keyword_suggestions_bounded_unique (PyStr.u "yoga mat") 5
              (GetRaises TimeoutError) sample_rng)
    as (l & g' & H1 & H2 & _); [lia|].
  exists l, g'. split; assumption.
Defined.

Lemma swap_subseteq {A} i j (x : list A) y : y ∈ swap i j x -> y ∈ x.
Proof.
  unfold swap.
  destruct (x !! i) as [a|] eqn:Ha; [|auto].
  destruct (x !! j) as [b|] eqn:Hb; [|auto].
  intros Hy. apply list_elem_of_lookup in Hy as [k Hk].
  apply list_lookup_insert_Some in Hk as [(-> & -> & _)|[_ Hk]].
  - eapply list_elem_of_lookup_2, Ha.
  - apply list_lookup_insert_Some in Hk as [(-> & -> & _)|[_ Hk]].
    + eapply list_elem_of_lookup_2, Hb.
    + eapply list_elem_of_lookup_2, Hk.
Qed.

Lemma shuffle_loop_subseteq {A} i :
  forall (x : list A) g y, y ∈ fst (shuffle_loop i x g) -> y ∈ x.
Proof.
  induction i as [|i IH]; intros x g y; simpl; [auto|].
  destruct (rng_randbelow (Z.of_nat (S i) + 1) g) as [j g'].
  intros Hy. apply IH in Hy. eapply swap_subseteq, Hy.
Qed.

Lemma unique_variations_subseteq variations :
  forall existing_lower acc y,
    y ∈ unique_variations_loop variations existing_lower acc ->
    y ∈ acc \/ y ∈ map PyStr.strip variations.
Proof.
  induction variations as [|v rest IH]; intros existing_lower acc y; simpl.
  - now left.
  - destruct (_ && _ && _).
    + intros Hy. apply IH in Hy as [Hy|Hy].
      * apply elem_of_app in Hy as [Hy|Hy]; [now left|].
        apply list_elem_of_singleton in Hy as ->. right. constructor.
      * right. now constructor.
    + intros Hy. apply IH in Hy as [Hy|Hy]; [now left|].
      right. now constructor.
Qed.

Lemma expanded_from_variations seed count existing g y :
  y ∈ match fst (_generate_expanded_suggestions seed count existing g) with
      | inr l => l
      | inl _ => []
      end ->
  y ∈ map PyStr.strip (variations_of seed (map PyStr.lower existing)).
Proof.
  unfold _generate_expanded_suggestions, mbind, random_shuffle, mret.
  destruct (shuffle_loop _ _ g) as [x' g'] eqn:Hsh. simpl.
  intros Hy. apply (sublist_subseteq _ _ (py_prefix_sublist _ _)) in Hy.
  assert (Hx : y ∈ fst (shuffle_loop
                 (length (unique_variations_loop
                    (variations_of seed (map PyStr.lower existing))
                    (map PyStr.lower existing) []) - 1)
                 (unique_variations_loop
                    (variations_of seed (map PyStr.lower existing))
                    (map PyStr.lower existing) []) g)) by now rewrite Hsh.
  apply shuffle_loop_subseteq in Hx.
  apply unique_variations_subseteq in Hx as [Hx|Hx]; [inversion Hx|exact Hx].
Qed.

Lemma candidates_from_variations seed limit o g c :
  fetch_failed o ->
  c ∈ candidate_suggestions seed limit o g ->
  c ∈ map PyStr.strip (variations_of seed []).
Proof.
  intros Hfail. unfold candidate_suggestions.
  rewrite (autocomplete_failed seed o Hfail). unfold Return.
  destruct (Z.of_nat (length (@nil PyStr.str)) <? limit)%Z; [|intros H; inversion H].
  pose proof (expanded_from_variations seed
                (limit - Z.of_nat (length (@nil PyStr.str))) [] g c) as Hexp.
  destruct (_generate_expanded_suggestions seed _ [] g) as [[e|l] g'];
    simpl in *; [intros H; inversion H|exact Hexp].
Qed.

(** C8.  When the autocomplete fetch fails (the request raises, the
    status is not 200, the body does not decode or has the wrong
    shape), [_get_amazon_autocomplete] returns the empty list, and the
    expansion still returns, without raising, a list made of generated
    variants of the seed only. *)
Theorem autocomplete_failure_absorbed (seed_keyword : PyStr.str)
    (o : http_outcome) :
  fetch_failed o ->
  _get_amazon_autocomplete seed_keyword o = Return []
  /\ forall limit g, exists l g',
       get_keyword_suggestions seed_keyword limit o g = (Return l, g')
       /\ Forall (fun e => e ∈ map PyStr.strip (variations_of seed_keyword []))
                 l.
Proof.
  intros Hfail. split; [now apply autocomplete_failed|].
  intros limit g.
  destruct (get_keyword_suggestions_eq seed_keyword limit o g) as [g' Heq].
  eexists. exists g'. split; [exact Heq|].
  destruct (dedupe_loop_spec (candidate_suggestions seed_keyword limit o g) [] ∅)
    as (kept & Hkept & Hsub & _).
  simpl in Hkept. rewrite Hkept.
  apply Forall_forall. intros e He.
  apply (sublist_subseteq _ _ (py_prefix_sublist _ _)) in He.
  apply (sublist_subseteq _ _ Hsub) in He.
  apply list_elem_of_fmap in He as (c & -> & Hc).
  apply (candidates_from_variations seed_keyword limit o g c Hfail) in Hc.
  apply list_elem_of_fmap in Hc as (v & -> & Hv).
  rewrite strip_idem. now apply list_elem_of_fmap_2.
Qed.

Lemma autocomplete_failure_absorbed_witness :
  fetch_failed (Responds 503 (inr JNull)) /\
  _get_amazon_autocomplete (PyStr.u "yoga mat") (Responds 503 (inr JNull)) = Return [].
Proof.
  assert (H : fetch_failed (Responds 503 (inr JNull))) by (left; discriminate).
  split; [exact H|].
  exact (proj1 (autocomplete_failure_absorbed (PyStr.u "yoga mat")
                  (Responds 503 (inr JNull)) H)).
Defined.

(** C9.  If the expansion yields no candidate, the competitor analysis
    returns a report with total_found 0, no competitor keywords, and the
    summary 'No competitor keywords found'. *)
Theorem competitor_analysis_empty (fl : Q -> Q) (py_hash : PyStr.str -> Z)
    (predictor : pyobj -> M ai_data) (scheduler : nat -> list nat)
    (loop_time : Q) (primary_keyword : PyStr.str) (limit : Z)
    (o : http_outcome) (g : Rng) :
  fst (get_keyword_suggestions primary_keyword limit o g) = Return [] ->
  exists report g',
    get_competitor_analysis fl py_hash predictor scheduler loop_time
      primary_keyword limit o g = (Return report, g')
    /\ cr_total_found report = 0%Z
    /\ cr_competitor_keywords report = []
    /\ cr_analysis_summary report = SummaryText "No competitor keywords found".
Proof.
  intros Hempty. unfold get_competitor_analysis, mbind.
  destruct (get_keyword_suggestions primary_keyword limit o g) as [[e|l] g'];
    simpl in Hempty; [discriminate|].
  injection Hempty as ->. unfold mret.
  eexists. exists g'. repeat split.
Qed.

Lemma competitor_analysis_empty_witness :
  fst (get_keyword_suggestions (PyStr.u "yoga mat") 0 (GetRaises TimeoutError) sample_rng)
    = Return [] /\
  exists report g',
    get_competitor_analysis binary64 sample_hash
      (enhanced_ai_predictor binary64 sample_hash November) reversed_scheduler 0%Q
      (PyStr.u "yoga mat") 0 (GetRaises TimeoutError) sample_rng = (Return report, g')
    /\ cr_total_found report = 0%Z.
Proof.
  assert (H : fst (get_keyword_suggestions (PyStr.u "yoga mat") 0 (GetRaises TimeoutError)
                     sample_rng) = Return []) by reflexivity.
  split; [exact H|].
  destruct (competitor_analysis_empty binary64 sample_hash
              (enhanced_ai_predictor binary64 sample_hash November)
              reversed_scheduler 0%Q (PyStr.u "yoga mat") 0 (GetRaises TimeoutError)
              sample_rng H) as (report & g' & Hr & Ht & _).
  exists report, g'. split; assumption.
Defined.

Lemma intent_score_bounds keyword : (1 <= _calculate_intent_score keyword <= 10)%Z.
Proof. unfold _calculate_intent_score. lia. Qed.

(** C10.  The intent score of every keyword is an integer in 1..10,
    and so is the intent_score field of the enhanced record, of the
    fallback record, and of whatever record the scraper returns for the
    keyword. *)
Theorem intent_score_in_range (keyword : PyStr.str) :
  (1 <= _calculate_intent_score keyword <= 10)%Z
  /\ (forall ai, (1 <= kr_intent_score (enhanced_record ai keyword) <= 10)%Z)
  /\ (forall fl py_hash,
        (1 <= kr_intent_score (_get_basic_keyword_data fl py_hash keyword)
         <= 10)%Z)
  /\ (forall fl py_hash predictor g, exists r g',
        get_enhanced_keyword_data fl py_hash predictor (PyStr keyword) g
          = (Return r, g')
        /\ (1 <= kr_intent_score r <= 10)%Z).
Proof.
  split; [apply intent_score_bounds|].
  split; [intros ai; apply intent_score_bounds|].
  split; [intros fl py_hash; apply intent_score_bounds|].
  intros fl py_hash predictor g.
  destruct (get_enhanced_str fl py_hash predictor keyword g) as [g' Heq].
  eexists. exists g'. split; [exact Heq|].
  unfold record_for. destruct (fst (predictor (PyStr keyword) g));
    apply intent_score_bounds.
Qed.

(* ================================================================== *)
(** * Further facts about the number model *)
(* ================================================================== *)

Open Scope Q_scope.

Lemma py_int_mono x y : x <= y -> (py_int x <= py_int y)%Z.
Proof.
  intros H. unfold py_int, Qleb.
  destruct (Qle_bool 0 x) eqn:Ex; destruct (Qle_bool 0 y) eqn:Ey.
  - now apply Qfloor_resp_le.
  - apply Qle_bool_iff in Ex.
    assert (Qle_bool 0 y = true) by (apply Qle_bool_iff; lra). congruence.
  - (* x < 0 <= y *)
    apply Qle_bool_iff in Ey.
    assert (Hx : x < 0).
    { apply Qnot_le_lt. intros Hle. apply Qle_bool_iff in Hle. congruence. }
    assert (Qceiling x <= 0)%Z.
    { change 0%Z with (Qceiling 0). apply Qceiling_resp_le. lra. }
    assert (0 <= Qfloor y)%Z.
    { change 0%Z with (Qfloor 0). now apply Qfloor_resp_le. }
    lia.
  - now apply Qceiling_resp_le.
Qed.

Lemma py_int_Z n : py_int (inject_Z n) = n.
Proof.
  unfold py_int. destruct (Qleb 0 (inject_Z n)).
  - apply Qfloor_Z.
  - apply Qceiling_Z.
Qed.

Lemma py_int_le_int x (n : Z) : x <= inject_Z n -> (py_int x <= n)%Z.
Proof. intros H. rewrite <- (py_int_Z n). now apply py_int_mono. Qed.

Lemma py_int_ge_int x (n : Z) : inject_Z n <= x -> (n <= py_int x)%Z.
Proof. intros H. rewrite <- (py_int_Z n) at 1. now apply py_int_mono. Qed.

Lemma decimal_round_Z n (k : Z) : decimal_round n (inject_Z k) == inject_Z k.
Proof.
  unfold decimal_round.
  rewrite (round_half_even_eq _ (inject_Z (k * 10 ^ Z.of_nat n)))
    by (rewrite inject_Z_mult; reflexivity).
  rewrite round_half_even_Z, inject_Z_mult.
  pose proof (scale_pos n). field. lra.
Qed.

Section MoreRounding.
Context {fl : Q -> Q} {R : Rounding fl}.

Lemma py_round_le_int x n (k : Z) :
  (Z.abs k <= 2 ^ 53)%Z -> x <= inject_Z k -> py_round fl x n <= inject_Z k.
Proof.
  intros Hk H. unfold py_round. apply fl_le_int; [exact Hk|].
  rewrite <- (decimal_round_Z n k). now apply decimal_round_mono.
Qed.

Lemma py_round_ge_int x n (k : Z) :
  (Z.abs k <= 2 ^ 53)%Z -> inject_Z k <= x -> inject_Z k <= py_round fl x n.
Proof.
  intros Hk H. unfold py_round. apply fl_ge_int; [exact Hk|].
  rewrite <- (decimal_round_Z n k). now apply decimal_round_mono.
Qed.

Lemma fmul_mono_l x y z : 0 <= z -> x <= y -> fmul fl x z <= fmul fl y z.
Proof. intros. unfold fmul. apply fl_mono. nra. Qed.

Lemma fmul_mono_r x y z : 0 <= z -> x <= y -> fmul fl z x <= fmul fl z y.
Proof. intros. unfold fmul. apply fl_mono. nra. Qed.

Lemma fadd_mono x y x' y' : x <= x' -> y <= y' -> fadd fl x y <= fadd fl x' y'.
Proof. intros. unfold fadd. apply fl_mono. lra. Qed.

Lemma fsub_mono x y x' y' : x <= x' -> y' <= y -> fsub fl x y <= fsub fl x' y'.
Proof. intros. unfold fsub. apply fl_mono. lra. Qed.

Lemma fdiv_mono x y z : 0 < z -> x <= y -> fdiv fl x z <= fdiv fl y z.
Proof.
  intros Hz H. unfold fdiv. apply fl_mono. unfold Qdiv.
  apply Qmult_le_compat_r; [exact H|]. apply Qinv_le_0_compat. lra.
Qed.


End MoreRounding.

(* ================================================================== *)
(** * Further properties of the scoring engine *)
(* ================================================================== *)

Section ScoringExtras.
Context {fl : Q -> Q} {R : Rounding fl}.

Lemma fl_proper x y : x == y -> fl x == fl y.
Proof. intros H. apply Qle_antisym; apply fl_mono; lra. Qed.



(** Within a category, at a given volume and seasonal factor, the
    estimated CPC grows with the competition score. *)
Theorem estimated_cpc_monotone cat s s' sv sf :
  (0 <= sv)%Z -> 0 <= sf -> s <= s' ->
  estimated_cpc_of fl cat s sv sf <= estimated_cpc_of fl cat s' sv sf.
Proof.
  intros Hv Hf Hs. unfold estimated_cpc_of.
  assert (Hwid : 0 <= inject_Z (cpc_max (category_base_cpc cat)
                                - cpc_min (category_base_cpc cat))).
  { apply inject_Z_nonneg. destruct cat; simpl; lia. }
  assert (Hc : 0 <= lit fl (1 # 10) <= 1) by (apply lit_unit; lra).
  apply py_round_mono. apply fmul_mono_l; [|apply fmul_mono_l].
  - unfold fadd, fmul, fsub. apply fl_nonneg.
    assert (Ha : -1 <= fl (sf - 1)).
    { apply (fl_ge_int (-1)); [simpl; lia|]. change (inject_Z (-1)) with (-1). lra. }
    assert (Hb : -1 <= fl (fl (sf - 1) * lit fl (1 # 10))).
    { apply (fl_ge_int (-1)); [simpl; lia|]. change (inject_Z (-1)) with (-1). nra. }
    lra.
  - apply fadd_nonneg; [lra|]. apply py_min_glb.
    + apply fl_nonneg. lra.
    + apply fmul_nonneg; [|lra]. apply fdiv_nonneg; [|lra].
      now apply inject_Z_nonneg.
  - apply fadd_mono; [lra|]. now apply fmul_mono_r.
Qed.

(** Each of the three suggested bids grows with the estimated CPC. *)
Theorem bids_monotone_in_cpc e e' :
  e <= e' ->
  conservative (bids_of fl e) <= conservative (bids_of fl e')
  /\ optimal (bids_of fl e) <= optimal (bids_of fl e')
  /\ aggressive (bids_of fl e) <= aggressive (bids_of fl e').
Proof.
  intros H. unfold bids_of; simpl.
  repeat split; apply py_round_mono, fmul_mono_l; try exact H;
    apply fl_nonneg; lra.
Qed.

Lemma competitor_counts_range py_hash keyword :
  let cd := calculate_competition_analysis fl py_hash keyword in
  (0 <= cd_organic_competitors cd <= 79)%Z
  /\ (0 <= cd_sponsored_competitors cd <= 34)%Z.
Proof.
  intros cd.
  pose proof (competition_score_unit py_hash keyword) as [H0 H1].
  subst cd. unfold calculate_competition_analysis in *. simpl in *.
  set (s := py_min 1 (fdiv fl (factors_sum fl (competition_factors_of fl keyword)) 4)) in *.
  pose proof (Z.mod_pos_bound (Z.abs (py_hash keyword)) 30 ltac:(lia)) as Ho.
  pose proof (Z.mod_pos_bound (Z.abs (py_hash ((keyword ++ PyStr.u "ads")%list))) 15 ltac:(lia)) as Hs.
  rewrite Zle_Qle, Zlt_Qlt in Ho, Hs.
  assert (Ht : forall k m : Z, (0 <= k <= 50)%Z ->
             forall j, inject_Z 0 <= inject_Z j -> inject_Z j < inject_Z m ->
             (Z.abs (k + m - 1) <= 2 ^ 53)%Z ->
             (0 <= py_int (fadd fl (fmul fl s (inject_Z k)) (inject_Z j)) <= k + m - 1)%Z).
  { intros k m Hk j Hj0 Hjm Hab.
    assert (Hkq : 0 <= inject_Z k <= inject_Z 50)
      by (split; [apply inject_Z_nonneg|rewrite <- Zle_Qle]; lia).
    assert (Hm : 0 <= fmul fl s (inject_Z k) <= inject_Z k).
    { split; [apply fmul_nonneg; lra|].
      unfold fmul. apply fl_le_int; [lia|]. nra. }
    assert (Hj1 : inject_Z j <= inject_Z (m - 1)).
    { rewrite <- Zlt_Qlt in Hjm. rewrite <- Zle_Qle. lia. }
    split.
    - apply py_int_nonneg, fadd_nonneg; [lra|exact Hj0].
    - apply py_int_le_int. unfold fadd. apply fl_le_int; [exact Hab|].
      replace (k + m - 1)%Z with (k + (m - 1))%Z by lia.
      rewrite inject_Z_plus. lra. }
  split.
  - apply (Ht 50%Z 30%Z); [lia| | |simpl; lia]; tauto.
  - apply (Ht 20%Z 15%Z); [lia| | |simpl; lia]; tauto.
Qed.

(** The simulated competitor counts: between 0 and 79 organic and
    between 0 and 34 sponsored competitors for every keyword. *)
Theorem competitor_counts_bounded py_hash keyword :
  let cd := calculate_competition_analysis fl py_hash keyword in
  (0 <= cd_organic_competitors cd <= 79)%Z
  /\ (0 <= cd_sponsored_competitors cd <= 34)%Z.
Proof. apply competitor_counts_range. Qed.

End ScoringExtras.



Lemma estimated_cpc_monotone_witness :
  Rounding binary64 /\ (0 <= 1000)%Z /\ 0 <= 1 /\ (3 # 10) <= (5 # 10)
  /\ estimated_cpc_of binary64 electronics (3 # 10) 1000 1
     <= estimated_cpc_of binary64 electronics (5 # 10) 1000 1.
Proof.
  split; [exact binary64_rounding|]. split; [lia|].
  split; [unfold Qle; simpl; lia|]. split; [unfold Qle; simpl; lia|].
  assert (H1 : 0 <= 1) by (unfold Qle; simpl; lia).
  assert (H2 : (3 # 10) <= (5 # 10)) by (unfold Qle; simpl; lia).
  exact (estimated_cpc_monotone (R := binary64_rounding) electronics
           (3 # 10) (5 # 10) 1000 1 ltac:(lia) H1 H2).
Defined.

Lemma bids_monotone_in_cpc_witness :
  Rounding binary64 /\ 10 <= 12
  /\ optimal (bids_of binary64 10) <= optimal (bids_of binary64 12).
Proof.
  split; [exact binary64_rounding|]. split; [unfold Qle; simpl; lia|].
  assert (H : 10 <= 12) by (unfold Qle; simpl; lia).
  exact (proj1 (proj2 (bids_monotone_in_cpc (R := binary64_rounding)
                         10 12 H))).
Defined.

Lemma competitor_counts_bounded_witness :
  Rounding binary64
  /\ (0 <= cd_organic_competitors
             (calculate_competition_analysis binary64 sample_hash
                (PyStr.u "yoga mat")) <= 79)%Z.
Proof.
  split; [exact binary64_rounding|].
  exact (proj1 (competitor_counts_bounded (R := binary64_rounding)
                  sample_hash (PyStr.u "yoga mat"))).
Defined.

Section TrendExtras.
Context {fl : Q -> Q} {R : Rounding fl}.
Variable py_hash : PyStr.str -> Z.
Variable now : Month.

Lemma confidence_between keyword vd aba cat :
  let r := compose_prediction fl py_hash keyword cat vd aba in
  py_round fl (fsub fl (lit fl (85 # 100)) (fmul fl 1 (lit fl (2 # 10)))) 2
    <= ai_confidence r
  /\ ai_confidence r
     <= py_round fl (fsub fl (lit fl (85 # 100)) (fmul fl 0 (lit fl (2 # 10)))) 2.
Proof.
  intros r. subst r. simpl.
  pose proof (competition_score_unit py_hash keyword) as [H0 H1].
  assert (Hc : 0 <= lit fl (2 # 10)) by (apply fl_nonneg; lra).
  split; apply py_round_mono, fsub_mono; try lra; apply fmul_mono_l; assumption.
Qed.

Lemma trend_returns_shape keyword cat :
  exists td,
    calculate_search_volume_trend fl py_hash now keyword cat = Return td
    /\ 0 <= td_seasonal_factor td <= 2
    /\ match td_trend_direction td with
       | up => 0 <= td_trend_percentage td
       | down => td_trend_percentage td <= 0
       | stable => td_trend_percentage td == 0
       end
    /\ match cat with
       | electronics | fashion | health => True
       | _ =>
           td_seasonal_factor td == 1
           /\ td_trend_percentage td
              == inject_Z (Z.abs (py_hash keyword) mod 20 - 10)
           /\ (-10 <= Z.abs (py_hash keyword) mod 20 - 10 <= 9)%Z
       end.
Proof.
  destruct (seasonal_lookup cat now) as (c & p & Hc & Hp & Hc0 & Hp0).
  assert (Hc45 : (c <= 45)%Z).
  { clear Hp. destruct cat, now; injection Hc as <-; lia. }
  unfold calculate_search_volume_trend. rewrite Hc. simpl ebind.
  rewrite Hp. simpl ebind.
  destruct (Z.eqb_spec p 0) as [->|_]; [lia|].
  eexists. split; [reflexivity|]. simpl.
  set (tc := fadd fl (fmul fl (fdiv fl (inject_Z (c - p)) (inject_Z p)) 100)
                     (inject_Z (Z.abs (py_hash keyword) mod 20 - 10))).
  split; [|split].
  - split.
    + apply fdiv_nonneg; [apply inject_Z_nonneg; lia|lra].
    + unfold fdiv. apply (fl_le_int 2); [simpl; lia|].
      apply Qle_shift_div_r; [lra|].
      change (inject_Z 2 * 25) with (inject_Z 50). rewrite <- Zle_Qle. lia.
  - destruct (Qltb 0 tc) eqn:E1.
    + apply Qltb_spec in E1. apply (py_round_ge_int _ _ 0); [simpl; lia|].
      change (inject_Z 0) with 0. lra.
    + apply Qltb_false in E1. destruct (Qltb tc 0) eqn:E2.
      * apply (py_round_le_int _ _ 0); [simpl; lia|]. exact E1.
      * apply Qltb_false in E2. apply Qle_antisym.
        -- apply (py_round_le_int _ _ 0); [simpl; lia|]. exact E1.
        -- apply (py_round_ge_int _ _ 0); [simpl; lia|]. exact E2.
  - assert (Hdef : seasonal_trends cat = seasonal_trends default_category ->
             fdiv fl (inject_Z c) 25 == 1
             /\ py_round fl tc 0 == inject_Z (Z.abs (py_hash keyword) mod 20 - 10)
             /\ (-10 <= Z.abs (py_hash keyword) mod 20 - 10 <= 9)%Z).
    { intros Heq. rewrite Heq in Hc, Hp.
      assert (c = 25%Z) by (clear Hp; destruct now; injection Hc as <-; reflexivity).
      assert (p = 25%Z) by (clear Hc; destruct now; injection Hp as <-; reflexivity).
      subst c p.
      pose proof (Z.mod_pos_bound (Z.abs (py_hash keyword)) 20 ltac:(lia)) as Hm.
      set (kh := (Z.abs (py_hash keyword) mod 20 - 10)%Z) in *.
      split; [|split; [|lia]].
      - unfold fdiv. rewrite (fl_proper _ 1) by reflexivity. apply fl_1.
      - assert (Hk : (Z.abs kh <= 2 ^ 53)%Z) by lia.
        assert (Htc : tc == inject_Z kh).
        { subst tc. unfold fadd, fmul, fdiv.
          assert (H1 : fl (inject_Z (25 - 25) / inject_Z 25) == 0).
          { rewrite (fl_proper _ 0) by reflexivity. apply fl_0. }
          assert (H2 : fl (fl (inject_Z (25 - 25) / inject_Z 25) * 100) == 0).
          { rewrite (fl_proper _ 0) by (rewrite H1; ring). apply fl_0. }
          rewrite (fl_proper _ (inject_Z kh)) by (rewrite H2; ring).
          apply fl_int; exact Hk. }
        unfold py_round.
        rewrite (fl_proper _ (inject_Z kh)); [apply fl_int; exact Hk|].
        rewrite <- (decimal_round_Z 0 kh).
        apply Qle_antisym; apply decimal_round_mono; rewrite Htc; lra. }
    destruct cat; try exact I; apply Hdef; reflexivity.
Qed.

(** The trend analysis returns for every keyword and category: the
    seasonal factor lies in [0, 2]; the direction agrees in sign with
    the rounded percentage, which can be 0 under 'up' or 'down'; for a
    category without a seasonal pattern of its own the factor is 1 and
    the percentage is the hash offset, an integer from -10 to 9. *)
Theorem trend_shape keyword cat :
  exists td,
    calculate_search_volume_trend fl py_hash now keyword cat = Return td
    /\ 0 <= td_seasonal_factor td <= 2
    /\ match td_trend_direction td with
       | up => 0 <= td_trend_percentage td
       | down => td_trend_percentage td <= 0
       | stable => td_trend_percentage td == 0
       end
    /\ match cat with
       | electronics | fashion | health => True
       | _ =>
           td_seasonal_factor td == 1
           /\ td_trend_percentage td
              == inject_Z (Z.abs (py_hash keyword) mod 20 - 10)
           /\ (-10 <= Z.abs (py_hash keyword) mod 20 - 10 <= 9)%Z
       end.
Proof. apply trend_returns_shape. Qed.

End TrendExtras.

Lemma trend_shape_witness :
  Rounding binary64
  /\ exists td,
       calculate_search_volume_trend binary64 sample_hash November
         (PyStr.u "yoga mat") sports = Return td
       /\ 0 <= td_seasonal_factor td <= 2.
Proof.
  split; [exact binary64_rounding|].
  destruct (trend_shape (R := binary64_rounding) sample_hash November
              (PyStr.u "yoga mat") sports) as (td & Htd & Hsf & _).
  exists td. split; assumption.
Defined.

(* ================================================================== *)
(** * Lower-casing in context *)
(* ================================================================== *)

Close Scope Q_scope.
Open Scope list_scope.
Open Scope nat_scope.

Lemma lower_from_between s before :
  PyStr.lower_from before s = lower_between before s [].
Proof.
  revert before. induction s as [|c s IH]; intros before; simpl; [reflexivity|].
  now rewrite app_nil_r, IH.
Qed.

Lemma lower_from_app s t before :
  PyStr.lower_from before (s ++ t)
  = lower_between before s t ++ PyStr.lower_from (rev s ++ before) t.
Proof.
  revert before. induction s as [|c s IH]; intros before; simpl; [reflexivity|].
  rewrite IH, <- !app_assoc. reflexivity.
Qed.

Lemma lower_between_sigma s :
  forall b1 a1 b2 a2,
    same_but_sigma (lower_between b1 s a1) (lower_between b2 s a2).
Proof.
  induction s as [|c s IH]; intros b1 a1 b2 a2; simpl; [constructor|].
  apply Forall2_app; [|apply IH].
  unfold PyStr.lower_at.
  destruct (c =? 304)%N; [repeat constructor; now left|].
  destruct (c =? 931)%N; [|repeat constructor; now left].
  constructor; [|constructor]. right.
  split; [destruct (PyStr.final_sigma b1 _)|destruct (PyStr.final_sigma b2 _)];
    auto.
Qed.

Lemma starts_with_sigma w :
  forall l l',
    Forall (fun c => c <> 962 /\ c <> 963)%N w ->
    same_but_sigma l l' ->
    PyStr.starts_with w l = true -> PyStr.starts_with w l' = true.
Proof.
  induction w as [|a w IH]; intros l l' Hw Hl; simpl; [reflexivity|].
  apply Forall_cons in Hw as [[Ha1 Ha2] Hw].
  destruct Hl as [|b b' l l' Hb Hl]; [discriminate|].
  intros H. apply andb_true_iff in H as [Hab H]. apply N.eqb_eq in Hab. subst b.
  apply andb_true_iff. split; [|now apply (IH l l')].
  apply N.eqb_eq. destruct Hb as [Hb|[[Hb|Hb] _]]; [exact Hb|contradiction..].
Qed.

Lemma contains_sigma w l :
  forall l',
    Forall (fun c => c <> 962 /\ c <> 963)%N w ->
    same_but_sigma l l' ->
    PyStr.contains w l = true -> PyStr.contains w l' = true.
Proof.
  induction l as [|b l IH]; intros l' Hw Hl.
  - apply Forall2_nil_inv_l in Hl as ->. auto.
  - pose proof Hl as Hl0.
    apply Forall2_cons_inv_l in Hl as (b' & l'' & Hb & Hl & ->).
    simpl. intros H. apply orb_true_iff in H as [H|H]; apply orb_true_iff.
    + left. exact (starts_with_sigma w (b :: l) (b' :: l'') Hw Hl0 H).
    + right. now apply (IH l'').
Qed.

Lemma starts_with_app p s b :
  PyStr.starts_with p s = true -> PyStr.starts_with p (s ++ b) = true.
Proof.
  revert s. induction p as [|c p IH]; intros s; simpl; [reflexivity|].
  destruct s as [|d s]; simpl; [discriminate|].
  intros H. apply andb_true_iff in H as [H1 H2].
  rewrite H1. simpl. now apply IH.
Qed.

Lemma contains_app_r w s b :
  PyStr.contains w s = true -> PyStr.contains w (s ++ b) = true.
Proof.
  induction s as [|c s IH]; simpl.
  - rewrite orb_false_r. intros H. destruct w; [|discriminate].
    destruct b; reflexivity.
  - intros H. apply orb_true_iff in H as [H|H]; apply orb_true_iff.
    + left. destruct w as [|a w]; [reflexivity|]. simpl in *.
      apply andb_true_iff in H as [H1 H2]. rewrite H1. simpl.
      now apply starts_with_app.
    + right. now apply IH.
Qed.

Lemma contains_app_l w a s :
  PyStr.contains w s = true -> PyStr.contains w (a ++ s) = true.
Proof.
  intros H. induction a as [|c a IH]; simpl; [exact H|].
  apply orb_true_iff. right. exact IH.
Qed.

Lemma literal_sigma_free w :
  Forall (fun c => c <> 962 /\ c <> 963)%N (PyStr.u w).
Proof.
  unfold PyStr.u. apply Forall_forall. intros c Hc.
  apply list_elem_of_fmap in Hc as (a & -> & _).
  pose proof (N_ascii_bounded a). lia.
Qed.

(** A literal word found in a lower-cased keyword is found in the
    lower-cased form of every phrase that holds the keyword. *)
Lemma any_in_context words a k b :
  PyStr.any_in words (PyStr.lower k) = true ->
  PyStr.any_in words (PyStr.lower (a ++ k ++ b)) = true.
Proof.
  unfold PyStr.any_in. intros H. apply existsb_exists in H as (w & Hin & Hw).
  apply existsb_exists. exists w. split; [exact Hin|].
  unfold PyStr.lower in *. rewrite lower_from_app, lower_from_app.
  apply contains_app_l, contains_app_r.
  rewrite lower_from_between in Hw.
  exact (contains_sigma _ _ _ (literal_sigma_free w)
           (lower_between_sigma k _ _ _ _) Hw).
Qed.

(* ================================================================== *)
(** * Further properties of suggestion expansion *)
(* ================================================================== *)


Lemma mem_spec x (l : list PyStr.str) : PyStr.mem x l = true <-> x ∈ l.
Proof.
  unfold PyStr.mem. rewrite existsb_exists. split.
  - intros (y & Hin & Heq). apply bool_decide_eq_true in Heq as ->.
    now apply list_elem_of_In.
  - intros Hin. exists x.
    split; [now apply list_elem_of_In|now apply bool_decide_eq_true].
Qed.

Lemma mem_false x (l : list PyStr.str) : PyStr.mem x l = false <-> x ∉ l.
Proof.
  rewrite <- mem_spec. destruct (PyStr.mem x l).
  - split; [discriminate|]. intros H. exfalso. now apply H.
  - split; [|reflexivity]. intros _ H. discriminate.
Qed.

Lemma swap_permutation {A} i j (x : list A) : swap i j x ≡ₚ x.
Proof.
  unfold swap.
  destruct (x !! i) as [a|] eqn:Ha; [|reflexivity].
  destruct (x !! j) as [b|] eqn:Hb; [|reflexivity].
  now apply Permutation_insert_swap.
Qed.

Lemma shuffle_loop_permutation {A} i :
  forall (x : list A) g, fst (shuffle_loop i x g) ≡ₚ x.
Proof.
  induction i as [|i IH]; intros x g; simpl; [reflexivity|].
  destruct (rng_randbelow (Z.of_nat (S i) + 1) g) as [j g'].
  rewrite IH. apply swap_permutation.
Qed.

Lemma unique_variations_loop_spec variations existing_lower :
  forall acc,
    NoDup acc -> Forall (fresh_variation existing_lower) acc ->
    NoDup (unique_variations_loop variations existing_lower acc)
    /\ Forall (fresh_variation existing_lower)
              (unique_variations_loop variations existing_lower acc).
Proof.
  induction variations as [|v rest IH]; intros acc Hnd Hall; simpl; [auto|].
  destruct (negb (PyStr.mem (PyStr.lower (PyStr.strip v)) existing_lower)
            && negb (PyStr.mem (PyStr.strip v) acc)
            && (2 <? PyStr.len (PyStr.strip v))%Z) eqn:E; [|now apply IH].
  apply andb_true_iff in E as [E Hlen]. apply andb_true_iff in E as [Hex Hacc].
  apply negb_true_iff, mem_false in Hex, Hacc. apply Z.ltb_lt in Hlen.
  apply IH.
  - apply NoDup_app. split; [exact Hnd|]. split; [|apply NoDup_singleton].
    intros x Hx Hx'. apply list_elem_of_singleton in Hx' as ->. contradiction.
  - apply Forall_app. split; [exact Hall|]. constructor; [|constructor].
    split; [apply strip_idem|]. split; assumption.
Qed.

Lemma py_prefix_length {A} (l : list A) k :
  (0 <= k)%Z -> (Z.of_nat (length (py_prefix l k)) <= k)%Z.
Proof. intros H. rewrite py_prefix_nonneg, length_take by assumption. lia. Qed.

(** The generated variations: for every seed, count of at least 0,
    list of existing suggestions and generator state, the call returns
    at most [count] strings, pairwise distinct, each trimmed, longer
    than two code points, not an existing suggestion in any case, and
    each one of the templates. *)
Theorem generated_suggestions_fresh (seed_keyword : PyStr.str) (count : Z)
    (existing_suggestions : list PyStr.str) (g : Rng) :
  (0 <= count)%Z ->
  exists l g',
    _generate_expanded_suggestions seed_keyword count existing_suggestions g
      = (Return l, g')
    /\ (Z.of_nat (length l) <= count)%Z
    /\ NoDup l
    /\ Forall (fresh_variation (map PyStr.lower existing_suggestions)) l
    /\ Forall (fun e => e ∈ map PyStr.strip
                 (variations_of seed_keyword
                    (map PyStr.lower existing_suggestions))) l.
Proof.
  intros Hcount.
  unfold _generate_expanded_suggestions, mbind, random_shuffle, mret.
  set (ex := map PyStr.lower existing_suggestions).
  set (u := unique_variations_loop (variations_of seed_keyword ex) ex []).
  pose proof (shuffle_loop_permutation (length u - 1) u g) as Hperm.
  destruct (shuffle_loop (length u - 1) u g) as [x' g'] eqn:Hsh. simpl in Hperm.
  destruct (unique_variations_loop_spec (variations_of seed_keyword ex) ex [])
    as [Hnd Hall]; [constructor|constructor|]. fold u in Hnd, Hall.
  exists (py_prefix x' count), g'. split; [reflexivity|].
  pose proof (py_prefix_sublist x' count) as Hsub.
  split; [now apply py_prefix_length|]. split; [|split].
  - eapply sublist_NoDup; [|exact Hsub]. now rewrite Hperm.
  - apply Forall_forall. intros e He.
    apply (sublist_subseteq _ _ Hsub) in He. rewrite Hperm in He.
    now apply (proj1 (Forall_forall _ _) Hall).
  - apply Forall_forall. intros e He.
    apply (sublist_subseteq _ _ Hsub) in He. rewrite Hperm in He.
    apply unique_variations_subseteq in He as [He|He]; [inversion He|exact He].
Qed.

Lemma generated_suggestions_fresh_witness :
  (0 <= 3)%Z
  /\ exists l g',
       _generate_expanded_suggestions (PyStr.u "yoga mat") 3 [] sample_rng
         = (Return l, g')
       /\ (Z.of_nat (length l) <= 3)%Z
       /\ NoDup l.
Proof.
  split; [lia|].
  destruct (generated_suggestions_fresh (PyStr.u "yoga mat") 3 [] sample_rng
              ltac:(lia)) as (l & g' & H1 & H2 & H3 & _).
  exists l, g'. split; [exact H1|]. split; [exact H2|exact H3].
Defined.

Open Scope string_scope.
Open Scope list_scope.
Open Scope nat_scope.

Lemma extract_loop_clean items :
  forall acc l,
    NoDup acc -> Forall clean_suggestion acc ->
    extract_loop items acc = Return l ->
    NoDup l /\ Forall clean_suggestion l.
Proof.
  induction items as [|item rest IH]; intros acc l Hnd Hall; simpl.
  - intros [= <-]. auto.
  - destruct (py_in "value" item) as [e|[|]]; simpl; [discriminate| |now apply IH].
    destruct (py_getitem item "value") as [e|value]; simpl; [discriminate|].
    destruct (py_strip value) as [e|keyword] eqn:Hstrip; simpl; [discriminate|].
    destruct (PyStr.truthy keyword && negb (PyStr.mem keyword acc)) eqn:E;
      [|now apply IH].
    apply andb_true_iff in E as [Ht Hm]. apply negb_true_iff, mem_false in Hm.
    apply IH.
    + apply NoDup_app. split; [exact Hnd|]. split; [|apply NoDup_singleton].
      intros x Hx Hx'. apply list_elem_of_singleton in Hx' as ->. contradiction.
    + apply Forall_app. split; [exact Hall|]. constructor; [|constructor].
      split; [exact Ht|].
      destruct value; try discriminate. unfold py_strip, Return in Hstrip.
      injection Hstrip as <-. apply strip_idem.
Qed.

Lemma find_existsb {A} (f : A -> bool) l x :
  find f l = Some x -> existsb f l = true.
Proof.
  intros H. apply find_some in H as [Hin Hf]. apply existsb_exists. eauto.
Qed.

Lemma extract_loop_well_formed items :
  forall acc,
    Forall (fun item => is_Some (suggestion_value item)) items ->
    exists l,
      extract_loop items acc = Return l
      /\ forall e, e ∈ l <->
           e ∈ acc
           \/ (PyStr.truthy e = true
               /\ exists item v, item ∈ items
                    /\ suggestion_value item = Some v /\ PyStr.strip v = e).
Proof.
  induction items as [|item rest IH]; intros acc Hwf.
  - exists acc. split; [reflexivity|]. intros e. split; [auto|].
    intros [H|(_ & it & v & Hin & _)]; [exact H|inversion Hin].
  - apply Forall_cons in Hwf as [[v Hv] Hwf].
    destruct item as [| | | | |kvs]; try discriminate.
    unfold suggestion_value in Hv.
    destruct (find (fun kv => bool_decide (PyStr.u "value" = fst kv)) kvs)
      as [[k [| | |s| |]]|] eqn:Hfind; try discriminate.
    injection Hv as ->.
    assert (Hstep : forall acc',
               extract_loop (JDict kvs :: rest) acc'
               = if PyStr.truthy (PyStr.strip v)
                    && negb (PyStr.mem (PyStr.strip v) acc')
                 then extract_loop rest (acc' ++ [PyStr.strip v])%list
                 else extract_loop rest acc').
    { intros acc'. cbn [extract_loop]. unfold py_in, py_getitem.
      rewrite (find_existsb _ _ _ Hfind), Hfind. reflexivity. }
    rewrite Hstep.
    assert (Hval : suggestion_value (JDict kvs) = Some v)
      by (unfold suggestion_value; now rewrite Hfind).
    destruct (PyStr.truthy (PyStr.strip v)
              && negb (PyStr.mem (PyStr.strip v) acc)) eqn:E.
    + apply andb_true_iff in E as [Ht Hm].
      destruct (IH (acc ++ [PyStr.strip v])%list Hwf) as (l & Hl & Hiff).
      exists l. split; [exact Hl|]. intros e. rewrite Hiff. split.
      * intros [H|(Hte & it & w & Hin & Hw & He)].
        -- apply elem_of_app in H as [H|H]; [now left|].
           apply list_elem_of_singleton in H as ->. right. split; [exact Ht|].
           exists (JDict kvs), v. split; [left|]. split; [exact Hval|reflexivity].
        -- right. split; [exact Hte|]. exists it, w. split; [now right|]. auto.
      * intros [H|(Hte & it & w & Hin & Hw & He)].
        -- left. apply elem_of_app. now left.
        -- apply elem_of_cons in Hin as [->|Hin].
           ++ left. apply elem_of_app. right. apply list_elem_of_singleton.
              rewrite Hval in Hw. injection Hw as <-. now symmetry.
           ++ right. split; [exact Hte|]. exists it, w. auto.
    + destruct (IH acc Hwf) as (l & Hl & Hiff).
      exists l. split; [exact Hl|]. intros e. rewrite Hiff. split.
      * intros [H|(Hte & it & w & Hin & Hw & He)]; [now left|].
        right. split; [exact Hte|]. exists it, w. split; [now right|]. auto.
      * intros [H|(Hte & it & w & Hin & Hw & He)]; [now left|].
        apply elem_of_cons in Hin as [->|Hin].
        -- rewrite Hval in Hw. injection Hw as <-. subst e.
           rewrite Hte in E. simpl in E. apply negb_false_iff, mem_spec in E.
           now left.
        -- right. split; [exact Hte|]. exists it, w. auto.
Qed.

Lemma autocomplete_clean (seed_keyword : PyStr.str)
    (o : http_outcome) :
  exists l,
    _get_amazon_autocomplete seed_keyword o = Return l
    /\ NoDup l
    /\ Forall clean_suggestion l.
Proof.
  unfold _get_amazon_autocomplete, try_except, autocomplete_request.
  assert (Hnil : exists l : list PyStr.str,
             Return (A := list PyStr.str) [] = Return l /\ NoDup l
             /\ Forall clean_suggestion l).
  { exists []. split; [reflexivity|]. split; constructor. }
  destruct o as [e|status [e|data]]; simpl.
  - destruct (inner_handlers e); exact Hnil.
  - destruct (status =? 200)%Z; simpl; [|exact Hnil].
    destruct (inner_handlers e); exact Hnil.
  - destruct (status =? 200)%Z; simpl; [|exact Hnil].
    destruct (extract_suggestions data) as [e|l] eqn:Hex; simpl.
    + destruct (inner_handlers e); exact Hnil.
    + exists l. split; [reflexivity|].
      unfold extract_suggestions in Hex.
      destruct (py_in "suggestions" data) as [e|[|]]; simpl in Hex;
        [discriminate| |injection Hex as <-; split; constructor].
      destruct (py_getitem data "suggestions") as [e|value]; simpl in Hex;
        [discriminate|].
      destruct (py_iter value) as [e|items]; simpl in Hex; [discriminate|].
      apply (extract_loop_clean items [] l); [constructor|constructor|exact Hex].
Qed.

(** Whatever the request comes to, the autocomplete step returns a
    list without repetition of non-empty, trimmed strings. *)
Theorem autocomplete_suggestions_clean (seed_keyword : PyStr.str)
    (o : http_outcome) :
  exists l,
    _get_amazon_autocomplete seed_keyword o = Return l
    /\ NoDup l
    /\ Forall clean_suggestion l.
Proof. apply autocomplete_clean. Qed.

(** For a 200 answer of the documented shape the suggestions are exactly
    the non-empty trimmed values of the items. *)
Theorem autocomplete_well_formed (seed_keyword : PyStr.str) (data : json)
    (items : list json) :
  well_formed_payload data items ->
  exists l,
    _get_amazon_autocomplete seed_keyword (Responds 200 (inr data)) = Return l
    /\ forall e, e ∈ l <->
         PyStr.truthy e = true
         /\ exists item v, item ∈ items
              /\ suggestion_value item = Some v /\ PyStr.strip v = e.
Proof.
  intros [(kvs & key & -> & Hfind) Hwf].
  destruct (extract_loop_well_formed items [] Hwf) as (l & Hl & Hiff).
  exists l. split.
  - unfold _get_amazon_autocomplete, try_except, autocomplete_request.
    assert (Hex : extract_suggestions (JDict kvs) = Return l).
    { unfold extract_suggestions, py_in, py_getitem.
      rewrite (find_existsb _ _ _ Hfind), Hfind. exact Hl. }
    cbn [Z.eqb Pos.eqb]. unfold ebind at 2. cbn beta iota. rewrite Hex.
    reflexivity.
  - intros e. rewrite Hiff. split; [|auto].
    intros [H|H]; [inversion H|exact H].
Qed.

Lemma autocomplete_well_formed_witness :
  let item := JDict [(PyStr.u "value", JStr (PyStr.u " yoga mat "))] in
  let data := JDict [(PyStr.u "suggestions", JList [item])] in
  well_formed_payload data [item]
  /\ exists l,
       _get_amazon_autocomplete (PyStr.u "yoga") (Responds 200 (inr data))
       = Return l.
Proof.
  intros item data.
  assert (Hwf : well_formed_payload data [item]).
  { split.
    - exists [(PyStr.u "suggestions", JList [item])], (PyStr.u "suggestions").
      split; reflexivity.
    - constructor; [|constructor]. exists (PyStr.u " yoga mat "). reflexivity. }
  split; [exact Hwf|].
  destruct (autocomplete_well_formed (PyStr.u "yoga") data [item] Hwf)
    as (l & Hl & _).
  exists l. exact Hl.
Defined.

Open Scope string_scope.
Open Scope nat_scope.

Lemma dedupe_loop_app a :
  forall b u (s : gset PyStr.str),
  exists kept, dedupe_loop (a ++ b) u s = (dedupe_loop a u s ++ kept)%list.
Proof.
  induction a as [|c a IH]; intros b u s; simpl.
  - destruct (dedupe_loop_spec b u s) as (kept & -> & _). eauto.
  - destruct (_ && _); apply IH.
Qed.

Lemma truthy_len s : (2 < PyStr.len s)%Z -> PyStr.truthy s = true.
Proof. destruct s; [unfold PyStr.len; simpl; lia|reflexivity]. Qed.

Lemma dedupe_loop_keys candidates :
  forall u (seen : gset PyStr.str),
    (forall k, k ∈ seen -> k ∈ map suggestion_key u) ->
    forall c, c ∈ candidates -> (2 < PyStr.len (suggestion_key c))%Z ->
              suggestion_key c ∈ map suggestion_key (dedupe_loop candidates u seen).
Proof.
  induction candidates as [|c0 rest IH]; intros u seen Hseen c Hin Hlen.
  - inversion Hin.
  - simpl. fold (suggestion_key c0).
    assert (Hkeep : forall k, k ∈ map suggestion_key u ->
                      forall u' seen', (exists t, u' = (u ++ t)%list) ->
                      k ∈ map suggestion_key (dedupe_loop rest u' seen')).
    { intros k Hk u' seen' [t ->].
      destruct (dedupe_loop_spec rest (u ++ t)%list seen') as (kept & -> & _).
      rewrite !map_app. apply elem_of_app. left. apply elem_of_app. now left. }
    destruct (PyStr.truthy (suggestion_key c0)
              && negb (bool_decide (suggestion_key c0 ∈ seen))
              && (2 <? PyStr.len (suggestion_key c0))%Z) eqn:E.
    + assert (Hseen' : forall k, k ∈ ({[suggestion_key c0]} ∪ seen : gset PyStr.str) ->
                         k ∈ map suggestion_key (u ++ [PyStr.strip c0])%list).
      { intros k Hk. rewrite map_app. apply elem_of_app.
        apply elem_of_union in Hk as [Hk|Hk].
        - right. apply elem_of_singleton in Hk as ->. simpl.
          rewrite suggestion_key_strip. left.
        - left. now apply Hseen. }
      apply elem_of_cons in Hin as [->|Hin].
      * destruct (dedupe_loop_spec rest (u ++ [PyStr.strip c0])%list
                    ({[suggestion_key c0]} ∪ seen)) as (kept & -> & _).
        rewrite !map_app. apply elem_of_app. left. apply elem_of_app. right.
        simpl. rewrite suggestion_key_strip. left.
      * now apply IH.
    + apply elem_of_cons in Hin as [->|Hin]; [|now apply IH].
      rewrite (truthy_len _ Hlen) in E.
      assert (Hl : (2 <? PyStr.len (suggestion_key c0))%Z = true)
        by (apply Z.ltb_lt; exact Hlen).
      rewrite Hl, andb_true_r in E. simpl in E.
      apply negb_false_iff, bool_decide_eq_true in E.
      apply Hkeep; [now apply Hseen|]. exists []. now rewrite app_nil_r.
Qed.

Lemma clean_map_strip l :
  Forall clean_suggestion l -> map PyStr.strip l = l.
Proof.
  induction 1 as [|x l [_ Hx] _ IH]; [reflexivity|]. simpl. now rewrite Hx, IH.
Qed.

(** The autocomplete suggestions take precedence: whatever is
    generated, the result starts with the deduplicated autocomplete
    suggestions, cut at [limit]. *)
Theorem suggestions_autocomplete_first (seed_keyword : PyStr.str) (limit : Z)
    (o : http_outcome) (g : Rng) :
  exists amazon l g',
    _get_amazon_autocomplete seed_keyword o = Return amazon
    /\ get_keyword_suggestions seed_keyword limit o g = (Return l, g')
    /\ py_prefix (dedupe_loop amazon [] ∅) limit `prefix_of` l.
Proof.
  destruct (autocomplete_returns seed_keyword o) as [amazon Ham].
  destruct (get_keyword_suggestions_eq seed_keyword limit o g) as [g' Hget].
  exists amazon. eexists. exists g'. split; [exact Ham|]. split; [exact Hget|].
  unfold candidate_suggestions. rewrite Ham. unfold Return.
  destruct (Z.ltb_spec (Z.of_nat (length amazon)) limit) as [Hlt|Hge];
    [|reflexivity].
  destruct (_generate_expanded_suggestions _ _ _ _) as [[e|expanded] g''];
    [reflexivity|].
  destruct (dedupe_loop_app amazon expanded [] ∅) as [kept ->].
  unfold py_prefix. destruct (Z.ltb_spec limit 0) as [Hneg|_]; [lia|].
  rewrite take_app. eexists. reflexivity.
Qed.

(** When the autocomplete answer already has [limit] suggestions or
    more (a negative [limit] included), nothing is generated: the
    random generator is left as it was and every suggestion returned is
    one of the autocomplete suggestions, in their order. *)
Theorem suggestions_without_expansion (seed_keyword : PyStr.str) (limit : Z)
    (o : http_outcome) (g : Rng) (amazon : list PyStr.str) :
  _get_amazon_autocomplete seed_keyword o = Return amazon ->
  (limit <= Z.of_nat (length amazon))%Z ->
  exists l,
    get_keyword_suggestions seed_keyword limit o g = (Return l, g)
    /\ l = py_prefix (dedupe_loop amazon [] ∅) limit
    /\ l `sublist_of` amazon.
Proof.
  intros Ham Hlimit.
  destruct (autocomplete_clean seed_keyword o)
    as (amazon' & Ham' & _ & Hclean).
  rewrite Ham in Ham'. injection Ham' as <-.
  exists (py_prefix (dedupe_loop amazon [] ∅) limit). split; [|split].
  - unfold get_keyword_suggestions, mbind, mlift, mret. rewrite Ham.
    unfold Return. cbv beta iota.
    destruct (Z.ltb_spec (Z.of_nat (length amazon)) limit) as [Hlt|_]; [lia|].
    reflexivity.
  - reflexivity.
  - etrans; [apply py_prefix_sublist|].
    destruct (dedupe_loop_spec amazon [] ∅) as (kept & -> & Hsub & _).
    simpl. now rewrite (clean_map_strip amazon Hclean) in Hsub.
Qed.

Lemma suggestions_without_expansion_witness :
  let o := Responds 200
             (inr (JDict [(PyStr.u "suggestions",
                           JList [JDict [(PyStr.u "value",
                                          JStr (PyStr.u "yoga mat"))]])])) in
  _get_amazon_autocomplete (PyStr.u "yoga") o = Return [PyStr.u "yoga mat"]
  /\ (1 <= Z.of_nat (length [PyStr.u "yoga mat"]))%Z
  /\ exists l,
       get_keyword_suggestions (PyStr.u "yoga") 1 o sample_rng
       = (Return l, sample_rng).
Proof.
  intros o.
  assert (H1 : _get_amazon_autocomplete (PyStr.u "yoga") o
               = Return [PyStr.u "yoga mat"]) by reflexivity.
  assert (H2 : (1 <= Z.of_nat (length [PyStr.u "yoga mat"]))%Z)
    by (simpl; lia).
  split; [exact H1|]. split; [exact H2|].
  destruct (suggestions_without_expansion (PyStr.u "yoga") 1 o sample_rng
              [PyStr.u "yoga mat"] H1 H2) as (l & Hl & _).
  exists l. exact Hl.
Defined.

(** No key is lost: a candidate whose key is longer than two characters
    has its key among the returned suggestions, unless the result is
    full. *)
Theorem suggestions_keep_every_key (seed_keyword : PyStr.str) (limit : Z)
    (o : http_outcome) (g : Rng) (c : PyStr.str) :
  (0 <= limit)%Z ->
  c ∈ candidate_suggestions seed_keyword limit o g ->
  (2 < PyStr.len (suggestion_key c))%Z ->
  exists l g',
    get_keyword_suggestions seed_keyword limit o g = (Return l, g')
    /\ (suggestion_key c ∈ map suggestion_key l
        \/ Z.of_nat (length l) = limit).
Proof.
  intros Hlimit Hin Hlen.
  destruct (get_keyword_suggestions_eq seed_keyword limit o g) as [g' Hget].
  eexists. exists g'. split; [exact Hget|].
  set (d := dedupe_loop (candidate_suggestions seed_keyword limit o g) [] ∅).
  assert (Hd : suggestion_key c ∈ map suggestion_key d).
  { apply dedupe_loop_keys; [|exact Hin|exact Hlen].
    intros k Hk. apply elem_of_empty in Hk as []. }
  unfold py_prefix. destruct (Z.ltb_spec limit 0) as [Hneg|_]; [lia|].
  destruct (le_lt_dec (length d) (Z.to_nat limit)) as [Hle|Hgt].
  - left. now rewrite take_ge by exact Hle.
  - right. rewrite length_take. lia.
Qed.

Lemma suggestions_keep_every_key_witness :
  let o := Responds 200
             (inr (JDict [(PyStr.u "suggestions",
                           JList [JDict [(PyStr.u "value",
                                          JStr (PyStr.u "yoga mat"))]])])) in
  (0 <= 1)%Z
  /\ PyStr.u "yoga mat" ∈ candidate_suggestions (PyStr.u "yoga") 1 o sample_rng
  /\ (2 < PyStr.len (suggestion_key (PyStr.u "yoga mat")))%Z
  /\ exists l g',
       get_keyword_suggestions (PyStr.u "yoga") 1 o sample_rng
       = (Return l, g').
Proof.
  intros o.
  assert (H1 : PyStr.u "yoga mat"
               ∈ candidate_suggestions (PyStr.u "yoga") 1 o sample_rng)
    by (vm_compute; constructor).
  assert (H2 : (2 < PyStr.len (suggestion_key (PyStr.u "yoga mat")))%Z)
    by (vm_compute; reflexivity).
  split; [lia|]. split; [exact H1|]. split; [exact H2|].
  destruct (suggestions_keep_every_key (PyStr.u "yoga") 1 o sample_rng
              (PyStr.u "yoga mat") ltac:(lia) H1 H2) as (l & g' & Hl & _).
  exists l, g'. exact Hl.
Defined.

(* ================================================================== *)
(** * Further properties of bulk and competitor analysis *)
(* ================================================================== *)


Lemma record_for_schedule_free fl py_hash now s gi gj :
  forget_aba_record
    (record_for fl py_hash (enhanced_ai_predictor fl py_hash now) s gi)
  = forget_aba_record
      (record_for fl py_hash (enhanced_ai_predictor fl py_hash now) s gj).
Proof.
  unfold record_for, enhanced_ai_predictor.
  destruct (predict_returns fl py_hash now s gi) as (vd & aba & g' & Hvd & ->).
  destruct (predict_returns fl py_hash now s gj) as (vd' & aba' & g'' & Hvd' & ->).
  rewrite Hvd in Hvd'. injection Hvd' as <-. reflexivity.
Qed.

(** With the repository's predictor the records of a bulk analysis do
    not depend on the order in which the tasks complete, nor on the
    state of the random generator, except in the three simulated ABA
    fields. *)
Theorem bulk_schedule_insensitive (fl : Q -> Q) (py_hash : PyStr.str -> Z)
    (now : Month) (scheduler1 scheduler2 : nat -> list nat)
    (keywords : list PyStr.str) (g1 g2 : Rng) :
  let bulk := get_bulk_keyword_analysis fl py_hash
                (enhanced_ai_predictor fl py_hash now) in
  exists rs1 rs2 g1' g2',
    bulk scheduler1 (map PyStr keywords) g1 = (Return rs1, g1')
    /\ bulk scheduler2 (map PyStr keywords) g2 = (Return rs2, g2')
    /\ map forget_aba_record rs1 = map forget_aba_record rs2.
Proof.
  intros bulk.
  destruct (bulk_of_strings fl py_hash (enhanced_ai_predictor fl py_hash now)
              scheduler1 keywords g1) as (rs1 & g1' & H1 & Hall1).
  destruct (bulk_of_strings fl py_hash (enhanced_ai_predictor fl py_hash now)
              scheduler2 keywords g2) as (rs2 & g2' & H2 & Hall2).
  exists rs1, rs2, g1', g2'. split; [exact H1|]. split; [exact H2|].
  clear H1 H2. revert rs2 Hall2.
  induction Hall1 as [|s r1 keywords rs1 [gi ->] _ IH]; intros rs2 Hall2.
  - apply Forall2_nil_inv_l in Hall2 as ->. reflexivity.
  - apply Forall2_cons_inv_l in Hall2 as (r2 & rs2' & [gj ->] & Hall2 & ->).
    simpl. rewrite (record_for_schedule_free fl py_hash now s gi gj).
    f_equal. now apply IH.
Qed.

Lemma insert_desc_perm x l : insert_desc x l ≡ₚ x :: l.
Proof.
  induction l as [|y r IH]; simpl; [reflexivity|].
  destruct (_ <=? _)%Z; [reflexivity|].
  rewrite IH. apply Permutation_swap.
Qed.

Lemma sort_by_magnet_perm l : sort_by_magnet l ≡ₚ l.
Proof.
  induction l as [|x l IH]; simpl; [reflexivity|].
  rewrite insert_desc_perm. now rewrite IH.
Qed.

Lemma descending_cons x l :
  descending_by_magnet (x :: l) <->
  Forall (fun b => (kr_magnet_iq_score b <= kr_magnet_iq_score x)%Z) l
  /\ descending_by_magnet l.
Proof.
  unfold descending_by_magnet. split.
  - intros H. split.
    + apply Forall_lookup. intros j b Hb.
      apply (H 0 (S j) x b); [lia|reflexivity|exact Hb].
    + intros i j a b Hij Ha Hb. apply (H (S i) (S j) a b); [lia|exact Ha|exact Hb].
  - intros [Hall Hd] i j a b Hij Ha Hb.
    destruct j as [|j]; [lia|]. simpl in Hb.
    destruct i as [|i].
    + injection Ha as <-. eapply Forall_lookup_1 in Hall; [exact Hall|exact Hb].
    + simpl in Ha. apply (Hd i j a b); [lia|exact Ha|exact Hb].
Qed.

Lemma insert_desc_descending x l :
  descending_by_magnet l -> descending_by_magnet (insert_desc x l).
Proof.
  induction l as [|y r IH]; intros Hd; simpl.
  - apply descending_cons. split; [constructor|exact Hd].
  - destruct (Z.leb_spec (kr_magnet_iq_score y) (kr_magnet_iq_score x))
      as [Hle|Hgt].
    + apply descending_cons. split; [|exact Hd].
      apply descending_cons in Hd as [Hall _].
      constructor; [exact Hle|].
      eapply Forall_impl; [exact Hall|]. simpl. intros b Hb. lia.
    + apply descending_cons in Hd as [Hall Hd].
      apply descending_cons. split; [|now apply IH].
      rewrite insert_desc_perm. constructor; [lia|exact Hall].
Qed.

Lemma sort_by_magnet_descending l : descending_by_magnet (sort_by_magnet l).
Proof.
  induction l as [|x l IH]; simpl.
  - intros i j a b _ Ha. inversion Ha.
  - now apply insert_desc_descending.
Qed.

Lemma with_magnet_insert m x l :
  with_magnet m (insert_desc x l) = with_magnet m (x :: l).
Proof.
  unfold with_magnet. induction l as [|y r IH]; [reflexivity|].
  simpl insert_desc.
  destruct (Z.leb_spec (kr_magnet_iq_score y) (kr_magnet_iq_score x))
    as [Hle|Hgt]; [reflexivity|].
  simpl in *. rewrite IH.
  destruct (Z.eqb_spec (kr_magnet_iq_score y) m) as [Hy|Hy];
    destruct (Z.eqb_spec (kr_magnet_iq_score x) m) as [Hx|Hx];
    try reflexivity. lia.
Qed.

(** [sort_by_magnet] is the stable descending sort: it permutes the
    records, puts them in descending order of magnet score, and keeps
    the records of one score in the order they had. *)
Theorem sort_by_magnet_stable (l : list keyword_record) :
  sort_by_magnet l ≡ₚ l
  /\ descending_by_magnet (sort_by_magnet l)
  /\ forall m, with_magnet m (sort_by_magnet l) = with_magnet m l.
Proof.
  split; [apply sort_by_magnet_perm|]. split; [apply sort_by_magnet_descending|].
  intros m. induction l as [|x l IH]; [reflexivity|].
  simpl sort_by_magnet. rewrite with_magnet_insert.
  unfold with_magnet in *. simpl. now rewrite IH.
Qed.

Lemma count_bounds {A} (p : A -> bool) (l : list A) :
  (0 <= Z.of_nat (length (List.filter p l)) <= Z.of_nat (length l))%Z.
Proof.
  split; [lia|]. apply inj_le. induction l as [|x l IH]; simpl; [lia|].
  destruct (p x); simpl; lia.
Qed.

(** A competitor analysis with keywords never fails, whatever the
    predictor does: the report holds one record per suggestion, in
    descending order of magnet score; its top opportunity is the first
    record, of maximal score; its counters lie between 0 and the number
    of records. *)
Theorem competitor_report_sorted (fl : Q -> Q) (py_hash : PyStr.str -> Z)
    (predictor : pyobj -> M ai_data) (scheduler : nat -> list nat)
    (loop_time : Q) (primary_keyword : PyStr.str) (limit : Z)
    (o : http_outcome) (g : Rng) :
  exists related g1 report g',
    get_keyword_suggestions primary_keyword limit o g = (Return related, g1)
    /\ get_competitor_analysis fl py_hash predictor scheduler loop_time
         primary_keyword limit o g = (Return report, g')
    /\ cr_primary_keyword report = primary_keyword
    /\ cr_total_found report = Z.of_nat (length related)
    /\ map kr_keyword (cr_competitor_keywords report) ≡ₚ related
    /\ descending_by_magnet (cr_competitor_keywords report)
    /\ match cr_analysis_summary report with
       | SummaryText _ => related = []
       | SummaryStats st =>
           related <> []
           /\ top_opportunity st = head (cr_competitor_keywords report)
           /\ match top_opportunity st with
              | Some top =>
                  Forall (fun r => (kr_magnet_iq_score r
                                    <= kr_magnet_iq_score top)%Z)
                         (cr_competitor_keywords report)
              | None => False
              end
           /\ (0 <= high_opportunity_count st <= cr_total_found report)%Z
           /\ (0 <= low_competition_keywords st <= cr_total_found report)%Z
           /\ (0 <= high_volume_keywords st <= cr_total_found report)%Z
       end.
Proof.
  destruct (get_keyword_suggestions_eq primary_keyword limit o g) as [g1 Hget].
  set (related := py_prefix _ limit) in Hget.
  exists related, g1. unfold get_competitor_analysis, mbind. rewrite Hget.
  unfold Return. cbv beta iota.
  destruct related as [|k0 related0] eqn:Hrel.
  - eexists. exists g1. unfold mret.
    split; [reflexivity|]. split; [reflexivity|]. simpl.
    repeat split; try reflexivity. intros i j a b _ Ha. inversion Ha.
  - clear Hrel Hget related. set (related := k0 :: related0).
    destruct (bulk_of_strings fl py_hash predictor scheduler related g1)
      as (rs & g' & Hbulk & Hall).
    rewrite Hbulk. cbv beta iota. unfold mret.
    eexists. exists g'. split; [reflexivity|]. split; [reflexivity|].
    cbn [cr_primary_keyword cr_total_found cr_competitor_keywords
         cr_analysis_summary].
    assert (Hkeys : map kr_keyword rs = related).
    { clear -Hall. induction Hall as [|kw r kws rs [gi ->] _ IH]; [reflexivity|].
      simpl. now rewrite record_for_keyword, IH. }
    pose proof (sort_by_magnet_perm rs) as Hperm.
    assert (Hlen : length (sort_by_magnet rs) = length related).
    { rewrite (Permutation_length Hperm), <- Hkeys. now rewrite length_map. }
    split; [reflexivity|]. split; [now rewrite Hlen|].
    split; [now rewrite Hperm, Hkeys|].
    split; [apply sort_by_magnet_descending|].
    pose proof (sort_by_magnet_descending rs) as Hdesc.
    destruct (sort_by_magnet rs) as [|top sorted] eqn:Hsorted.
    { discriminate. }
    unfold summarize. cbn [top_opportunity high_opportunity_count
                           low_competition_keywords high_volume_keywords head].
    split; [discriminate|]. split; [reflexivity|]. split.
    + apply descending_cons in Hdesc as [Htop _].
      constructor; [lia|exact Htop].
    + unfold count. split; [|split]; apply count_bounds.
Qed.

(* ================================================================== *)
(** * Categories, intent and the ranges of the records *)
(* ================================================================== *)

Open Scope string_scope.
Open Scope Z_scope.

(** The categories are tried in a fixed order and the first whose word
    occurs wins, so putting a keyword into a longer phrase never moves
    it to a later category. *)
Theorem categorize_context_priority (a k b : PyStr.str) :
  category_rank (categorize_keyword (a ++ k ++ b)%list)
  <= category_rank (categorize_keyword k).
Proof.
  unfold categorize_keyword.
  repeat match goal with
  | |- context [PyStr.any_in ?ws (PyStr.lower k)] =>
      let E := fresh "E" in
      destruct (PyStr.any_in ws (PyStr.lower k)) eqn:E;
      [try rewrite (any_in_context ws a k b E)
      |destruct (PyStr.any_in ws (PyStr.lower (a ++ k ++ b)%list))]
  end; simpl; lia.
Qed.

Lemma intent_score_lower (keyword : PyStr.str) :
  5 <= _calculate_intent_score keyword <= 10.
Proof.
  unfold _calculate_intent_score.
  repeat match goal with
  | |- context [if ?b then _ else _] => destruct b
  end; lia.
Qed.

(** The intent score never falls below its base of 5: no rule of
    [_calculate_intent_score] subtracts, so the score lies in 5..10. *)
Theorem intent_score_at_least_base (keyword : PyStr.str) :
  5 <= _calculate_intent_score keyword <= 10.
Proof. apply intent_score_lower. Qed.

Open Scope Q_scope.

Section RecordRanges.
Context {fl : Q -> Q} {R : Rounding fl}.
Variable py_hash : PyStr.str -> Z.
Variable now : Month.

Lemma ratio_unit (n d : Z) :
  (0 <= n <= d)%Z -> (0 < d)%Z ->
  0 <= py_round fl (fdiv fl (inject_Z n) (inject_Z d)) 2 <= 1.
Proof.
  intros Hn Hd.
  assert (Hd' : 0 < inject_Z d)
    by (change 0 with (inject_Z 0); rewrite <- Zlt_Qlt; lia).
  split.
  - apply py_round_nonneg, fdiv_nonneg; [apply inject_Z_nonneg; lia|lra].
  - apply (py_round_le_int _ _ 1); [simpl; lia|].
    unfold fdiv. apply (fl_le_int 1); [simpl; lia|].
    apply Qle_shift_div_r; [exact Hd'|].
    change (inject_Z 1) with 1. rewrite Qmult_1_l. rewrite <- Zle_Qle. lia.
Qed.

(** The fallback record: every field derived from the hash lies in a
    fixed range, and the competition level and the trend direction are
    both read off [keyword_hash % 3], so they always go together. *)
Theorem fallback_record_ranges (keyword : PyStr.str) :
  let r := _get_basic_keyword_data fl py_hash keyword in
  (2000 <= kr_search_volume r <= 9999)%Z
  /\ (10 <= kr_organic_competitors r <= 49)%Z
  /\ (5 <= kr_sponsored_competitors r <= 24)%Z
  /\ (20 <= kr_magnet_iq_score r <= 99)%Z
  /\ (1 <= kr_sponsored_rank r <= 40)%Z
  /\ (5 <= kr_intent_score r <= 10)%Z
  /\ 8 <= kr_estimated_cpc_inr r <= 22
  /\ -20 <= kr_trend_percentage r <= 19
  /\ 0 <= kr_competition_score r <= 1
  /\ match kr_competition r, kr_trend_direction r with
     | low, up | medium, stable | high, down => True
     | _, _ => False
     end.
Proof.
  intros r. subst r. unfold _get_basic_keyword_data.
  set (h := Z.abs (py_hash keyword)).
  cbn [kr_search_volume kr_organic_competitors kr_sponsored_competitors
       kr_magnet_iq_score kr_sponsored_rank kr_intent_score
       kr_estimated_cpc_inr kr_trend_percentage kr_competition_score
       kr_competition kr_trend_direction].
  pose proof (Z.mod_pos_bound h 8000 ltac:(lia)).
  pose proof (Z.mod_pos_bound h 40 ltac:(lia)).
  pose proof (Z.mod_pos_bound h 20 ltac:(lia)).
  pose proof (Z.mod_pos_bound h 80 ltac:(lia)).
  pose proof (Z.mod_pos_bound h 15 ltac:(lia)).
  pose proof (Z.mod_pos_bound h 100 ltac:(lia)).
  pose proof (Z.mod_pos_bound h 3 ltac:(lia)) as Hmod3.
  repeat match goal with |- _ /\ _ => split end; try lia.
  - apply intent_score_lower.
  - apply intent_score_lower.
  - change 8 with (inject_Z 8). rewrite <- Zle_Qle. lia.
  - change 22 with (inject_Z 22). rewrite <- Zle_Qle. lia.
  - change (-20) with (inject_Z (-20)). rewrite <- Zle_Qle. lia.
  - change 19 with (inject_Z 19). rewrite <- Zle_Qle. lia.
  - apply (ratio_unit (h mod 100) 100); lia.
  - apply (ratio_unit (h mod 100) 100); lia.
  - assert (Hc : (h mod 3 = 0 \/ h mod 3 = 1 \/ h mod 3 = 2)%Z) by lia.
    destruct Hc as [->|[->| ->]]; exact I.
Qed.

Lemma rng_random_unit g : 0 <= fst (rng_random g) <= 1.
Proof.
  unfold rng_random. destruct (rng_next g) as [x gx]. cbn [fst].
  pose proof (N.mod_upper_bound x (2 ^ 53) ltac:(discriminate)) as Hx.
  unfold Qle. cbn [Qnum Qden].
  change (Z.pos (2 ^ 53)) with 9007199254740992%Z.
  change (2 ^ 53)%N with 9007199254740992%N in *.
  set (y := (x mod 9007199254740992)%N) in *. clearbody y. lia.
Qed.

Lemma random_uniform_draw a b g :
  exists r g',
    random_uniform fl a b g
    = (Return (fadd fl a (fmul fl (fsub fl b a) r)), g')
    /\ 0 <= r <= 1.
Proof.
  unfold random_uniform. pose proof (rng_random_unit g) as Hr.
  destruct (rng_random g) as [r g']. cbn [fst] in Hr.
  exists r, g'. split; [reflexivity|exact Hr].
Qed.

Lemma random_randint_range a b g :
  (a <= b)%Z ->
  exists r g', random_randint a b g = (Return r, g') /\ (a <= r <= b)%Z.
Proof.
  intros Hab. unfold random_randint, rng_randbelow.
  destruct (rng_next g) as [x g'].
  do 2 eexists. split; [reflexivity|].
  pose proof (Z.mod_pos_bound (Z.of_N x) (b - a + 1) ltac:(lia)). lia.
Qed.

Lemma predict_returns_aba keyword g :
  exists vd r1 r2 rank g',
    estimate_enhanced_search_volume fl py_hash now keyword
      (categorize_keyword keyword) = Return vd
    /\ predict_optimal_bid_enhanced fl py_hash now keyword g
       = (Return (compose_prediction fl py_hash keyword
                    (categorize_keyword keyword) vd
                    {| click_share :=
                         py_round fl
                           (fadd fl (lit fl (1 # 10))
                              (fmul fl (fsub fl 5 (lit fl (1 # 10))) r1)) 2;
                       conversion_share :=
                         py_round fl
                           (fadd fl (lit fl (5 # 100))
                              (fmul fl (fsub fl 3 (lit fl (5 # 100))) r2)) 2;
                       aba_sponsored_rank := rank |}), g')
    /\ 0 <= r1 <= 1
    /\ 0 <= r2 <= 1
    /\ (1 <= rank <= 50)%Z.
Proof.
  destruct (volume_returns fl py_hash now keyword (categorize_keyword keyword))
    as (vd & c & Hvd & _).
  exists vd. unfold predict_optimal_bid_enhanced, mbind, mlift. rewrite Hvd.
  unfold Return at 1. cbv beta iota.
  destruct (random_uniform_draw (lit fl (1 # 10)) 5 g) as (r1 & g1 & -> & Hr1).
  unfold Return at 1. cbv beta iota.
  destruct (random_uniform_draw (lit fl (5 # 100)) 3 g1) as (r2 & g2 & -> & Hr2).
  unfold Return at 1. cbv beta iota.
  destruct (random_randint_range 1 50 g2) as (x3 & g3 & -> & Hx3); [lia|].
  unfold Return at 1. cbv beta iota. unfold mret.
  exists r1, r2, x3, g3. split; [reflexivity|]. split; [reflexivity|]. tauto.
Qed.

Lemma uniform_nonneg a (b : Z) r :
  0 <= a -> a <= inject_Z b -> (Z.abs b <= 2 ^ 53)%Z -> 0 <= r ->
  0 <= py_round fl (fadd fl (lit fl a)
                      (fmul fl (fsub fl (inject_Z b) (lit fl a)) r)) 2.
Proof.
  intros Ha Hab Hb Hr. apply py_round_nonneg.
  apply fadd_nonneg; [apply fl_nonneg; exact Ha|].
  apply fmul_nonneg; [|exact Hr]. unfold fsub. apply fl_nonneg.
  assert (lit fl a <= inject_Z b) by (apply fl_le_int; assumption). lra.
Qed.

Lemma uniform_between a (b : Z) r :
  0 <= a -> a <= inject_Z b -> (Z.abs b <= 2 ^ 53)%Z -> 0 <= r <= 1 ->
  let u t := py_round fl (fadd fl (lit fl a)
                            (fmul fl (fsub fl (inject_Z b) (lit fl a)) t)) 2 in
  u 0 <= u r /\ u r <= u 1.
Proof.
  intros Ha Hab Hb Hr u. subst u. cbv beta.
  assert (Hd : 0 <= fsub fl (inject_Z b) (lit fl a)).
  { unfold fsub. apply fl_nonneg.
    assert (lit fl a <= inject_Z b) by (apply fl_le_int; assumption). lra. }
  split; apply py_round_mono, fadd_mono; try lra; apply fmul_mono_r;
    try exact Hd; tauto.
Qed.

(** The record the scraper builds with the repository's predictor: the
    call returns the enhanced record, and its fields lie in the ranges
    the keyword schema declares. *)
Theorem scored_record_ranges (s : PyStr.str) (g : Rng) :
  exists r g',
    get_enhanced_keyword_data fl py_hash (enhanced_ai_predictor fl py_hash now)
      (PyStr s) g = (Return r, g')
    /\ kr_keyword r = s
    /\ kr_data_source r = "Enhanced AI + Amazon Data"%string
    /\ kr_category r = categorize_keyword s
    /\ (1 <= kr_magnet_iq_score r <= 100)%Z
    /\ (5 <= kr_intent_score r <= 10)%Z
    /\ (1 <= kr_sponsored_rank r <= 50)%Z
    /\ (0 <= kr_search_volume r)%Z
    /\ (0 <= kr_organic_competitors r <= 79)%Z
    /\ (0 <= kr_sponsored_competitors r <= 34)%Z
    /\ 0 <= kr_competition_score r <= 1
    /\ 0 <= kr_estimated_cpc_inr r
    /\ 0 <= kr_seasonal_factor r <= 2
    /\ 0 <= kr_aba_click_share r
    /\ 0 <= kr_aba_conversion_share r.
Proof.
  destruct (predict_returns_aba s g)
    as (vd & r1 & r2 & rank & g' & Hvd & Hp & Hr1 & Hr2 & Hrank).
  set (aba := {| click_share := _ |}) in Hp.
  assert (Hclick : 0 <= click_share aba).
  { apply (uniform_nonneg (1 # 10) 5); [lra|discriminate|simpl; lia|tauto]. }
  assert (Hconv : 0 <= conversion_share aba).
  { apply (uniform_nonneg (5 # 100) 3); [lra|discriminate|simpl; lia|tauto]. }
  assert (Hrk : (1 <= aba_sponsored_rank aba <= 50)%Z) by exact Hrank.
  clearbody aba.
  destruct (trend_returns_shape py_hash now s (categorize_keyword s))
    as (td & Htd & Hsf & _).
  assert (Htd' : vd_trend_data vd = td).
  { unfold estimate_enhanced_search_volume in Hvd. rewrite Htd in Hvd.
    cbn [ebind] in Hvd. unfold Return in Hvd. injection Hvd as <-. reflexivity. }
  pose proof (competitor_counts_range py_hash s) as [Horg Hspo].
  pose proof (competition_score_unit py_hash s) as Hscore.
  pose proof (search_volume_nonneg py_hash now s _ vd Hvd) as Hsv.
  pose proof (predicted_cpc_nonneg py_hash now s vd aba Hvd) as Hcpc.
  unfold get_enhanced_keyword_data, mtry, mbind, mlift, enhanced_ai_predictor.
  rewrite Hp. unfold Return at 1. cbv beta iota. cbn [str_method].
  do 2 eexists. split; [reflexivity|].
  unfold enhanced_record.
  cbn [kr_keyword kr_data_source kr_category kr_magnet_iq_score
       kr_intent_score kr_sponsored_rank kr_search_volume
       kr_organic_competitors kr_sponsored_competitors kr_competition_score
       kr_estimated_cpc_inr kr_seasonal_factor kr_aba_click_share
       kr_aba_conversion_share].
  split; [reflexivity|]. split; [reflexivity|]. split; [reflexivity|].
  split; [apply magnet_in_range|].
  split; [apply intent_score_lower|].
  split; [exact Hrk|]. split; [exact Hsv|].
  split; [exact Horg|]. split; [exact Hspo|]. split; [exact Hscore|].
  split; [exact Hcpc|].
  split; [cbn [compose_prediction ai_trend_data]; rewrite Htd'; exact Hsf|].
  split; assumption.
Qed.

End RecordRanges.

Lemma fallback_record_ranges_witness :
  Rounding binary64
  /\ (2000 <= kr_search_volume
               (_get_basic_keyword_data binary64 sample_hash
                  (PyStr.u "yoga mat")) <= 9999)%Z.
Proof.
  split; [exact binary64_rounding|].
  exact (proj1 (fallback_record_ranges (R := binary64_rounding) sample_hash
                  (PyStr.u "yoga mat"))).
Defined.

Lemma scored_record_ranges_witness :
  Rounding binary64
  /\ exists r g',
       get_enhanced_keyword_data binary64 sample_hash
         (enhanced_ai_predictor binary64 sample_hash November)
         (PyStr (PyStr.u "yoga mat")) sample_rng = (Return r, g')
       /\ kr_keyword r = PyStr.u "yoga mat".
Proof.
  split; [exact binary64_rounding|].
  destruct (scored_record_ranges (R := binary64_rounding) sample_hash November
              (PyStr.u "yoga mat") sample_rng) as (r & g' & Hr & Hk & _).
  exists r, g'. split; [exact Hr|exact Hk].
Defined.

Lemma Qle_eq_l a b c : a == b -> a <= c -> b <= c.
Proof. intros H1 H2. rewrite <- H1. exact H2. Qed.

Lemma Qle_eq_r a b c : a == b -> c <= a -> c <= b.
Proof. intros H1 H2. rewrite <- H1. exact H2. Qed.

Section Between.
Context {fl : Q -> Q} {R : Rounding fl}.
Variable py_hash : PyStr.str -> Z.
Variable now : Month.

Lemma scored_record_between (s : PyStr.str) (g : Rng) :
  exists r g',
    get_enhanced_keyword_data fl py_hash (enhanced_ai_predictor fl py_hash now)
      (PyStr s) g = (Return r, g')
    /\ confidence_at fl 1 <= kr_confidence r
    /\ kr_confidence r <= confidence_at fl 0
    /\ uniform_at fl (1 # 10) 5 0 <= kr_aba_click_share r
    /\ kr_aba_click_share r <= uniform_at fl (1 # 10) 5 1
    /\ uniform_at fl (5 # 100) 3 0 <= kr_aba_conversion_share r
    /\ kr_aba_conversion_share r <= uniform_at fl (5 # 100) 3 1.
Proof.
  destruct (predict_returns_aba (fl := fl) py_hash now s g)
    as (vd & r1 & r2 & rank & g' & Hvd & Hp & Hr1 & Hr2 & Hrank).
  set (aba := {| click_share := _ |}) in Hp.
  pose proof (confidence_between py_hash s vd aba (categorize_keyword s)) as Hc.
  pose proof (uniform_between (1 # 10) 5 r1
                ltac:(lra) ltac:(discriminate) ltac:(simpl; lia) Hr1) as Hu1.
  pose proof (uniform_between (5 # 100) 3 r2
                ltac:(lra) ltac:(discriminate) ltac:(simpl; lia) Hr2) as Hu2.
  cbv zeta beta in Hc, Hu1, Hu2.
  unfold get_enhanced_keyword_data, mtry, mbind, mlift, enhanced_ai_predictor.
  rewrite Hp. unfold Return at 1. cbv beta iota. cbn [str_method].
  do 2 eexists. split; [reflexivity|].
  unfold enhanced_record.
  cbn [kr_confidence kr_aba_click_share kr_aba_conversion_share].
  unfold confidence_at, uniform_at.
  change (ai_aba_data (compose_prediction fl py_hash s (categorize_keyword s) vd aba))
    with aba.
  subst aba. cbn [click_share conversion_share].
  change (inject_Z 5) with 5 in Hu1. change (inject_Z 3) with 3 in Hu2.
  tauto.
Qed.

Lemma fallback_between (keyword : PyStr.str) :
  let r := _get_basic_keyword_data fl py_hash keyword in
  fallback_at fl (5 # 10) 0 <= kr_confidence r
  /\ kr_confidence r <= fallback_at fl (5 # 10) 29
  /\ fallback_at fl (8 # 10) 0 <= kr_seasonal_factor r
  /\ kr_seasonal_factor r <= fallback_at fl (8 # 10) 39.
Proof.
  intros r. subst r. unfold _get_basic_keyword_data.
  cbn [kr_confidence kr_seasonal_factor].
  set (h := Z.abs (py_hash keyword)).
  pose proof (Z.mod_pos_bound h 30 ltac:(lia)) as H30.
  pose proof (Z.mod_pos_bound h 40 ltac:(lia)) as H40.
  assert (Hmono : forall a n m, (n <= m)%Z ->
             fallback_at fl a n <= fallback_at fl a m).
  { intros a n m Hnm. unfold fallback_at.
    apply py_round_mono. apply fadd_mono; [lra|].
    apply fdiv_mono; [lra|]. now rewrite <- Zle_Qle. }
  repeat split; apply Hmono; lia.
Qed.

End Between.

Lemma binary64_ends :
  confidence_at binary64 1 == lit binary64 (65 # 100)
  /\ confidence_at binary64 0 == lit binary64 (85 # 100)
  /\ uniform_at binary64 (1 # 10) 5 0 == lit binary64 (1 # 10)
  /\ uniform_at binary64 (1 # 10) 5 1 == 5
  /\ uniform_at binary64 (5 # 100) 3 0 == lit binary64 (5 # 100)
  /\ uniform_at binary64 (5 # 100) 3 1 == 3
  /\ fallback_at binary64 (5 # 10) 0 == lit binary64 (5 # 10)
  /\ fallback_at binary64 (5 # 10) 29 == lit binary64 (79 # 100)
  /\ fallback_at binary64 (8 # 10) 0 == lit binary64 (8 # 10)
  /\ fallback_at binary64 (8 # 10) 39 == lit binary64 (119 # 100).
Proof. repeat split; vm_compute; reflexivity. Qed.

(** In binary64 arithmetic the record scored with the repository's
    predictor has a confidence between 0.65 and 0.85, a click share
    between 0.1 and 5 and a conversion share between 0.05 and 3. *)
Theorem scored_record_binary64 (py_hash : PyStr.str -> Z) (now : Month)
    (s : PyStr.str) (g : Rng) :
  exists r g',
    get_enhanced_keyword_data binary64 py_hash
      (enhanced_ai_predictor binary64 py_hash now) (PyStr s) g = (Return r, g')
    /\ lit binary64 (65 # 100) <= kr_confidence r <= lit binary64 (85 # 100)
    /\ lit binary64 (1 # 10) <= kr_aba_click_share r <= 5
    /\ lit binary64 (5 # 100) <= kr_aba_conversion_share r <= 3.
Proof.
  destruct (scored_record_between (R := binary64_rounding) py_hash now s g)
    as (r & g' & Hr & H1 & H2 & H3 & H4 & H5 & H6).
  destruct binary64_ends as (E1 & E2 & E3 & E4 & E5 & E6 & _).
  exists r, g'. split; [exact Hr|].
  repeat split.
  - exact (Qle_eq_l _ _ _ E1 H1).
  - exact (Qle_eq_r _ _ _ E2 H2).
  - exact (Qle_eq_l _ _ _ E3 H3).
  - exact (Qle_eq_r _ _ _ E4 H4).
  - exact (Qle_eq_l _ _ _ E5 H5).
  - exact (Qle_eq_r _ _ _ E6 H6).
Qed.

(** In binary64 arithmetic the fallback record has a confidence between
    0.5 and 0.79 and a seasonal factor between 0.8 and 1.19. *)
Theorem fallback_record_binary64 (py_hash : PyStr.str -> Z)
    (keyword : PyStr.str) :
  let r := _get_basic_keyword_data binary64 py_hash keyword in
  lit binary64 (5 # 10) <= kr_confidence r <= lit binary64 (79 # 100)
  /\ lit binary64 (8 # 10) <= kr_seasonal_factor r <= lit binary64 (119 # 100).
Proof.
  intros r.
  destruct (fallback_between (R := binary64_rounding) py_hash keyword)
    as (H1 & H2 & H3 & H4).
  destruct binary64_ends as (_ & _ & _ & _ & _ & _ & E1 & E2 & E3 & E4).
  repeat split.
  - exact (Qle_eq_l _ _ _ E1 H1).
  - exact (Qle_eq_r _ _ _ E2 H2).
  - exact (Qle_eq_l _ _ _ E3 H3).
  - exact (Qle_eq_r _ _ _ E4 H4).
Qed.
